(** * AudioFile.h: a PCM WAVE codec over an in-memory sample buffer

    Shallow embedding of [src/main/AudioFile.h] (class template
    [AudioFile<T>]) and the properties of its decode, encode, sample
    conversion and buffer management.

    Conventions of the embedding.

    - [int] is 32 bits wide.  Signed [int] arithmetic is written on [Z]:
      its overflow is undefined behaviour in C++, so no statement below
      depends on it.  Every conversion to a fixed-width type that the source
      spells out ([int16_t], [int32_t], [uint8_t], [uint16_t], [uint32_t])
      and every unsigned operation is written with its wrap-around.
    - The sample type [T] (a floating-point type in the source) is the type
      [Q] of exact rationals.  The conversions the codec applies on decode
      divide an integer of at most 24 bits by a power of two, which binary
      floating point performs exactly; [clamp] only compares.
    - An Arduino [String] is a [string].  [String::operator[]] returns a
      plain [char]: [byteAt s i] is the byte stored at position [i] (0
      outside the string, as the operator has it) and [charAt p s i] is the
      value that character has once promoted to [int], as lines 518, 761 and
      775 use it.  Whether plain [char] is signed is for the compiler to
      decide; it is a field of the [Platform] the definitions take.
    - [<<] and [|] are [Z.shiftl] and [Z.lor] on the promoted [int] values,
      negative ones included (the left shift of a negative value is the
      multiplication by a power of two that two's complement machines
      perform); the result is cut to the fixed-width type it is assigned
      to.
    - The conversion of a floating-point value outside the range of
      [int32_t] to [int32_t] (line 617) is undefined in C++; what the
      machine gives for it is the other field of the [Platform].
    - A [LinkedList<E>] is a [list E].  [LinkedList.h] and [Util.h] are not
      part of the sources; what is used of them is declared in the modules
      [LinkedList] and [Util] below. *)

From Stdlib Require Import ZArith QArith Qabs String Ascii List Lia Bool.
From stdpp Require Import base list.

Local Open Scope Z_scope.

(** ** Fixed-width integers *)

Module CInt.

Definition wrap_unsigned (w z : Z) : Z := z mod 2 ^ w.

Definition wrap_signed (w z : Z) : Z :=
  (z + 2 ^ (w - 1)) mod 2 ^ w - 2 ^ (w - 1).

Definition uint8_t : Z -> Z := wrap_unsigned 8.
Definition uint16_t : Z -> Z := wrap_unsigned 16.
Definition uint32_t : Z -> Z := wrap_unsigned 32.
Definition int16_t : Z -> Z := wrap_signed 16.
Definition int32_t : Z -> Z := wrap_signed 32.

Definition INT32_MAX : Z := 2147483647.
Definition INT32_MIN : Z := -2147483648.

(** [static_cast<int>(x)] of a floating-point [x]: the fraction is
    discarded (truncation toward zero). *)
Definition truncate (q : Q) : Z := Qnum q ÷ Z.pos (Qden q).

Definition Qlt_b (a b : Q) : bool := negb (Qle_bool b a).

End CInt.

Export CInt.

(** ** What the compiler and the machine decide *)

(** [plain_char_signed]: plain [char] is a signed type.
    [float_to_int32_beyond x]: what the conversion to [int32_t] gives for a
    floating-point [x] outside the range of [int32_t]. *)
Record Platform : Type := mkPlatform {
  plain_char_signed : bool;
  float_to_int32_beyond : Q -> Z
}.

(** Plain [char] signed, as GCC has it on x86 and on AVR; an out-of-range
    conversion gives [INT32_MIN], as on x86. *)
Definition signed_char_platform : Platform :=
  mkPlatform true (fun _ => INT32_MIN).

(** Plain [char] unsigned and an out-of-range conversion that saturates, as
    GCC has them on ARM. *)
Definition unsigned_char_platform : Platform :=
  mkPlatform false (fun x => if Qle_bool 0 x then INT32_MAX else INT32_MIN).

(** [(int32_t) x] of a floating-point [x]: the fraction is discarded when
    the result fits [int32_t]. *)
Definition float_to_int32 (p : Platform) (x : Q) : Z :=
  let z := truncate x in
  if (INT32_MIN <=? z) && (z <=? INT32_MAX) then z
  else int32_t (float_to_int32_beyond p x).

(** ** Control flow: [for] loops with an early [return] *)

Inductive step (S R : Type) : Type :=
| Next (s : S)
| Exit (s : S) (r : R).

Arguments Next {S R} s.
Arguments Exit {S R} s r.

(** [for_loop count i body s] runs [body i], [body (i+1)], ... [count]
    times from state [s], and stops at the first [Exit]. *)
Fixpoint for_loop {S R : Type} (count : nat) (i : Z)
    (body : Z -> S -> step S R) (s : S) : step S R :=
  match count with
  | O => Next s
  | Datatypes.S k =>
      match body i s with
      | Next s' => for_loop k (i + 1) body s'
      | Exit s' r => Exit s' r
      end
  end.

(** [for (int i = lo; i < hi; i++) body] *)
Definition for_range {S R : Type} (lo hi : Z)
    (body : Z -> S -> step S R) (s : S) : step S R :=
  for_loop (Z.to_nat (hi - lo)) lo body s.

(** ** The containers the codec is written against *)

Module LinkedList.

Section Ops.
Context {E : Type}.

(** Modelled from the spec: [LinkedList::size] ([LinkedList.h] is not
    among the sources); the number of elements. *)
Definition size (l : list E) : Z := Z.of_nat (length l).

(** Modelled from the spec: [LinkedList::operator[]] (random access);
    [dflt] stands for what an access outside the list yields. *)
Definition at_ (dflt : E) (l : list E) (i : Z) : E :=
  if i <? 0 then dflt else nth (Z.to_nat i) l dflt.

(** Modelled from the spec: assignment through [operator[]],
    [l[i] = x]. *)
Definition set_at (l : list E) (i : Z) (x : E) : list E :=
  if i <? 0 then l else <[Z.to_nat i := x]> l.

(** Modelled from the spec: [LinkedList::resize]; "growing a channel or
    adding channels zero-fills new samples; shrinking truncates".  New
    elements are value-initialised ([dflt]). *)
Definition resize (dflt : E) (l : list E) (n : Z) : list E :=
  list.resize (Z.to_nat n) dflt l.

(** Modelled from the spec: [LinkedList::Append] and [push_back]
    ("append"); the element is added at the end. *)
Definition Append (l : list E) (x : E) : list E := l ++ [x].
Definition push_back (l : list E) (x : E) : list E := l ++ [x].

(** Modelled from the spec: [LinkedList::clear]; the list becomes
    empty. *)
Definition clear (l : list E) : list E := [].

End Ops.

End LinkedList.

Module Util.

(** Modelled from the spec: [splitString] of [Util.h] ("sub-range
    extraction"); the characters at positions [from] .. [to - 1], as the
    [std::string (begin + from, begin + to)] it replaces. *)
Definition splitString (s : string) (from to : Z) : string :=
  substring (Z.to_nat from) (Z.to_nat (to - from)) s.

End Util.

Import Util.

(** The byte at [s[i]] of a [String], from 0 to 255. *)
Definition byteAt (s : string) (index : Z) : Z :=
  if index <? 0 then 0
  else match String.get (Z.to_nat index) s with
       | Some c => Z.of_N (N_of_ascii c)
       | None => 0
       end.

(** The [int] that [s[i]], a plain [char], is promoted to: the byte itself
    where plain [char] is unsigned, the byte as a two's complement number
    (from -128 to 127) where it is signed. *)
Definition charAt (p : Platform) (s : string) (index : Z) : Z :=
  if plain_char_signed p then wrap_signed 8 (byteAt s index)
  else byteAt s index.

(** The [String] whose characters are the bytes of a [LinkedList<uint8_t>]:
    what [writeDataToFile] writes, one [(char) fileData[i]] at a time. *)
Fixpoint bytesToString (l : list Z) : string :=
  match l with
  | [] => EmptyString
  | b :: l' => String (ascii_of_N (Z.to_N (uint8_t b))) (bytesToString l')
  end.

(** ** The class *)

Inductive AudioFileFormat : Type := Error | NotLoaded | Wave | Aiff.

Inductive Endianness : Type := LittleEndian | BigEndian.

(** The sample type, [template <class T>]. *)
Abbreviation T := Q (only parsing).

Definition AudioBuffer : Type := list (list T).

Record AudioFile : Type := mkAudioFile {
  samples : AudioBuffer;
  audioFileFormat : AudioFileFormat;
  sampleRate : Z;
  bitDepth : Z
}.

Definition AudioFileFormat_eqb (a b : AudioFileFormat) : bool :=
  match a, b with
  | Error, Error | NotLoaded, NotLoaded | Wave, Wave | Aiff, Aiff => true
  | _, _ => false
  end.

Definition with_samples (this : AudioFile) (b : AudioBuffer) : AudioFile :=
  mkAudioFile b (audioFileFormat this) (sampleRate this) (bitDepth this).

(** [samples[channel]] and [samples[channel][i]] *)
Definition channelAt (b : AudioBuffer) (channel : Z) : list T :=
  LinkedList.at_ [] b channel.

Definition sampleAt (b : AudioBuffer) (channel i : Z) : T :=
  LinkedList.at_ 0%Q (channelAt b channel) i.

(** *** Sample Converter *)

Definition clamp (value minValue maxValue : T) : T :=
  let value := if Qlt_b value minValue then value else minValue in
  let value := if Qlt_b maxValue value then value else maxValue in
  value.

Definition sixteenBitIntToSample (sample : Z) : T :=
  (inject_Z sample / inject_Z 32768)%Q.

Definition sampleToSixteenBitInt (sample : T) : Z :=
  let sample := clamp sample (-1)%Q 1%Q in
  int16_t (truncate (sample * inject_Z 32767)%Q).

Definition sampleToSingleByte (sample : T) : Z :=
  let sample := clamp sample (-1)%Q 1%Q in
  let sample := ((sample + 1) / inject_Z 2)%Q in
  uint8_t (truncate (sample * inject_Z 255)%Q).

Definition singleByteToSample (sample : Z) : T :=
  (inject_Z (sample - 128) / inject_Z 128)%Q.

(** The 24-bit conversions are written in line in [decodeWaveFile] and
    [saveToWaveFile]; they are named here. *)
Definition threeBytesToSample (p : Platform) (source : string)
    (sampleIndex : Z) : T :=
  let sampleAsInt :=
    int32_t
      (Z.lor (Z.lor (Z.shiftl (charAt p source (sampleIndex + 2)) 16)
                    (Z.shiftl (charAt p source (sampleIndex + 1)) 8))
             (charAt p source sampleIndex)) in
  let sampleAsInt :=
    if Z.land sampleAsInt 8388608 =? 0 then sampleAsInt
    else Z.lor sampleAsInt (Z.lnot 16777215) in
  (inject_Z sampleAsInt / inject_Z 8388608)%Q.

Definition sampleToThreeBytes (p : Platform) (sample : T) : list Z :=
  let sampleAsIntAgain := float_to_int32 p (sample * inject_Z 8388608)%Q in
  let b2 := Z.land (uint8_t (Z.shiftr sampleAsIntAgain 16)) 255 in
  let b1 := Z.land (uint8_t (Z.shiftr sampleAsIntAgain 8)) 255 in
  let b0 := Z.land (uint8_t sampleAsIntAgain) 255 in
  [b0; b1; b2].

(** *** Byte order *)

Definition fourBytesToInt (p : Platform) (source : string)
    (startIndex : Z) (endianness : Endianness) : Z :=
  match endianness with
  | LittleEndian =>
      int32_t
        (Z.lor (Z.lor (Z.lor (Z.shiftl (charAt p source (startIndex + 3)) 24)
                             (Z.shiftl (charAt p source (startIndex + 2)) 16))
                      (Z.shiftl (charAt p source (startIndex + 1)) 8))
               (charAt p source startIndex))
  | BigEndian =>
      int32_t
        (Z.lor (Z.lor (Z.lor (Z.shiftl (charAt p source startIndex) 24)
                             (Z.shiftl (charAt p source (startIndex + 1)) 16))
                      (Z.shiftl (charAt p source (startIndex + 2)) 8))
               (charAt p source (startIndex + 3)))
  end.

Definition twoBytesToInt (p : Platform) (source : string)
    (startIndex : Z) (endianness : Endianness) : Z :=
  match endianness with
  | LittleEndian =>
      int16_t (Z.lor (Z.shiftl (charAt p source (startIndex + 1)) 8)
                     (charAt p source startIndex))
  | BigEndian =>
      int16_t (Z.lor (Z.shiftl (charAt p source startIndex) 8)
                     (charAt p source (startIndex + 1)))
  end.

Fixpoint addStringToFileData (fileData : list Z) (s : string) : list Z :=
  match s with
  | EmptyString => fileData
  | String c s' =>
      addStringToFileData
        (LinkedList.Append fileData (uint8_t (Z.of_N (N_of_ascii c)))) s'
  end.

(** The definition (line 683) takes its integer as [uint32_t], the one of
    [addInt16ToFileData] (line 708) as [uint16_t]. *)
Definition addInt32ToFileData (fileData : list Z) (i : Z)
    (endianness : Endianness) : list Z :=
  let i := uint32_t i in
  let hh := Z.land (Z.shiftr i 24) 255 in
  let hl := Z.land (Z.shiftr i 16) 255 in
  let lh := Z.land (Z.shiftr i 8) 255 in
  let ll := Z.land i 255 in
  let bytes :=
    match endianness with
    | LittleEndian => (ll, lh, hl, hh)
    | BigEndian => (hh, hl, lh, ll)
    end in
  let '(b0, b1, b2, b3) := bytes in
  LinkedList.Append
    (LinkedList.Append
       (LinkedList.Append (LinkedList.Append fileData b0) b1) b2) b3.

Definition addInt16ToFileData (fileData : list Z) (i : Z)
    (endianness : Endianness) : list Z :=
  let i := uint16_t i in
  let h := Z.land (Z.shiftr i 8) 255 in
  let l := Z.land i 255 in
  let bytes :=
    match endianness with
    | LittleEndian => (l, h)
    | BigEndian => (h, l)
    end in
  LinkedList.Append (LinkedList.Append fileData (fst bytes)) (snd bytes).

(** The loop of [getIndexOfString]: [count] positions are left to try,
    starting at [i]; the first match is the result ([break]). *)
Fixpoint getIndexOfString_from (count : nat) (i : Z)
    (source stringToSearchFor : string) : Z :=
  match count with
  | O => -1
  | Datatypes.S k =>
      let stringLength := Z.of_nat (String.length stringToSearchFor) in
      let section := splitString source i (i + stringLength) in
      if String.eqb section stringToSearchFor then i
      else getIndexOfString_from k (i + 1) source stringToSearchFor
  end.

(** The loop runs while [i < source.length() - stringLength]; a source
    shorter than the string searched for does not occur (the callers have
    compared its first four characters with "RIFF"). *)
Definition getIndexOfString (source stringToSearchFor : string) : Z :=
  let stringLength := Z.of_nat (String.length stringToSearchFor) in
  getIndexOfString_from
    (Z.to_nat (Z.of_nat (String.length source) - stringLength)) 0
    source stringToSearchFor.

(** *** Construction and accessors *)

Definition AudioFile_new : AudioFile :=
  let samples := LinkedList.resize [] ([] : AudioBuffer) 1 in
  let samples :=
    LinkedList.set_at samples 0
      (LinkedList.resize 0%Q (channelAt samples 0) 0) in
  mkAudioFile samples NotLoaded 44100 16.

Definition getSampleRate (this : AudioFile) : Z := sampleRate this.

Definition getNumChannels (this : AudioFile) : Z :=
  LinkedList.size (samples this).

Definition isMono (this : AudioFile) : bool := getNumChannels this =? 1.

Definition isStereo (this : AudioFile) : bool := getNumChannels this =? 2.

Definition getBitDepth (this : AudioFile) : Z := bitDepth this.

Definition getNumSamplesPerChannel (this : AudioFile) : Z :=
  if LinkedList.size (samples this) >? 0
  then LinkedList.size (channelAt (samples this) 0)
  else 0.

(** The quotient of two [double]s, here the rational one: at a sample rate
    of 0 the source divides by 0.0 and gives an infinity or a NaN, which [Q]
    does not have (its [x / 0] is 0). *)
Definition getLengthInSeconds (this : AudioFile) : Q :=
  (inject_Z (getNumSamplesPerChannel this) / inject_Z (sampleRate this))%Q.

Definition setBitDepth (this : AudioFile) (numBitsPerSample : Z) : AudioFile :=
  mkAudioFile (samples this) (audioFileFormat this) (sampleRate this)
    numBitsPerSample.

Definition setSampleRate (this : AudioFile) (newSampleRate : Z) : AudioFile :=
  mkAudioFile (samples this) (audioFileFormat this) (uint32_t newSampleRate)
    (bitDepth this).

Definition clearAudioBuffer (this : AudioFile) : AudioFile :=
  let cleared :=
    for_range 0 (LinkedList.size (samples this))
      (fun i (b : AudioBuffer) =>
         Next (R := unit)
           (LinkedList.set_at b i (LinkedList.clear (channelAt b i))))
      (samples this) in
  match cleared with
  | Next b | Exit b _ => with_samples this (LinkedList.clear b)
  end.

(** *** Buffer management *)

(** [samples[channel][i] = x] and [samples[channel].Append (x)] *)
Definition setSampleAt (b : AudioBuffer) (channel i : Z) (x : T) : AudioBuffer :=
  LinkedList.set_at b channel (LinkedList.set_at (channelAt b channel) i x).

Definition appendSample (b : AudioBuffer) (channel : Z) (x : T) : AudioBuffer :=
  LinkedList.set_at b channel (LinkedList.Append (channelAt b channel) x).

(** [samples[channel].resize (n)] *)
Definition resizeChannel (b : AudioBuffer) (channel n : Z) : AudioBuffer :=
  LinkedList.set_at b channel (LinkedList.resize 0%Q (channelAt b channel) n).

(** The channel count [getNumChannels()] in the loop conditions is read once:
    no loop body changes the number of channels. *)
Definition setAudioBuffer (this : AudioFile) (newBuffer : AudioBuffer)
    : AudioFile * bool :=
  let numChannels := LinkedList.size newBuffer in
  if numChannels <=? 0 then (this, false)
  else
    let numSamples := LinkedList.size (channelAt newBuffer 0) in
    let resized :=
      LinkedList.resize [] (samples this) (LinkedList.size newBuffer) in
    let copied :=
      for_range 0 (LinkedList.size resized)
        (fun k (b : AudioBuffer) =>
           if negb (LinkedList.size (channelAt newBuffer k) =? numSamples)
           then Exit b false
           else
             let b := resizeChannel b k numSamples in
             for_range 0 numSamples
               (fun i (b : AudioBuffer) =>
                  Next (setSampleAt b k i (sampleAt newBuffer k i)))
               b)
        resized in
    match copied with
    | Next b => (with_samples this b, true)
    | Exit b r => (with_samples this b, r)
    end.

Section Fill.

(** [LinkedList::fill (first, last, value)], called on the buffer itself
    by [setNumSamplesPerChannel] and [setNumChannels] where the original
    code called [std::fill] on one channel.  [LinkedList.h] is not among
    the sources and nothing else describes it: it is a parameter. *)
Variable fill : AudioBuffer -> Z -> Z -> T -> AudioBuffer.

Definition setNumSamplesPerChannel (this : AudioFile) (numSamples : Z)
    : AudioFile :=
  let originalSize := getNumSamplesPerChannel this in
  let resized :=
    for_range 0 (getNumChannels this)
      (fun i (b : AudioBuffer) =>
         let b := resizeChannel b i numSamples in
         if numSamples >? originalSize
         then Next (R := unit)
                (fill b (i + originalSize) (LinkedList.size b - 1) 0%Q)
         else Next b)
      (samples this) in
  match resized with
  | Next b | Exit b _ => with_samples this b
  end.

Definition setAudioBufferSize (this : AudioFile) (numChannels numSamples : Z)
    : AudioFile :=
  let this :=
    with_samples this (LinkedList.resize [] (samples this) numChannels) in
  setNumSamplesPerChannel this numSamples.

Definition setNumChannels (this : AudioFile) (numChannels : Z) : AudioFile :=
  let originalNumChannels := getNumChannels this in
  let originalNumSamplesPerChannel := getNumSamplesPerChannel this in
  let resized := LinkedList.resize [] (samples this) numChannels in
  if numChannels >? originalNumChannels
  then
    match
      for_range originalNumChannels numChannels
        (fun i (b : AudioBuffer) =>
           let b := resizeChannel b i originalNumSamplesPerChannel in
           Next (R := unit) (fill b i (LinkedList.size b - 1) 0%Q))
        resized
    with
    | Next b | Exit b _ => with_samples this b
    end
  else with_samples this resized.

End Fill.

(** *** Decoding *)

Definition determineAudioFileFormat (fileData : string) : AudioFileFormat :=
  let header := splitString fileData 0 4 in
  if String.eqb header "RIFF" then Wave else Error.

(** Line 426 compares [headerChunkID], a name the function does not declare;
    it is the string read into [header] at its first line.  The strings
    [formatChunkID] and [dataChunkID] are read and not used. *)
Definition decodeWaveFile (p : Platform) (this : AudioFile)
    (fileData : string) : AudioFile * bool :=
  let header := splitString fileData 0 4 in
  let format := splitString fileData 8 12 in
  let indexOfDataChunk := getIndexOfString fileData "data" in
  let indexOfFormatChunk := getIndexOfString fileData "fmt" in
  if (indexOfDataChunk =? -1) || (indexOfFormatChunk =? -1)
     || negb (String.eqb header "RIFF") || negb (String.eqb format "WAVE")
  then (this, false)
  else
    let f := indexOfFormatChunk in
    let audioFormat := twoBytesToInt p fileData (f + 8) LittleEndian in
    let numChannels := twoBytesToInt p fileData (f + 10) LittleEndian in
    let sampleRate :=
      uint32_t (fourBytesToInt p fileData (f + 12) LittleEndian) in
    let numBytesPerSecond := fourBytesToInt p fileData (f + 16) LittleEndian in
    let numBytesPerBlock := twoBytesToInt p fileData (f + 20) LittleEndian in
    let bitDepth := twoBytesToInt p fileData (f + 22) LittleEndian in
    let this :=
      mkAudioFile (samples this) (audioFileFormat this) sampleRate bitDepth in
    let numBytesPerSample := bitDepth ÷ 8 in
    if negb (audioFormat =? 1) then (this, false)
    else if (numChannels <? 1) || (numChannels >? 2) then (this, false)
    else if negb (uint32_t numBytesPerSecond
                  =? uint32_t (numChannels * sampleRate * bitDepth) / 8)
            || negb (numBytesPerBlock =? numChannels * numBytesPerSample)
    then (this, false)
    else if negb (bitDepth =? 8) && negb (bitDepth =? 16)
            && negb (bitDepth =? 24)
    then (this, false)
    else
      let d := indexOfDataChunk in
      let dataChunkSize := fourBytesToInt p fileData (d + 4) LittleEndian in
      let numSamples := dataChunkSize ÷ (numChannels * bitDepth ÷ 8) in
      let samplesStartIndex := indexOfDataChunk + 8 in
      let this := clearAudioBuffer this in
      let resized := LinkedList.resize [] (samples this) numChannels in
      let decoded :=
        for_range 0 numSamples
          (fun i (b : AudioBuffer) =>
             for_range 0 numChannels
               (fun channel (b : AudioBuffer) =>
                  let sampleIndex :=
                    samplesStartIndex + numBytesPerBlock * i
                    + channel * numBytesPerSample in
                  if bitDepth =? 8 then
                    let sample :=
                      singleByteToSample
                        (uint8_t (charAt p fileData sampleIndex)) in
                    Next (appendSample b channel sample)
                  else if bitDepth =? 16 then
                    let sampleAsInt :=
                      twoBytesToInt p fileData sampleIndex LittleEndian in
                    let sample := sixteenBitIntToSample sampleAsInt in
                    Next (appendSample b channel sample)
                  else if bitDepth =? 24 then
                    let sample := threeBytesToSample p fileData sampleIndex in
                    Next (appendSample b channel sample)
                  else Exit b false)
               b)
          resized in
      match decoded with
      | Next b => (with_samples this b, true)
      | Exit b r => (with_samples this b, r)
      end.

Definition load (p : Platform) (this : AudioFile) (fileData : string)
    : AudioFile * bool :=
  let this :=
    mkAudioFile (samples this) (determineAudioFileFormat fileData)
      (sampleRate this) (bitDepth this) in
  if AudioFileFormat_eqb (audioFileFormat this) Wave
  then decodeWaveFile p this fileData
  else (this, false).

(** *** Encoding *)

(** How [saveToWaveFile] ends: with [return false] after one of its two
    messages, or by handing the assembled bytes to [writeDataToFile], which
    writes them to the file at [filePath] (not modelled). *)
Inductive SaveOutcome : Type :=
| UnsupportedBitDepth
| CouldNotSave
| WriteDataToFile (fileData : list Z).

Definition saveToWaveFile (p : Platform) (this : AudioFile) : SaveOutcome :=
  let fileData : list Z := [] in
  let dataChunkSize :=
    int32_t (getNumSamplesPerChannel this
             * (getNumChannels this * bitDepth this ÷ 8)) in
  let fileData := addStringToFileData fileData "RIFF" in
  let fileSizeInBytes := int32_t (4 + 24 + 8 + dataChunkSize) in
  let fileData := addInt32ToFileData fileData fileSizeInBytes LittleEndian in
  let fileData := addStringToFileData fileData "WAVE" in
  let fileData := addStringToFileData fileData "fmt " in
  let fileData := addInt32ToFileData fileData 16 LittleEndian in
  let fileData := addInt16ToFileData fileData 1 LittleEndian in
  let fileData :=
    addInt16ToFileData fileData (uint16_t (getNumChannels this)) LittleEndian in
  let fileData :=
    addInt32ToFileData fileData (uint32_t (sampleRate this)) LittleEndian in
  let numBytesPerSecond :=
    int32_t (uint32_t (getNumChannels this * sampleRate this * bitDepth this)
             / 8) in
  let fileData := addInt32ToFileData fileData numBytesPerSecond LittleEndian in
  let numBytesPerBlock := int16_t (getNumChannels this * (bitDepth this ÷ 8)) in
  let fileData := addInt16ToFileData fileData numBytesPerBlock LittleEndian in
  let fileData :=
    addInt16ToFileData fileData (uint16_t (bitDepth this)) LittleEndian in
  let fileData := addStringToFileData fileData "data" in
  let fileData := addInt32ToFileData fileData dataChunkSize LittleEndian in
  let written :=
    for_range 0 (getNumSamplesPerChannel this)
      (fun i (fileData : list Z) =>
         for_range 0 (getNumChannels this)
           (fun channel (fileData : list Z) =>
              if bitDepth this =? 8 then
                let byte := sampleToSingleByte (sampleAt (samples this) channel i) in
                Next (LinkedList.push_back fileData byte)
              else if bitDepth this =? 16 then
                let sampleAsInt :=
                  sampleToSixteenBitInt (sampleAt (samples this) channel i) in
                Next (addInt16ToFileData fileData sampleAsInt LittleEndian)
              else if bitDepth this =? 24 then
                let bytes :=
                  sampleToThreeBytes p (sampleAt (samples this) channel i) in
                Next (LinkedList.Append
                        (LinkedList.Append
                           (LinkedList.Append fileData (nth 0 bytes 0))
                           (nth 1 bytes 0))
                        (nth 2 bytes 0))
              else Exit fileData false)
           fileData)
      fileData in
  match written with
  | Exit _ _ => UnsupportedBitDepth
  | Next fileData =>
      if negb (fileSizeInBytes =? LinkedList.size fileData - 8)
         || negb (dataChunkSize
                  =? getNumSamplesPerChannel this * getNumChannels this
                     * (bitDepth this ÷ 8))
      then CouldNotSave
      else WriteDataToFile fileData
  end.

Definition save (p : Platform) (this : AudioFile) (format : AudioFileFormat)
    : option SaveOutcome :=
  if AudioFileFormat_eqb format Wave then Some (saveToWaveFile p this)
  else None.

(** ** What the format looks like, in the words of the specification *)

(** Digit [k] of [v] in base 256. *)
Definition digit (k : nat) (v : Z) : Z := (v / 256 ^ Z.of_nat k) mod 256.

(** The [width]-byte little-endian encoding of [v]: byte [k] is digit [k]. *)
Definition le_bytes (width : nat) (v : Z) : list Z :=
  map (fun k => digit k v) (seq 0 width).

Definition ascii_bytes (s : string) : list Z :=
  map (fun c => Z.of_N (N_of_ascii c)) (list_ascii_of_string s).

(** The 44 bytes in front of the samples (specification, section 6). *)
Definition wave_header (numChannels sampleRate bitDepth dataChunkSize : Z)
    : list Z :=
  ascii_bytes "RIFF" ++ le_bytes 4 (4 + 24 + 8 + dataChunkSize)
  ++ ascii_bytes "WAVE"
  ++ ascii_bytes "fmt " ++ le_bytes 4 16 ++ le_bytes 2 1
  ++ le_bytes 2 numChannels ++ le_bytes 4 sampleRate
  ++ le_bytes 4 (uint32_t (numChannels * sampleRate * bitDepth) / 8)
  ++ le_bytes 2 (numChannels * (bitDepth / 8)) ++ le_bytes 2 bitDepth
  ++ ascii_bytes "data" ++ le_bytes 4 dataChunkSize.

(** The integer a [width]-byte little-endian field holds, unsigned and
    signed (two's complement). *)
Definition le_unsigned (width : nat) (s : string) (offset : Z) : Z :=
  fold_right (fun k acc => byteAt s (offset + Z.of_nat k) + 256 * acc) 0
    (seq 0 width).

Definition le_signed (width : nat) (s : string) (offset : Z) : Z :=
  wrap_signed (8 * Z.of_nat width) (le_unsigned width s offset).

(** The normalised value of a PCM sample of [bitDepth] bits stored at
    [offset]: 8-bit unsigned, 16-bit and 24-bit little-endian signed. *)
Definition pcm_sample (bitDepth : Z) (s : string) (offset : Z) : T :=
  if bitDepth =? 8 then
    (inject_Z (le_unsigned 1 s offset - 128) / inject_Z 128)%Q
  else if bitDepth =? 16 then
    (inject_Z (le_signed 2 s offset) / inject_Z 32768)%Q
  else (inject_Z (le_signed 3 s offset) / inject_Z 8388608)%Q.

(** The sample [decodeWaveFile] appends for the bytes at [sampleIndex]. *)
Definition decodedSample (p : Platform) (bitDepth : Z) (fileData : string)
    (sampleIndex : Z) : T :=
  if bitDepth =? 8 then
    singleByteToSample (uint8_t (charAt p fileData sampleIndex))
  else if bitDepth =? 16 then
    sixteenBitIntToSample (twoBytesToInt p fileData sampleIndex LittleEndian)
  else threeBytesToSample p fileData sampleIndex.

(** All channels of a buffer have the same length. *)
Definition equal_length_channels (b : AudioBuffer) : Prop :=
  forall c1 c2 : list T, In c1 b -> In c2 b -> length c1 = length c2.

(** The header fields of a stream, read where [decodeWaveFile] reads them:
    relative to the first occurrence of "fmt". *)
Definition fmt_audioFormat (p : Platform) (fileData : string) : Z :=
  twoBytesToInt p fileData (getIndexOfString fileData "fmt" + 8)
    LittleEndian.
Definition fmt_numChannels (p : Platform) (fileData : string) : Z :=
  twoBytesToInt p fileData (getIndexOfString fileData "fmt" + 10)
    LittleEndian.
Definition fmt_sampleRate (p : Platform) (fileData : string) : Z :=
  uint32_t (fourBytesToInt p fileData (getIndexOfString fileData "fmt" + 12)
              LittleEndian).
Definition fmt_numBytesPerSecond (p : Platform) (fileData : string) : Z :=
  uint32_t (fourBytesToInt p fileData (getIndexOfString fileData "fmt" + 16)
              LittleEndian).
Definition fmt_numBytesPerBlock (p : Platform) (fileData : string) : Z :=
  twoBytesToInt p fileData (getIndexOfString fileData "fmt" + 20)
    LittleEndian.
Definition fmt_bitDepth (p : Platform) (fileData : string) : Z :=
  twoBytesToInt p fileData (getIndexOfString fileData "fmt" + 22)
    LittleEndian.
Definition data_chunkSize (p : Platform) (fileData : string) : Z :=
  fourBytesToInt p fileData (getIndexOfString fileData "data" + 4)
    LittleEndian.
Definition data_samplesStart (fileData : string) : Z :=
  getIndexOfString fileData "data" + 8.

(** The round trip of the specification (section 8) for one buffer: the
    bytes [saveToWaveFile] hands over are decoded by [decodeWaveFile], the
    channel count, the sample count of every channel and the sample rate are
    those of the buffer, and every sample is within [tolerance] of the
    original. *)
Definition roundtrip_within (p : Platform) (tolerance : Q) (this : AudioFile)
    : Prop :=
  exists (fileData : list Z) (decoded : AudioFile),
    saveToWaveFile p this = WriteDataToFile fileData
    /\ decodeWaveFile p AudioFile_new (bytesToString fileData)
       = (decoded, true)
    /\ getNumChannels decoded = getNumChannels this
    /\ (forall channel, 0 <= channel < getNumChannels this ->
          LinkedList.size (channelAt (samples decoded) channel)
          = getNumSamplesPerChannel this)
    /\ getSampleRate decoded = getSampleRate this
    /\ forall channel i,
         0 <= channel < getNumChannels this ->
         0 <= i < getNumSamplesPerChannel this ->
         (Qabs (sampleAt (samples decoded) channel i
                - sampleAt (samples this) channel i) <= tolerance)%Q.

(** What [fill] may do for the results on [setNumChannels]: it keeps the
    number of channels and their lengths, and a sample it changes lies in a
    channel of the range given and becomes the value given. *)
Definition fill_frame (fill : AudioBuffer -> Z -> Z -> T -> AudioBuffer)
    : Prop :=
  forall (b : AudioBuffer) (first last : Z) (v : T),
    length (fill b first last v) = length b
    /\ (forall channel,
          length (channelAt (fill b first last v) channel)
          = length (channelAt b channel))
    /\ (forall channel i,
          sampleAt (fill b first last v) channel i = sampleAt b channel i
          \/ (first <= channel <= last
              /\ sampleAt (fill b first last v) channel i = v)).

(** One [fill] within [fill_frame]: every sample of the channels [first] to
    [last] becomes [v]. *)
Definition fillChannels (b : AudioBuffer) (first last : Z) (v : T)
    : AudioBuffer :=
  imap (fun (k : nat) (channel : list T) =>
          if (first <=? Z.of_nat k) && (Z.of_nat k <=? last)
          then map (fun _ => v) channel else channel) b.

(** A [fill] outside [fill_frame]: it assigns the elements [first] to
    [last] of the list it is called on, as [samples.fill (first, last,
    value)] reads.  The elements of [samples] are channels; the channel that
    the value is converted to is taken to be the empty one. *)
Definition fillElements (b : AudioBuffer) (first last : Z) (v : T)
    : AudioBuffer :=
  imap (fun (k : nat) (channel : list T) =>
          if (first <=? Z.of_nat k) && (Z.of_nat k <=? last)
          then [] else channel) b.

(** The bytes the loop of [saveToWaveFile] appends for one sample. *)
Definition encodedSample (p : Platform) (bitDepth : Z) (sample : T)
    : list Z :=
  if bitDepth =? 8 then [sampleToSingleByte sample]
  else if bitDepth =? 16 then
    addInt16ToFileData [] (sampleToSixteenBitInt sample) LittleEndian
  else sampleToThreeBytes p sample.

(** The samples of a buffer in the order of the file: for each sample index
    in turn, the sample of each channel in turn. *)
Definition samples_payload (p : Platform) (this : AudioFile) : list Z :=
  flat_map
    (fun i : nat =>
       flat_map
         (fun channel : nat =>
            encodedSample p (bitDepth this)
              (sampleAt (samples this) (Z.of_nat channel) (Z.of_nat i)))
         (seq 0 (Z.to_nat (getNumChannels this))))
    (seq 0 (Z.to_nat (getNumSamplesPerChannel this))).

(** Where plain [char] is signed, a byte of 0x80 or more is read as a
    negative number, whose sign covers the bytes above it (lines 518, 761
    and 775 combine the characters without a cast).  An integer of [width]
    bytes is read as it was written when plain [char] is unsigned, or when
    each of its bytes below the top one is less than 0x80. *)
Definition read_as_written (p : Platform) (width : nat) (v : Z) : bool :=
  negb (plain_char_signed p)
  || forallb (fun k => digit k v <? 128) (seq 0 (width - 1)).

(** The same for the [width] bytes stored at [offset] in a stream. *)
Definition stored_as_read (p : Platform) (width : nat) (s : string)
    (offset : Z) : bool :=
  negb (plain_char_signed p)
  || forallb (fun k => byteAt s (offset + Z.of_nat k) <? 128)
       (seq 0 (width - 1)).

(** The 24-bit value of a sample: [sample * 8388608] without its fraction,
    reduced to 24 bits two's complement. *)
Definition twentyFourBitValue (sample : T) : Z :=
  wrap_signed 24 (truncate (sample * inject_Z 8388608)%Q).

(** The checks of [decodeWaveFile], lines 426 to 484, on the fields of a
    stream. *)
Definition passes_checks (p : Platform) (fileData : string) : Prop :=
  splitString fileData 0 4 = "RIFF"%string
  /\ splitString fileData 8 12 = "WAVE"%string
  /\ getIndexOfString fileData "data" <> -1
  /\ getIndexOfString fileData "fmt" <> -1
  /\ fmt_audioFormat p fileData = 1
  /\ (fmt_numChannels p fileData = 1 \/ fmt_numChannels p fileData = 2)
  /\ fmt_numBytesPerSecond p fileData
     = uint32_t (fmt_numChannels p fileData * fmt_sampleRate p fileData
                 * fmt_bitDepth p fileData) / 8
  /\ fmt_numBytesPerBlock p fileData
     = fmt_numChannels p fileData * (fmt_bitDepth p fileData ÷ 8)
  /\ (fmt_bitDepth p fileData = 8 \/ fmt_bitDepth p fileData = 16
      \/ fmt_bitDepth p fileData = 24).

(** ** Loops *)

Section ForLoop.

Context {S R : Type}.
Variable body : Z -> S -> step S R.

(** A loop whose body keeps an invariant and never leaves runs to its end
    with the invariant. *)
Lemma for_loop_invariant (P : Z -> S -> Prop) :
  forall (count : nat) (i : Z) (s : S),
    P i s ->
    (forall j s0, i <= j < i + Z.of_nat count -> P j s0 ->
                  exists s1, body j s0 = Next s1 /\ P (j + 1) s1) ->
    exists s', for_loop count i body s = Next s' /\ P (i + Z.of_nat count) s'.
Proof.
  induction count as [|k IH]; intros i s Hs Hbody; simpl.
  - exists s. split; [reflexivity|]. now replace (i + Z.of_nat 0) with i by lia.
  - destruct (Hbody i s) as (s1 & Hb & Hs1); [lia|assumption|].
    rewrite Hb.
    destruct (IH (i + 1) s1 Hs1) as (s' & Hl & Hs').
    + intros j s0 Hj. apply Hbody. lia.
    + exists s'. split; [assumption|].
      now replace (i + Z.of_nat (Datatypes.S k))
        with (i + 1 + Z.of_nat k) by lia.
Qed.

Lemma for_range_invariant (P : Z -> S -> Prop) (lo hi : Z) (s : S) :
  lo <= hi ->
  P lo s ->
  (forall j s0, lo <= j < hi -> P j s0 ->
                exists s1, body j s0 = Next s1 /\ P (j + 1) s1) ->
  exists s', for_range lo hi body s = Next s' /\ P hi s'.
Proof.
  intros Hle Hs Hbody. unfold for_range.
  destruct (for_loop_invariant P (Z.to_nat (hi - lo)) lo s Hs) as (s' & H1 & H2).
  - intros j s0 Hj. apply Hbody. lia.
  - exists s'. split; [assumption|].
    replace (lo + Z.of_nat (Z.to_nat (hi - lo))) with hi in H2 by lia.
    exact H2.
Qed.

Lemma for_range_empty (lo hi : Z) (s : S) :
  hi <= lo -> for_range lo hi body s = Next s.
Proof.
  intros H. unfold for_range.
  now replace (Z.to_nat (hi - lo)) with O by lia.
Qed.

End ForLoop.

(** ** Construction *)

(** C10.  A freshly constructed [AudioFile] has bit depth 16, sample rate
    44100, exactly one channel holding no sample (so [getNumChannels] is 1,
    [isMono] holds, [getNumSamplesPerChannel] is 0 and [getLengthInSeconds]
    is 0) and the format tag [NotLoaded]. *)
Theorem AudioFile_new_state :
  getBitDepth AudioFile_new = 16
  /\ getSampleRate AudioFile_new = 44100
  /\ samples AudioFile_new = [[]]
  /\ getNumChannels AudioFile_new = 1
  /\ isMono AudioFile_new = true
  /\ isStereo AudioFile_new = false
  /\ getNumSamplesPerChannel AudioFile_new = 0
  /\ (getLengthInSeconds AudioFile_new == 0)%Q
  /\ audioFileFormat AudioFile_new = NotLoaded.
Proof. repeat split. Qed.

(** ** Sample Converter *)

Lemma Qlt_b_false_of_le (a b : Q) : (b <= a)%Q -> Qlt_b a b = false.
Proof.
  intros H. unfold Qlt_b. apply Qle_bool_iff in H. now rewrite H.
Qed.

Lemma Qlt_b_true_lt (a b : Q) : Qlt_b a b = true -> (a < b)%Q.
Proof.
  unfold Qlt_b. intros H. apply Qnot_le_lt. intros Hle.
  apply Qle_bool_iff in Hle. rewrite Hle in H. discriminate.
Qed.

(** With the two comparisons as line 840 and line 843 have them, [clamp]
    returns its upper bound, whatever the value. *)
Lemma clamp_is_maxValue (value minValue maxValue : T) :
  (minValue <= maxValue)%Q -> clamp value minValue maxValue = maxValue.
Proof.
  intros Hmm. unfold clamp.
  destruct (Qlt_b value minValue) eqn:Hlt.
  - apply Qlt_b_true_lt in Hlt.
    rewrite Qlt_b_false_of_le; [reflexivity|].
    apply Qlt_le_weak. eapply Qlt_le_trans; eassumption.
  - now rewrite Qlt_b_false_of_le.
Qed.

Lemma sampleToSixteenBitInt_constant (sample : T) :
  sampleToSixteenBitInt sample = 32767.
Proof.
  unfold sampleToSixteenBitInt. rewrite clamp_is_maxValue; [reflexivity|].
  discriminate.
Qed.

Lemma sampleToSingleByte_constant (sample : T) :
  sampleToSingleByte sample = 255.
Proof.
  unfold sampleToSingleByte. rewrite clamp_is_maxValue; [reflexivity|].
  discriminate.
Qed.

(** C2.  [sampleToSixteenBitInt (2.0)] is 32767, and so is
    [sampleToSixteenBitInt (-2.0)]: the negative extreme is not reached. *)
Theorem sampleToSixteenBitInt_at_extremes :
  sampleToSixteenBitInt 2%Q = 32767 /\ sampleToSixteenBitInt (-2)%Q = 32767.
Proof. split; reflexivity. Qed.

(** C6.  Converting the 16-bit integer 0 to a sample and back gives 32767,
    and the 8-bit integer 128 (the sample 0) gives 255: neither is within
    one quantization step. *)
Theorem int_sample_int_at_silence :
  sampleToSixteenBitInt (sixteenBitIntToSample 0) = 32767
  /\ sampleToSingleByte (singleByteToSample 128) = 255.
Proof. split; reflexivity. Qed.

(** ** Buffers: access and update *)

Lemma at_nat {E : Type} (dflt : E) (l : list E) (n : nat) :
  LinkedList.at_ dflt l (Z.of_nat n) = nth n l dflt.
Proof.
  unfold LinkedList.at_.
  destruct (Z.ltb_spec (Z.of_nat n) 0) as [H|H]; [lia|].
  now rewrite Nat2Z.id.
Qed.

Lemma at_outside {E : Type} (dflt : E) (l : list E) (i : Z) :
  i < 0 \/ Z.of_nat (length l) <= i -> LinkedList.at_ dflt l i = dflt.
Proof.
  intros H. unfold LinkedList.at_.
  destruct (Z.ltb_spec i 0) as [Hi|Hi]; [reflexivity|].
  apply nth_overflow. lia.
Qed.

Lemma at_ext {E : Type} (dflt : E) (l1 l2 : list E) :
  length l1 = length l2 ->
  (forall i, 0 <= i < Z.of_nat (length l1) ->
             LinkedList.at_ dflt l1 i = LinkedList.at_ dflt l2 i) ->
  l1 = l2.
Proof.
  intros Hlen H. apply (nth_ext _ _ dflt dflt Hlen).
  intros n Hn. rewrite <- !at_nat. apply H. lia.
Qed.

Lemma length_set_at {E : Type} (l : list E) (i : Z) (x : E) :
  length (LinkedList.set_at l i x) = length l.
Proof.
  unfold LinkedList.set_at. destruct (i <? 0); [reflexivity|].
  apply length_insert.
Qed.

Lemma at_set_at_same {E : Type} (dflt : E) (l : list E) (i : Z) (x : E) :
  0 <= i < Z.of_nat (length l) ->
  LinkedList.at_ dflt (LinkedList.set_at l i x) i = x.
Proof.
  intros H. unfold LinkedList.at_, LinkedList.set_at.
  destruct (Z.ltb_spec i 0) as [Hi|Hi]; [lia|].
  rewrite nth_lookup, list_lookup_insert_eq; [reflexivity|lia].
Qed.

Lemma at_set_at_other {E : Type} (dflt : E) (l : list E) (i j : Z) (x : E) :
  i <> j ->
  LinkedList.at_ dflt (LinkedList.set_at l i x) j = LinkedList.at_ dflt l j.
Proof.
  intros H. unfold LinkedList.at_, LinkedList.set_at.
  destruct (Z.ltb_spec j 0) as [Hj|Hj]; [reflexivity|].
  destruct (Z.ltb_spec i 0) as [Hi|Hi]; [reflexivity|].
  rewrite !nth_lookup, list_lookup_insert_ne; [reflexivity|lia].
Qed.

Lemma at_repeat {E : Type} (dflt : E) (n : nat) (i : Z) :
  LinkedList.at_ dflt (repeat dflt n) i = dflt.
Proof.
  unfold LinkedList.at_. destruct (i <? 0); [reflexivity|].
  apply nth_repeat.
Qed.

Lemma resize_nil {E : Type} (dflt : E) (n : Z) :
  LinkedList.resize dflt [] n = repeat dflt (Z.to_nat n).
Proof.
  unfold LinkedList.resize. rewrite resize_nil.
  induction (Z.to_nat n) as [|k IH]; simpl; [reflexivity|now rewrite IH].
Qed.

(** ** [setAudioBuffer] *)

Lemma setAudioBuffer_no_channel (this : AudioFile) :
  setAudioBuffer this [] = (this, false).
Proof. reflexivity. Qed.

(** C7.  A replacement whose second channel is longer than its first is
    refused ([false]), and the owned buffer of a fresh [AudioFile] is then
    no longer the one it was: it has two channels, the first one copied. *)
Theorem setAudioBuffer_unequal_channels :
  setAudioBuffer AudioFile_new [[1%Q]; [1%Q; 2%Q]]
  = (with_samples AudioFile_new [[1%Q]; []], false)
  /\ samples AudioFile_new = [[]].
Proof. split; reflexivity. Qed.

(** ** [setNumChannels] *)

Section FillFrame.

Variable fill : AudioBuffer -> Z -> Z -> T -> AudioBuffer.
Hypothesis fill_ok : fill_frame fill.

Lemma fill_length (b : AudioBuffer) (first last : Z) (v : T) :
  length (fill b first last v) = length b.
Proof. apply fill_ok. Qed.

Lemma fill_below (b : AudioBuffer) (first last : Z) (v : T) (channel : Z) :
  channel < first ->
  channelAt (fill b first last v) channel = channelAt b channel.
Proof.
  intros Hc. destruct (fill_ok b first last v) as (_ & Hlen & Hs).
  apply (at_ext 0%Q); [apply Hlen|].
  intros i _. destruct (Hs channel i) as [H|[H _]]; [exact H|lia].
Qed.

Lemma fill_zero_channel (b : AudioBuffer) (first last channel : Z) (n : nat) :
  channelAt b channel = repeat 0%Q n ->
  channelAt (fill b first last 0%Q) channel = repeat 0%Q n.
Proof.
  intros Hz. destruct (fill_ok b first last 0%Q) as (_ & Hlen & Hs).
  apply (at_ext 0%Q); [now rewrite Hlen, Hz|].
  intros i _. rewrite at_repeat.
  destruct (Hs channel i) as [H|[_ H]]; [|exact H].
  unfold sampleAt in H. rewrite H, Hz. apply at_repeat.
Qed.

End FillFrame.

Lemma channelAt_resizeChannel_same (b : AudioBuffer) (channel n : Z) :
  0 <= channel < Z.of_nat (length b) ->
  channelAt (resizeChannel b channel n) channel
  = LinkedList.resize 0%Q (channelAt b channel) n.
Proof. intros H. unfold resizeChannel, channelAt. now apply at_set_at_same. Qed.

Lemma channelAt_resizeChannel_other (b : AudioBuffer) (channel other n : Z) :
  channel <> other ->
  channelAt (resizeChannel b channel n) other = channelAt b other.
Proof. intros H. unfold resizeChannel, channelAt. now apply at_set_at_other. Qed.

Lemma length_resizeChannel (b : AudioBuffer) (channel n : Z) :
  length (resizeChannel b channel n) = length b.
Proof. apply length_set_at. Qed.

Lemma fillChannels_frame : fill_frame fillChannels.
Proof.
  intros b first last v. unfold fillChannels. split; [apply length_imap|].
  split.
  - intros channel. unfold channelAt, LinkedList.at_.
    destruct (channel <? 0); [reflexivity|].
    rewrite !nth_lookup, list_lookup_imap.
    destruct (_ !! Z.to_nat channel) as [c|]; simpl; [|reflexivity].
    destruct ((first <=? Z.of_nat (Z.to_nat channel))
              && (Z.of_nat (Z.to_nat channel) <=? last));
      [apply length_map|reflexivity].
  - intros channel i. unfold sampleAt, channelAt.
    unfold LinkedList.at_ at 2 4 6.
    destruct (Z.ltb_spec channel 0) as [Hc|Hc]; [now left|].
    rewrite !nth_lookup, list_lookup_imap.
    destruct (_ !! Z.to_nat channel) as [c|]; simpl; [|now left].
    destruct ((first <=? Z.of_nat (Z.to_nat channel))
              && (Z.of_nat (Z.to_nat channel) <=? last)) eqn:Hin; [|now left].
    apply andb_true_iff in Hin. destruct Hin as [H1 H2].
    apply Z.leb_le in H1, H2. rewrite Z2Nat.id in H1, H2 by assumption.
    destruct (Z_lt_dec i 0) as [Hi|Hi].
    { left. rewrite !at_outside by lia. reflexivity. }
    destruct (Z_lt_dec i (Z.of_nat (length c))) as [Hi2|Hi2].
    + right. split; [lia|].
      unfold LinkedList.at_. destruct (Z.ltb_spec i 0); [lia|].
      rewrite nth_lookup, list_lookup_fmap.
      destruct (c !! Z.to_nat i) eqn:Hl; [reflexivity|].
      apply lookup_ge_None in Hl. lia.
    + left. rewrite !at_outside; [reflexivity|..]; rewrite ?length_map;
        right; apply Z.nlt_ge; exact Hi2.
Qed.

(** What [setNumChannels] leaves in the channels it adds is decided by
    [fill], of which the sources say nothing.  With [fillChannels] the two
    new channels of a mono buffer of two samples hold two zeros each; with
    [fillElements] they are empty. *)
Example setNumChannels_fillChannels_grow :
  samples (setNumChannels fillChannels
             (mkAudioFile [[(1 # 2)%Q; (-1 # 4)%Q]] NotLoaded 44100 16) 3)
  = [[(1 # 2)%Q; (-1 # 4)%Q]; [0%Q; 0%Q]; [0%Q; 0%Q]].
Proof. reflexivity. Qed.

Example setNumChannels_fillElements_grow :
  samples (setNumChannels fillElements
             (mkAudioFile [[(1 # 2)%Q; (-1 # 4)%Q]] NotLoaded 44100 16) 3)
  = [[(1 # 2)%Q; (-1 # 4)%Q]; []; []].
Proof. reflexivity. Qed.

(** ** Fixed-width integers and their bytes *)

Lemma wrap_signed_id (w x : Z) :
  0 < w -> - 2 ^ (w - 1) <= x < 2 ^ (w - 1) -> wrap_signed w x = x.
Proof.
  intros Hw Hx. unfold wrap_signed.
  assert (H2 : 2 ^ w = 2 * 2 ^ (w - 1)).
  { rewrite <- Z.pow_succ_r by lia. f_equal. lia. }
  rewrite Z.mod_small; lia.
Qed.

Lemma wrap_signed_range (w x : Z) :
  0 < w -> - 2 ^ (w - 1) <= wrap_signed w x < 2 ^ (w - 1).
Proof.
  intros Hw. unfold wrap_signed.
  assert (H2 : 2 ^ w = 2 * 2 ^ (w - 1)).
  { rewrite <- Z.pow_succ_r by lia. f_equal. lia. }
  assert (Hpos : 0 < 2 ^ w) by (apply Z.pow_pos_nonneg; lia).
  pose proof (Z.mod_pos_bound (x + 2 ^ (w - 1)) (2 ^ w) Hpos). lia.
Qed.

Lemma wrap_signed_mod (w x : Z) :
  0 < w -> wrap_signed w x mod 2 ^ w = x mod 2 ^ w.
Proof.
  intros Hw. unfold wrap_signed.
  assert (Hpos : 0 < 2 ^ w) by (apply Z.pow_pos_nonneg; lia).
  rewrite (Z.mod_eq (x + 2 ^ (w - 1)) (2 ^ w)) by lia.
  replace (x + 2 ^ (w - 1) - 2 ^ w * ((x + 2 ^ (w - 1)) / 2 ^ w) - 2 ^ (w - 1))
    with (x + (- ((x + 2 ^ (w - 1)) / 2 ^ w)) * 2 ^ w) by ring.
  apply Z_mod_plus_full.
Qed.

Lemma wrap_unsigned_mod (w x : Z) :
  wrap_unsigned w x mod 2 ^ w = x mod 2 ^ w.
Proof. unfold wrap_unsigned. apply Zmod_mod. Qed.

Lemma int32_t_id (x : Z) : 0 <= x <= INT32_MAX -> int32_t x = x.
Proof.
  unfold INT32_MAX. intros H. apply wrap_signed_id; [lia|].
  change (2 ^ (32 - 1)) with 2147483648. lia.
Qed.

(** A base-256 digit below bit [w] does not see a wrap-around at [w]. *)
Lemma digit_of_wrapped (w m x : Z) :
  0 <= m -> m + 8 <= w ->
  ((x mod 2 ^ w) / 2 ^ m) mod 2 ^ 8 = (x / 2 ^ m) mod 2 ^ 8.
Proof.
  intros Hm Hw. apply Z.bits_inj'. intros n Hn.
  destruct (Z.ltb_spec n 8) as [H|H].
  - rewrite !Z.mod_pow2_bits_low by lia.
    rewrite !Z.div_pow2_bits by lia.
    rewrite Z.mod_pow2_bits_low by lia. reflexivity.
  - rewrite !Z.mod_pow2_bits_high by lia. reflexivity.
Qed.

Lemma le_bytes_wrap (width : nat) (x y : Z) :
  x mod 2 ^ (8 * Z.of_nat width) = y mod 2 ^ (8 * Z.of_nat width) ->
  le_bytes width x = le_bytes width y.
Proof.
  intros H. unfold le_bytes, digit. apply map_ext_in. intros k Hk.
  apply in_seq in Hk.
  replace (256 ^ Z.of_nat k) with (2 ^ (8 * Z.of_nat k))
    by (rewrite Z.pow_mul_r by lia; reflexivity).
  change 256 with (2 ^ 8).
  rewrite <- (digit_of_wrapped (8 * Z.of_nat width) _ x) by lia.
  rewrite <- (digit_of_wrapped (8 * Z.of_nat width) _ y) by lia.
  now rewrite H.
Qed.

Lemma le_bytes_int32_t (x : Z) : le_bytes 4 (int32_t x) = le_bytes 4 x.
Proof. apply le_bytes_wrap. apply (wrap_signed_mod 32). lia. Qed.

Lemma le_bytes_uint32_t (x : Z) : le_bytes 4 (uint32_t x) = le_bytes 4 x.
Proof. apply le_bytes_wrap. apply (wrap_unsigned_mod 32). Qed.

Lemma le_bytes_int16_t (x : Z) : le_bytes 2 (int16_t x) = le_bytes 2 x.
Proof. apply le_bytes_wrap. apply (wrap_signed_mod 16). lia. Qed.

Lemma le_bytes_uint16_t (x : Z) : le_bytes 2 (uint16_t x) = le_bytes 2 x.
Proof. apply le_bytes_wrap. apply (wrap_unsigned_mod 16). Qed.

Lemma length_le_bytes (width : nat) (x : Z) : length (le_bytes width x) = width.
Proof. unfold le_bytes. now rewrite length_map, length_seq. Qed.

(** The byte [(i >> m) & 0xFF] of a [w]-bit unsigned [i]. *)
Lemma shifted_byte (w m x : Z) :
  0 <= m -> m + 8 <= w ->
  Z.land (Z.shiftr (wrap_unsigned w x) m) 255 = (x / 2 ^ m) mod 256.
Proof.
  intros Hm Hw. unfold wrap_unsigned.
  change 255 with (Z.ones 8). rewrite Z.land_ones by lia.
  rewrite Z.shiftr_div_pow2 by lia.
  now apply digit_of_wrapped.
Qed.

Lemma addInt32ToFileData_le (fileData : list Z) (i : Z) :
  addInt32ToFileData fileData i LittleEndian = fileData ++ le_bytes 4 i.
Proof.
  unfold addInt32ToFileData, LinkedList.Append, uint32_t, le_bytes.
  cbn [map seq]. rewrite <- !app_assoc. cbn [app]. f_equal.
  rewrite <- (Z.shiftr_0_r (wrap_unsigned 32 i)) at 1.
  rewrite !(shifted_byte 32) by lia. reflexivity.
Qed.

Lemma addInt16ToFileData_le (fileData : list Z) (i : Z) :
  addInt16ToFileData fileData i LittleEndian = fileData ++ le_bytes 2 i.
Proof.
  unfold addInt16ToFileData, LinkedList.Append, uint16_t, le_bytes.
  cbn [map seq fst snd]. rewrite <- !app_assoc. cbn [app]. f_equal.
  rewrite <- (Z.shiftr_0_r (wrap_unsigned 16 i)) at 1.
  rewrite !(shifted_byte 16) by lia. reflexivity.
Qed.

Lemma addStringToFileData_ascii (s : string) :
  forall fileData : list Z,
    addStringToFileData fileData s = fileData ++ ascii_bytes s.
Proof.
  induction s as [|c s IH]; intros fileData; simpl.
  - now rewrite app_nil_r.
  - rewrite IH. unfold LinkedList.Append, ascii_bytes. simpl.
    rewrite <- app_assoc. simpl. do 2 f_equal.
    unfold uint8_t, wrap_unsigned. apply Z.mod_small.
    pose proof (N_ascii_bounded c). change (2 ^ 8) with 256. lia.
Qed.

(** ** Encoding *)

(** A loop each of whose turns appends [k] bytes appends [k] bytes per
    turn. *)
Lemma for_range_appends {R : Type} (body : Z -> list Z -> step (list Z) R)
    (k lo hi : Z) (fileData : list Z) :
  lo <= hi ->
  (forall j fd, lo <= j < hi ->
     exists p, body j fd = Next (fd ++ p) /\ Z.of_nat (length p) = k) ->
  exists p, for_range lo hi body fileData = Next (fileData ++ p)
            /\ Z.of_nat (length p) = (hi - lo) * k.
Proof.
  intros Hle Hbody.
  destruct (for_range_invariant body
              (fun j fd => exists p, fd = fileData ++ p
                                     /\ Z.of_nat (length p) = (j - lo) * k)
              lo hi fileData Hle) as (fd' & Hrun & p & Hp & Hlen).
  - exists []. split; [now rewrite app_nil_r|simpl; lia].
  - intros j fd Hj (p & -> & Hlen).
    destruct (Hbody j (fileData ++ p) Hj) as (q & Hq & Hlenq).
    exists ((fileData ++ p) ++ q). split; [assumption|].
    exists (p ++ q). split; [now rewrite app_assoc|].
    rewrite length_app. lia.
  - exists p. subst fd'. split; assumption.
Qed.

Lemma size_nonneg {E : Type} (l : list E) : 0 <= LinkedList.size l.
Proof. unfold LinkedList.size. lia. Qed.

Lemma getNumChannels_nonneg (this : AudioFile) : 0 <= getNumChannels this.
Proof. apply size_nonneg. Qed.

Lemma getNumSamplesPerChannel_nonneg (this : AudioFile) :
  0 <= getNumSamplesPerChannel this.
Proof.
  unfold getNumSamplesPerChannel.
  destruct (LinkedList.size (samples this) >? 0); [apply size_nonneg|lia].
Qed.

(** The bytes [saveToWaveFile] assembles, for a supported bit depth and a
    file size within [int32_t]: the header of the specification, then as many
    bytes as the data chunk announces; the check of the sizes passes. *)
Lemma saveToWaveFile_assembled (p : Platform) (this : AudioFile) :
  bitDepth this = 8 \/ bitDepth this = 16 \/ bitDepth this = 24 ->
  44 + getNumSamplesPerChannel this * getNumChannels this * (bitDepth this / 8)
  <= INT32_MAX ->
  exists payload : list Z,
    saveToWaveFile p this
    = WriteDataToFile
        (wave_header (getNumChannels this) (sampleRate this) (bitDepth this)
           (getNumSamplesPerChannel this * getNumChannels this
            * (bitDepth this / 8))
         ++ payload)
    /\ Z.of_nat (length payload)
       = getNumSamplesPerChannel this * getNumChannels this
         * (bitDepth this / 8).
Proof.
  intros Hbd Hfit.
  pose proof (getNumChannels_nonneg this) as Hc.
  pose proof (getNumSamplesPerChannel_nonneg this) as Hn.
  set (n := getNumSamplesPerChannel this) in *.
  set (c := getNumChannels this) in *.
  assert (Hk : exists k, 1 <= k <= 3 /\ bitDepth this = 8 * k).
  { destruct Hbd as [H|[H|H]]; [exists 1|exists 2|exists 3]; lia. }
  destruct Hk as (k & Hk & Hbdk).
  assert (Hdiv : bitDepth this / 8 = k).
  { rewrite Hbdk, Z.mul_comm. apply Z.div_mul. lia. }
  assert (Hquot : bitDepth this ÷ 8 = k).
  { rewrite Hbdk, Z.mul_comm. apply Z.quot_mul. lia. }
  assert (Hcquot : c * bitDepth this ÷ 8 = c * k).
  { rewrite Hbdk. replace (c * (8 * k)) with (c * k * 8) by ring.
    apply Z.quot_mul. lia. }
  rewrite Hdiv in *.
  assert (Hnck : 0 <= n * c * k) by nia.
  unfold saveToWaveFile. fold n c.
  rewrite Hcquot, Hquot.
  replace (n * (c * k)) with (n * c * k) by ring.
  rewrite (int32_t_id (n * c * k)) by (unfold INT32_MAX in *; lia).
  rewrite (int32_t_id (4 + 24 + 8 + n * c * k)) by (unfold INT32_MAX in *; lia).
  rewrite !addStringToFileData_ascii, !addInt32ToFileData_le,
    !addInt16ToFileData_le.
  rewrite le_bytes_uint16_t, le_bytes_uint32_t, le_bytes_int32_t,
    le_bytes_int16_t, le_bytes_uint16_t.
  match goal with
  | |- context [for_range 0 n ?body ?init] =>
      destruct (for_range_appends body (c * k) 0 n init Hn)
        as (payload & Hrun & Hlen)
  end.
  { intros i fd Hi.
    match goal with
    | |- context [for_range 0 c ?body fd] =>
        destruct (for_range_appends body k 0 c fd Hc) as (q & Hq & Hlenq)
    end.
    - intros channel fd' Hch.
      destruct Hbd as [H|[H|H]]; rewrite H; simpl.
      + eexists. split; [reflexivity|simpl; lia].
      + rewrite addInt16ToFileData_le. eexists. split; [reflexivity|].
        rewrite length_le_bytes. lia.
      + unfold LinkedList.Append. rewrite <- !app_assoc.
        eexists. split; [reflexivity|simpl; lia].
    - exists q. split; [assumption|lia]. }
  rewrite Hrun. cbn [app] in *.
  exists payload. split; [|lia].
  match goal with
  | |- context [LinkedList.size ?l] =>
      assert (Hsize : LinkedList.size l = 44 + n * c * k)
  end.
  { unfold LinkedList.size. rewrite !length_app, !length_le_bytes.
    change (length (ascii_bytes "RIFF")) with 4%nat.
    change (length (ascii_bytes "WAVE")) with 4%nat.
    change (length (ascii_bytes "fmt ")) with 4%nat.
    change (length (ascii_bytes "data")) with 4%nat. lia. }
  rewrite Hsize.
  replace (4 + 24 + 8 + n * c * k =? 44 + n * c * k - 8) with true
    by (symmetry; apply Z.eqb_eq; lia).
  rewrite Z.eqb_refl. cbn [negb orb].
  unfold wave_header. rewrite Hdiv, <- !app_assoc. reflexivity.
Qed.

Lemma length_wave_header (numChannels sampleRate bitDepth dataChunkSize : Z) :
  length (wave_header numChannels sampleRate bitDepth dataChunkSize) = 44%nat.
Proof. reflexivity. Qed.

(** Within 32 bits the byte rate of the header is the plain quotient. *)
Lemma numBytesPerSecond_exact (numChannels sampleRate bitDepth : Z) :
  0 <= numChannels * sampleRate * bitDepth < 2 ^ 32 ->
  uint32_t (numChannels * sampleRate * bitDepth) / 8
  = numChannels * sampleRate * bitDepth / 8.
Proof.
  intros H. unfold uint32_t, wrap_unsigned. now rewrite Z.mod_small.
Qed.

(** C4.  For a buffer of equal-length channels and a bit depth of 8, 16 or
    24 (and a file size that fits [int32_t]), the bytes handed to
    [writeDataToFile] start with the 44-byte header of the specification:
    "RIFF", the size 4 + 24 + 8 + dataChunkSize, "WAVE", "fmt ", 16, 1, the
    channel count, the sample rate, the byte rate, the block size, the bit
    depth, "data" and dataChunkSize, every number little-endian. *)
Theorem saveToWaveFile_header (p : Platform) (this : AudioFile) :
  equal_length_channels (samples this) ->
  bitDepth this = 8 \/ bitDepth this = 16 \/ bitDepth this = 24 ->
  44 + getNumSamplesPerChannel this * getNumChannels this * (bitDepth this / 8)
  <= INT32_MAX ->
  exists payload : list Z,
    saveToWaveFile p this
    = WriteDataToFile
        (wave_header (getNumChannels this) (sampleRate this) (bitDepth this)
           (getNumSamplesPerChannel this * getNumChannels this
            * (bitDepth this / 8))
         ++ payload).
Proof.
  intros _ Hbd Hfit.
  destruct (saveToWaveFile_assembled p this Hbd Hfit) as (payload & H & _).
  now exists payload.
Qed.

Lemma equal_length_mono (channel : list T) : equal_length_channels [channel].
Proof. intros c1 c2 [<-|[]] [<-|[]]. reflexivity. Qed.

Lemma saveToWaveFile_header_witness :
  exists payload : list Z,
    saveToWaveFile signed_char_platform
      (mkAudioFile [[0%Q; (1 # 2)%Q; (-1 # 2)%Q; 1%Q]] NotLoaded 8000 16)
    = WriteDataToFile (wave_header 1 8000 16 8 ++ payload).
Proof.
  apply (saveToWaveFile_header signed_char_platform
           (mkAudioFile [[0%Q; (1 # 2)%Q; (-1 # 2)%Q; 1%Q]] NotLoaded 8000 16)).
  - apply equal_length_mono.
  - right. left. reflexivity.
  - vm_compute. discriminate.
Defined.

(** C9.  For a buffer of equal-length channels and a bit depth of 8, 16 or
    24 (and a file size that fits [int32_t]), [saveToWaveFile] does not end
    in the branch of its size check: it hands over a byte sequence of length
    44 + numSamplesPerChannel * numChannels * (bitDepth / 8). *)
Theorem saveToWaveFile_size_check_passes (p : Platform) (this : AudioFile) :
  equal_length_channels (samples this) ->
  bitDepth this = 8 \/ bitDepth this = 16 \/ bitDepth this = 24 ->
  44 + getNumSamplesPerChannel this * getNumChannels this * (bitDepth this / 8)
  <= INT32_MAX ->
  saveToWaveFile p this <> CouldNotSave
  /\ exists fileData : list Z,
       saveToWaveFile p this = WriteDataToFile fileData
       /\ LinkedList.size fileData
          = 44 + getNumSamplesPerChannel this * getNumChannels this
                 * (bitDepth this / 8).
Proof.
  intros _ Hbd Hfit.
  destruct (saveToWaveFile_assembled p this Hbd Hfit) as (payload & H & Hlen).
  rewrite H. split; [discriminate|].
  eexists. split; [reflexivity|].
  unfold LinkedList.size. rewrite length_app, length_wave_header. lia.
Qed.

Lemma saveToWaveFile_size_check_passes_witness :
  let this :=
    mkAudioFile [[0%Q; (1 # 3)%Q]; [1%Q; (-1 # 2)%Q]] NotLoaded 44100 24 in
  saveToWaveFile signed_char_platform this <> CouldNotSave
  /\ exists fileData : list Z,
       saveToWaveFile signed_char_platform this = WriteDataToFile fileData
       /\ LinkedList.size fileData = 44 + 2 * 2 * (24 / 8).
Proof.
  intros this.
  apply (saveToWaveFile_size_check_passes signed_char_platform this).
  - intros c1 c2 [<-|[<-|[]]] [<-|[<-|[]]]; reflexivity.
  - right. right. reflexivity.
  - vm_compute. discriminate.
Defined.

(** ** Reading bytes *)

Lemma byteAt_range (s : string) (i : Z) : 0 <= byteAt s i < 256.
Proof.
  unfold byteAt. destruct (i <? 0); [lia|].
  destruct (get (Z.to_nat i) s) as [c|]; [|lia].
  pose proof (N_ascii_bounded c). lia.
Qed.

(** A byte as a plain [char]: itself, or 256 less when it is 0x80 or more
    and plain [char] is signed. *)
Lemma charAt_cases (p : Platform) (s : string) (i : Z) :
  charAt p s i = byteAt s i
  \/ (plain_char_signed p = true /\ 128 <= byteAt s i
      /\ charAt p s i = byteAt s i - 256).
Proof.
  pose proof (byteAt_range s i) as Hb. unfold charAt.
  destruct (plain_char_signed p); [|now left].
  destruct (Z_lt_dec (byteAt s i) 128) as [Hlow|Hhigh].
  - left. apply wrap_signed_id; [lia|].
    change (2 ^ (8 - 1)) with 128. lia.
  - right. split; [reflexivity|]. split; [lia|].
    unfold wrap_signed. change (2 ^ (8 - 1)) with 128. change (2 ^ 8) with 256.
    replace (byteAt s i + 128) with (byteAt s i - 128 + 1 * 256) by lia.
    rewrite Z_mod_plus_full, Z.mod_small; lia.
Qed.

Lemma charAt_plain (p : Platform) (s : string) (i : Z) :
  plain_char_signed p = false \/ byteAt s i < 128 ->
  charAt p s i = byteAt s i.
Proof.
  intros H. destruct (charAt_cases p s i) as [Heq|(Hs & Hhigh & _)];
    [exact Heq|].
  destruct H as [H|H]; [congruence|lia].
Qed.

Lemma charAt_range (p : Platform) (s : string) (i : Z) :
  -128 <= charAt p s i < 256.
Proof.
  pose proof (byteAt_range s i).
  destruct (charAt_cases p s i) as [->|(_ & ? & ->)]; lia.
Qed.

(** Line 506: the character goes through [uint8_t], which gives the byte
    back whatever plain [char] is. *)
Lemma uint8_t_charAt (p : Platform) (s : string) (i : Z) :
  uint8_t (charAt p s i) = byteAt s i.
Proof.
  pose proof (byteAt_range s i) as Hb. unfold uint8_t, wrap_unsigned.
  change (2 ^ 8) with 256.
  destruct (charAt_cases p s i) as [->|(_ & _ & ->)].
  - apply Z.mod_small. lia.
  - replace (byteAt s i - 256) with (byteAt s i + (-1) * 256) by lia.
    rewrite Z_mod_plus_full. apply Z.mod_small. lia.
Qed.

Lemma read_as_written_digit (p : Platform) (width : nat) (v : Z) (k : nat) :
  read_as_written p width v = true -> (k < width - 1)%nat ->
  plain_char_signed p = false \/ digit k v < 128.
Proof.
  unfold read_as_written. intros H Hk. apply orb_true_iff in H.
  destruct H as [H|H]; [left; now apply negb_true_iff|right].
  rewrite forallb_forall in H. apply Z.ltb_lt. apply H.
  apply in_seq. lia.
Qed.

Lemma stored_as_read_byte (p : Platform) (width : nat) (s : string)
    (o : Z) (k : nat) :
  stored_as_read p width s o = true -> (k < width - 1)%nat ->
  charAt p s (o + Z.of_nat k) = byteAt s (o + Z.of_nat k).
Proof.
  unfold stored_as_read. intros H Hk. apply charAt_plain.
  apply orb_true_iff in H.
  destruct H as [H|H]; [left; now apply negb_true_iff|right].
  rewrite forallb_forall in H. apply Z.ltb_lt. apply (H k).
  apply in_seq. lia.
Qed.

Lemma testbit_small (x m n : Z) :
  0 <= x < 2 ^ m -> 0 <= m <= n -> Z.testbit x n = false.
Proof.
  intros Hx Hmn. rewrite <- (Z.mod_small x (2 ^ m)) by lia.
  apply Z.mod_pow2_bits_high. lia.
Qed.

(** [(hi << m) | lo] is [hi * 2^m + lo] when [lo] has at most [m] bits. *)
Lemma lor_shiftl (hi lo m : Z) :
  0 <= m -> 0 <= lo < 2 ^ m -> Z.lor (Z.shiftl hi m) lo = hi * 2 ^ m + lo.
Proof.
  intros Hm Hlo. rewrite Z.shiftl_mul_pow2 by lia.
  symmetry. apply Z.add_nocarry_lor. apply Z.bits_inj'. intros n Hn.
  rewrite Z.land_spec, Z.bits_0.
  destruct (Z.ltb_spec n m) as [H|H].
  - now rewrite Z.mul_pow2_bits_low by lia.
  - rewrite (testbit_small lo m n) by lia. apply andb_false_r.
Qed.

Lemma wrap_signed_period (w x k : Z) :
  wrap_signed w (x + k * 2 ^ w) = wrap_signed w x.
Proof.
  unfold wrap_signed.
  replace (x + k * 2 ^ w + 2 ^ (w - 1)) with (x + 2 ^ (w - 1) + k * 2 ^ w)
    by ring.
  now rewrite Z_mod_plus_full.
Qed.

(** Two, three and four characters combined as the source combines them.
    The characters below the top one are the bytes [b0], [b1], ...; the top
    one may have been read as a negative number. *)
Lemma combine_two_chars (c1 b1 b0 : Z) :
  0 <= b0 < 256 -> c1 = b1 \/ c1 = b1 - 256 ->
  int16_t (Z.lor (Z.shiftl c1 8) b0) = wrap_signed 16 (b0 + 256 * b1).
Proof.
  intros H0 Hc. rewrite lor_shiftl by (change (2 ^ 8) with 256; lia).
  change (2 ^ 8) with 256. unfold int16_t. destruct Hc as [->| ->].
  - f_equal. lia.
  - rewrite <- (wrap_signed_period 16 (b0 + 256 * b1) (-1)). f_equal.
    change (2 ^ 16) with 65536. lia.
Qed.

Lemma lor_three (c2 b1 b0 : Z) :
  0 <= b0 < 256 -> 0 <= b1 < 256 ->
  Z.lor (Z.lor (Z.shiftl c2 16) (Z.shiftl b1 8)) b0
  = b0 + 256 * (b1 + 256 * c2).
Proof.
  intros H0 H1.
  replace (c2 ≪ 16) with ((c2 ≪ 8) ≪ 8)
    by (rewrite !Z.shiftl_shiftl by lia; reflexivity).
  rewrite <- !Z.shiftl_lor.
  rewrite (lor_shiftl _ b0 8) by (change (2 ^ 8) with 256; lia).
  rewrite (lor_shiftl _ b1 8) by (change (2 ^ 8) with 256; lia).
  change (2 ^ 8) with 256. lia.
Qed.

Lemma lor_four (c3 b2 b1 b0 : Z) :
  0 <= b0 < 256 -> 0 <= b1 < 256 -> 0 <= b2 < 256 ->
  Z.lor (Z.lor (Z.lor (Z.shiftl c3 24) (Z.shiftl b2 16)) (Z.shiftl b1 8)) b0
  = b0 + 256 * (b1 + 256 * (b2 + 256 * c3)).
Proof.
  intros H0 H1 H2.
  replace (c3 ≪ 24) with (((c3 ≪ 8) ≪ 8) ≪ 8)
    by (rewrite !Z.shiftl_shiftl by lia; reflexivity).
  replace (b2 ≪ 16) with ((b2 ≪ 8) ≪ 8)
    by (rewrite !Z.shiftl_shiftl by lia; reflexivity).
  rewrite <- !Z.shiftl_lor.
  rewrite (lor_shiftl _ b0 8) by (change (2 ^ 8) with 256; lia).
  rewrite (lor_shiftl _ b1 8) by (change (2 ^ 8) with 256; lia).
  rewrite (lor_shiftl _ b2 8) by (change (2 ^ 8) with 256; lia).
  change (2 ^ 8) with 256. lia.
Qed.

Lemma combine_four_chars (c3 b3 b2 b1 b0 : Z) :
  0 <= b0 < 256 -> 0 <= b1 < 256 -> 0 <= b2 < 256 ->
  c3 = b3 \/ c3 = b3 - 256 ->
  int32_t (Z.lor (Z.lor (Z.lor (Z.shiftl c3 24) (Z.shiftl b2 16))
                        (Z.shiftl b1 8)) b0)
  = wrap_signed 32 (b0 + 256 * (b1 + 256 * (b2 + 256 * b3))).
Proof.
  intros H0 H1 H2 Hc. rewrite lor_four by assumption.
  unfold int32_t. destruct Hc as [->| ->]; [reflexivity|].
  rewrite <- (wrap_signed_period 32 (b0 + 256 * (b1 + 256 * (b2 + 256 * b3)))
                (-1)).
  f_equal. change (2 ^ 32) with 4294967296. lia.
Qed.

Lemma twoBytesToInt_le (p : Platform) (s : string) (o : Z) :
  stored_as_read p 2 s o = true ->
  twoBytesToInt p s o LittleEndian = le_signed 2 s o.
Proof.
  intros Hplain. unfold twoBytesToInt, le_signed, le_unsigned.
  cbn [fold_right seq]. change (8 * Z.of_nat 2) with 16.
  change (Z.of_nat 1) with 1.
  pose proof (stored_as_read_byte p 2 s o 0 Hplain) as H0.
  change (Z.of_nat 0) with 0 in *. rewrite Z.add_0_r in *.
  rewrite H0 by (simpl; lia).
  rewrite (combine_two_chars _ (byteAt s (o + 1))).
  - f_equal. lia.
  - apply byteAt_range.
  - destruct (charAt_cases p s (o + 1)) as [H|(_ & _ & H)]; auto.
Qed.

Lemma fourBytesToInt_le (p : Platform) (s : string) (o : Z) :
  stored_as_read p 4 s o = true ->
  fourBytesToInt p s o LittleEndian = le_signed 4 s o.
Proof.
  intros Hplain. unfold fourBytesToInt, le_signed, le_unsigned.
  cbn [fold_right seq]. change (8 * Z.of_nat 4) with 32.
  pose proof (stored_as_read_byte p 4 s o 0 Hplain) as H0.
  pose proof (stored_as_read_byte p 4 s o 1 Hplain) as H1.
  pose proof (stored_as_read_byte p 4 s o 2 Hplain) as H2.
  change (Z.of_nat 0) with 0 in *. change (Z.of_nat 1) with 1 in *.
  change (Z.of_nat 2) with 2 in *. change (Z.of_nat 3) with 3.
  rewrite Z.add_0_r in *.
  rewrite H0, H1, H2 by (simpl; lia).
  rewrite (combine_four_chars _ (byteAt s (o + 3))).
  - f_equal. lia.
  - apply byteAt_range.
  - apply byteAt_range.
  - apply byteAt_range.
  - destruct (charAt_cases p s (o + 3)) as [H|(_ & _ & H)]; auto.
Qed.

Lemma bit_23_set (u : Z) :
  8388608 <= u < 16777216 -> Z.land u 8388608 <> 0.
Proof.
  intros Hu.
  assert (Hbit : Z.testbit u 23 = true).
  { apply Z.testbit_true; [lia|]. change (2 ^ 23) with 8388608.
    replace (u / 8388608) with 1; [reflexivity|].
    apply Z.div_unique with (u - 8388608); lia. }
  intros H0. apply (f_equal (fun z => Z.testbit z 23)) in H0.
  rewrite Z.land_spec, Hbit, Z.bits_0 in H0. discriminate H0.
Qed.

Lemma bit_23_clear (u : Z) :
  0 <= u < 8388608 -> Z.land u 8388608 = 0.
Proof.
  intros Hu. apply Z.bits_inj'. intros n Hn.
  rewrite Z.land_spec, Z.bits_0.
  change 8388608 with (2 ^ 23). rewrite Z.pow2_bits_eqb by lia.
  destruct (Z.eqb_spec 23 n) as [<-|Hne]; [|apply andb_false_r].
  rewrite (testbit_small u 23 23); [reflexivity| |lia].
  change (2 ^ 23) with 8388608. lia.
Qed.

Lemma lor_sign_bits_24 (u : Z) :
  0 <= u < 16777216 -> Z.lor u (Z.lnot 16777215) = u - 16777216.
Proof.
  intros Hu. change (Z.lnot 16777215) with (-16777216).
  rewrite <- Z.add_nocarry_lor; [lia|].
  apply Z.bits_inj'. intros n Hn. rewrite Z.land_spec, Z.bits_0.
  destruct (Z.ltb_spec n 24) as [H|H].
  - change (-16777216) with (-1 * 2 ^ 24).
    rewrite Z.mul_pow2_bits_low by lia. apply andb_false_r.
  - rewrite (testbit_small u 24 n); [reflexivity| |lia].
    change (2 ^ 24) with 16777216. lia.
Qed.

(** Line 520 and line 521: bit 23 decides the sign of a 24-bit value. *)
Lemma sign_extend_24 (u : Z) :
  0 <= u < 16777216 ->
  (if Z.land u 8388608 =? 0 then u else Z.lor u (Z.lnot 16777215))
  = wrap_signed 24 u.
Proof.
  intros Hu. unfold wrap_signed.
  change (2 ^ (24 - 1)) with 8388608. change (2 ^ 24) with 16777216.
  destruct (Z_lt_dec u 8388608) as [Hlow|Hhigh].
  - rewrite bit_23_clear by lia. simpl. rewrite Z.mod_small; lia.
  - pose proof (bit_23_set u ltac:(lia)) as Hland.
    apply Z.eqb_neq in Hland. rewrite Hland, lor_sign_bits_24 by lia.
    replace (u + 8388608) with (u - 8388608 + 1 * 16777216) by lia.
    rewrite Z_mod_plus_full, Z.mod_small; lia.
Qed.

(** The same when the top character was read as a negative number: the
    sign bits are there already. *)
Lemma sign_extended_24 (u : Z) :
  8388608 <= u < 16777216 ->
  (if Z.land (u - 16777216) 8388608 =? 0 then u - 16777216
   else Z.lor (u - 16777216) (Z.lnot 16777215))
  = wrap_signed 24 u.
Proof.
  intros Hu.
  rewrite <- (lor_sign_bits_24 u) by lia.
  rewrite Z.land_lor_distr_l.
  change (Z.land (Z.lnot 16777215) 8388608) with 0. rewrite Z.lor_0_r.
  pose proof (bit_23_set u Hu) as Hland.
  apply Z.eqb_neq in Hland. rewrite Hland.
  rewrite <- Z.lor_assoc, Z.lor_diag.
  rewrite <- (sign_extend_24 u) by lia. now rewrite Hland.
Qed.

Lemma threeBytesToSample_le (p : Platform) (s : string) (o : Z) :
  stored_as_read p 3 s o = true ->
  threeBytesToSample p s o
  = (inject_Z (le_signed 3 s o) / inject_Z 8388608)%Q.
Proof.
  intros Hplain. unfold threeBytesToSample, le_signed, le_unsigned.
  cbn [fold_right seq]. change (8 * Z.of_nat 3) with 24.
  pose proof (stored_as_read_byte p 3 s o 0 Hplain) as H0.
  pose proof (stored_as_read_byte p 3 s o 1 Hplain) as H1.
  change (Z.of_nat 0) with 0 in *. change (Z.of_nat 1) with 1 in *.
  change (Z.of_nat 2) with 2. rewrite Z.add_0_r in *.
  rewrite H0, H1 by (simpl; lia).
  pose proof (byteAt_range s o). pose proof (byteAt_range s (o + 1)).
  pose proof (byteAt_range s (o + 2)).
  rewrite lor_three by assumption.
  set (u := byteAt s o
            + 256 * (byteAt s (o + 1) + 256 * (byteAt s (o + 2) + 256 * 0))).
  do 2 f_equal.
  destruct (charAt_cases p s (o + 2)) as [->|(_ & Hhigh & ->)].
  - rewrite int32_t_id by (unfold INT32_MAX; lia).
    replace (byteAt s o + 256 * (byteAt s (o + 1) + 256 * byteAt s (o + 2)))
      with u by (unfold u; lia).
    apply sign_extend_24. unfold u. lia.
  - replace (byteAt s o
             + 256 * (byteAt s (o + 1) + 256 * (byteAt s (o + 2) - 256)))
      with (u - 16777216) by (unfold u; lia).
    unfold int32_t. rewrite wrap_signed_id;
      [|lia|change (2 ^ (32 - 1)) with 2147483648; unfold u; lia].
    apply sign_extended_24. unfold u. lia.
Qed.


(** *** Whatever the bytes, a decoded integer has the width of its type *)

Lemma shiftr_sign (n x : Z) :
  0 <= n ->
  (- 2 ^ n <= x < 2 ^ n <-> Z.shiftr x n = 0 \/ Z.shiftr x n = -1).
Proof.
  intros Hn. rewrite Z.shiftr_div_pow2 by lia.
  assert (Hpos : 0 < 2 ^ n) by (apply Z.pow_pos_nonneg; lia).
  pose proof (Z.div_mod x (2 ^ n) ltac:(lia)) as Hdm.
  pose proof (Z.mod_pos_bound x (2 ^ n) Hpos) as Hm.
  split.
  - intros Hx. destruct (Z_lt_dec x 0) as [Hneg|Hnn].
    + right. symmetry. apply Z.div_unique with (x + 2 ^ n); lia.
    + left. apply Z.div_small. lia.
  - intros [H|H]; rewrite H in Hdm; lia.
Qed.

Lemma lor_within (n x y : Z) :
  0 <= n -> - 2 ^ n <= x < 2 ^ n -> - 2 ^ n <= y < 2 ^ n ->
  - 2 ^ n <= Z.lor x y < 2 ^ n.
Proof.
  intros Hn Hx Hy. apply (shiftr_sign n) in Hx, Hy; try assumption.
  apply (shiftr_sign n); [assumption|]. rewrite Z.shiftr_lor.
  destruct Hx as [->| ->], Hy as [->| ->]; auto.
Qed.

Lemma threeBytesToSample_range (p : Platform) (s : string) (o : Z) :
  exists v, - 8388608 <= v < 8388608
            /\ threeBytesToSample p s o
               = (inject_Z v / inject_Z 8388608)%Q.
Proof.
  destruct (plain_char_signed p) eqn:Hsigned.
  - unfold threeBytesToSample.
    set (c0 := charAt p s o). set (c1 := charAt p s (o + 1)).
    set (c2 := charAt p s (o + 2)).
    assert (Hc : forall i, -128 <= charAt p s i < 128).
    { intros i. unfold charAt. rewrite Hsigned.
      apply (wrap_signed_range 8). lia. }
    pose proof (Hc o) as H0. pose proof (Hc (o + 1)) as H1.
    pose proof (Hc (o + 2)) as H2. fold c0 in H0. fold c1 in H1. fold c2 in H2.
    set (v := Z.lor (Z.lor (Z.shiftl c2 16) (Z.shiftl c1 8)) c0).
    assert (Hv : - 2 ^ 23 <= v < 2 ^ 23).
    { unfold v. apply lor_within; [lia| |change (2 ^ 23) with 8388608; lia].
      apply lor_within; [lia|..]; rewrite Z.shiftl_mul_pow2 by lia;
        change (2 ^ 23) with 8388608; change (2 ^ 16) with 65536;
        change (2 ^ 8) with 256; lia. }
    change (2 ^ 23) with 8388608 in Hv.
    unfold int32_t. rewrite wrap_signed_id
      by (change (2 ^ (32 - 1)) with 2147483648; lia).
    eexists. split; [|reflexivity].
    destruct (Z.eqb_spec (Z.land v 8388608) 0) as [_|Hbit]; [exact Hv|].
    destruct (Z_lt_dec v 0) as [Hneg|Hnn].
    + apply (shiftr_sign 23); [lia|]. right. rewrite Z.shiftr_lor.
      replace (Z.shiftr v 23) with (-1); [reflexivity|].
      rewrite Z.shiftr_div_pow2 by lia. change (2 ^ 23) with 8388608.
      apply Z.div_unique with (v + 8388608); lia.
    + exfalso. apply Hbit. apply bit_23_clear. lia.
  - rewrite threeBytesToSample_le
      by (unfold stored_as_read; now rewrite Hsigned).
    eexists. split; [|reflexivity].
    apply (wrap_signed_range 24). lia.
Qed.

(** ** Decoding *)

Lemma channelAt_appendSample_same (b : AudioBuffer) (channel : Z) (x : T) :
  0 <= channel < Z.of_nat (length b) ->
  channelAt (appendSample b channel x) channel = channelAt b channel ++ [x].
Proof. intros H. unfold appendSample, channelAt. now apply at_set_at_same. Qed.

Lemma channelAt_appendSample_other (b : AudioBuffer) (channel other : Z) (x : T) :
  channel <> other ->
  channelAt (appendSample b channel x) other = channelAt b other.
Proof. intros H. unfold appendSample, channelAt. now apply at_set_at_other. Qed.

Lemma length_appendSample (b : AudioBuffer) (channel : Z) (x : T) :
  length (appendSample b channel x) = length b.
Proof. apply length_set_at. Qed.

(** One turn of the outer loop: every channel receives its sample. *)
Lemma append_to_each_channel {R : Type}
    (inner : Z -> AudioBuffer -> step AudioBuffer R) (x : Z -> T)
    (numChannels : Z) (b : AudioBuffer) :
  Z.of_nat (length b) = numChannels ->
  (forall channel b0, 0 <= channel < numChannels ->
     inner channel b0 = Next (appendSample b0 channel (x channel))) ->
  exists b', for_range 0 numChannels inner b = Next b'
             /\ length b' = length b
             /\ forall channel, 0 <= channel < numChannels ->
                  channelAt b' channel = channelAt b channel ++ [x channel].
Proof.
  intros Hlen Hinner.
  destruct (for_range_invariant inner
              (fun k b1 =>
                 length b1 = length b
                 /\ forall channel, 0 <= channel < numChannels ->
                      channelAt b1 channel
                      = if channel <? k then channelAt b channel ++ [x channel]
                        else channelAt b channel)
              0 numChannels b) as (b' & Hrun & Hl & Hch).
  - lia.
  - split; [reflexivity|]. intros channel Hc.
    destruct (Z.ltb_spec channel 0); [lia|reflexivity].
  - intros k b1 Hk (Hl & Hch). rewrite (Hinner k b1 Hk).
    eexists. split; [reflexivity|]. split.
    + now rewrite length_appendSample.
    + intros channel Hc. destruct (Z.eq_dec channel k) as [->|Hne].
      * rewrite channelAt_appendSample_same by lia.
        rewrite (Hch k Hk).
        destruct (Z.ltb_spec k k); [lia|].
        destruct (Z.ltb_spec k (k + 1)); [reflexivity|lia].
      * rewrite channelAt_appendSample_other by lia.
        rewrite (Hch channel Hc).
        destruct (Z.ltb_spec channel k), (Z.ltb_spec channel (k + 1));
          (reflexivity || lia).
  - exists b'. split; [assumption|]. split; [assumption|].
    intros channel Hc. rewrite (Hch channel Hc).
    destruct (Z.ltb_spec channel numChannels); [reflexivity|lia].
Qed.

(** The whole loop: channel [channel] ends up holding, in order, the samples
    [g 0 channel], [g 1 channel], ... *)
Lemma decode_all_samples {R : Type}
    (outer : Z -> AudioBuffer -> step AudioBuffer R) (g : Z -> Z -> T)
    (numSamples numChannels : Z) (b0 : AudioBuffer) :
  Z.of_nat (length b0) = numChannels ->
  (forall channel, 0 <= channel < numChannels -> channelAt b0 channel = []) ->
  (forall i b, 0 <= i < numSamples -> Z.of_nat (length b) = numChannels ->
     exists b', outer i b = Next b'
                /\ length b' = length b
                /\ forall channel, 0 <= channel < numChannels ->
                     channelAt b' channel = channelAt b channel ++ [g i channel]) ->
  exists b', for_range 0 numSamples outer b0 = Next b'
             /\ Z.of_nat (length b') = numChannels
             /\ forall channel, 0 <= channel < numChannels ->
                  channelAt b' channel
                  = map (fun i => g (Z.of_nat i) channel)
                      (seq 0 (Z.to_nat numSamples)).
Proof.
  intros Hlen Hempty Houter.
  destruct (Z_lt_dec numSamples 0) as [Hneg|Hpos].
  { exists b0. rewrite for_range_empty by lia.
    replace (Z.to_nat numSamples) with O by lia.
    split; [reflexivity|]. split; [assumption|]. exact Hempty. }
  destruct (for_range_invariant outer
              (fun i b =>
                 Z.of_nat (length b) = numChannels
                 /\ forall channel, 0 <= channel < numChannels ->
                      channelAt b channel
                      = map (fun i' => g (Z.of_nat i') channel)
                          (seq 0 (Z.to_nat i)))
              0 numSamples b0) as (b' & Hrun & Hl & Hch).
  - lia.
  - split; [assumption|]. exact Hempty.
  - intros i b Hi (Hl & Hch).
    destruct (Houter i b Hi Hl) as (b' & Hb' & Hl' & Hch').
    exists b'. split; [assumption|]. split; [lia|].
    intros channel Hc. rewrite (Hch' channel Hc), (Hch channel Hc).
    replace (Z.to_nat (i + 1)) with (Datatypes.S (Z.to_nat i)) by lia.
    rewrite seq_S, map_app. simpl. now rewrite Z2Nat.id by lia.
  - exists b'. split; [assumption|]. split; assumption.
Qed.

Lemma samples_clearAudioBuffer (this : AudioFile) :
  samples (clearAudioBuffer this) = [].
Proof.
  unfold clearAudioBuffer.
  destruct (for_range _ _ _ _); reflexivity.
Qed.

Lemma clearAudioBuffer_metadata (this : AudioFile) :
  sampleRate (clearAudioBuffer this) = sampleRate this
  /\ bitDepth (clearAudioBuffer this) = bitDepth this
  /\ audioFileFormat (clearAudioBuffer this) = audioFileFormat this.
Proof.
  unfold clearAudioBuffer.
  destruct (for_range _ _ _ _); repeat split.
Qed.

(** What a successful [decodeWaveFile] has checked and built. *)
Lemma decodeWaveFile_true (p : Platform) (this this' : AudioFile)
    (fileData : string) :
  decodeWaveFile p this fileData = (this', true) ->
  splitString fileData 0 4 = "RIFF"%string
  /\ splitString fileData 8 12 = "WAVE"%string
  /\ getIndexOfString fileData "data" <> -1
  /\ getIndexOfString fileData "fmt" <> -1
  /\ fmt_audioFormat p fileData = 1
  /\ (fmt_numChannels p fileData = 1 \/ fmt_numChannels p fileData = 2)
  /\ fmt_numBytesPerSecond p fileData
     = uint32_t (fmt_numChannels p fileData * fmt_sampleRate p fileData
                 * fmt_bitDepth p fileData) / 8
  /\ fmt_numBytesPerBlock p fileData
     = fmt_numChannels p fileData * (fmt_bitDepth p fileData ÷ 8)
  /\ (fmt_bitDepth p fileData = 8 \/ fmt_bitDepth p fileData = 16
      \/ fmt_bitDepth p fileData = 24)
  /\ sampleRate this' = fmt_sampleRate p fileData
  /\ bitDepth this' = fmt_bitDepth p fileData
  /\ audioFileFormat this' = audioFileFormat this
  /\ Z.of_nat (length (samples this')) = fmt_numChannels p fileData
  /\ forall channel, 0 <= channel < fmt_numChannels p fileData ->
       channelAt (samples this') channel
       = map (fun i =>
                decodedSample p (fmt_bitDepth p fileData) fileData
                  (data_samplesStart fileData
                   + fmt_numBytesPerBlock p fileData * Z.of_nat i
                   + channel * (fmt_bitDepth p fileData ÷ 8)))
           (seq 0 (Z.to_nat (data_chunkSize p fileData
                             ÷ (fmt_numChannels p fileData
                                * fmt_bitDepth p fileData ÷ 8)))).
Proof.
  unfold decodeWaveFile.
  fold (fmt_audioFormat p fileData) (fmt_numChannels p fileData)
    (fmt_sampleRate p fileData) (fmt_numBytesPerBlock p fileData)
    (fmt_bitDepth p fileData) (data_chunkSize p fileData)
    (data_samplesStart fileData).
  change (uint32_t (fourBytesToInt p fileData
                      (getIndexOfString fileData "fmt" + 16) LittleEndian))
    with (fmt_numBytesPerSecond p fileData).
  destruct (getIndexOfString fileData "data" =? -1) eqn:Hd; [discriminate|].
  destruct (getIndexOfString fileData "fmt" =? -1) eqn:Hf; [discriminate|].
  destruct (String.eqb (splitString fileData 0 4) "RIFF") eqn:Hriff;
    [|discriminate].
  destruct (String.eqb (splitString fileData 8 12) "WAVE") eqn:Hwave;
    [|discriminate].
  cbn [negb orb].
  destruct (fmt_audioFormat p fileData =? 1) eqn:Haf; [|discriminate].
  cbn [negb].
  destruct (fmt_numChannels p fileData <? 1) eqn:Hc1; [discriminate|].
  destruct (fmt_numChannels p fileData >? 2) eqn:Hc2; [discriminate|].
  cbn [orb].
  destruct (fmt_numBytesPerSecond p fileData
            =? uint32_t (fmt_numChannels p fileData * fmt_sampleRate p fileData
                         * fmt_bitDepth p fileData) / 8) eqn:Hrate;
    [|discriminate].
  destruct (fmt_numBytesPerBlock p fileData
            =? fmt_numChannels p fileData * (fmt_bitDepth p fileData ÷ 8))
    eqn:Hblock; [|discriminate].
  cbn [negb orb].
  apply Z.eqb_neq in Hd, Hf. apply String.eqb_eq in Hriff, Hwave.
  apply Z.eqb_eq in Haf, Hrate, Hblock.
  apply Z.ltb_ge in Hc1. rewrite Z.gtb_ltb in Hc2. apply Z.ltb_ge in Hc2.
  assert (Hbd : (negb (fmt_bitDepth p fileData =? 8)
                 && negb (fmt_bitDepth p fileData =? 16)
                 && negb (fmt_bitDepth p fileData =? 24) = true)
                \/ (fmt_bitDepth p fileData = 8 \/ fmt_bitDepth p fileData = 16
                    \/ fmt_bitDepth p fileData = 24)).
  { destruct (Z.eqb_spec (fmt_bitDepth p fileData) 8); [auto|].
    destruct (Z.eqb_spec (fmt_bitDepth p fileData) 16); [auto|].
    destruct (Z.eqb_spec (fmt_bitDepth p fileData) 24); auto. }
  destruct Hbd as [Hbad|Hbd]; [rewrite Hbad; discriminate|].
  replace (negb (fmt_bitDepth p fileData =? 8)
           && negb (fmt_bitDepth p fileData =? 16)
           && negb (fmt_bitDepth p fileData =? 24)) with false
    by (destruct Hbd as [->|[->| ->]]; reflexivity).
  set (cleared := clearAudioBuffer _).
  match goal with
  | |- context [for_range 0 ?n ?outer ?b0] =>
      destruct (decode_all_samples outer
                  (fun i channel =>
                     decodedSample p (fmt_bitDepth p fileData) fileData
                       (data_samplesStart fileData
                        + fmt_numBytesPerBlock p fileData * i
                        + channel * (fmt_bitDepth p fileData ÷ 8)))
                  n (fmt_numChannels p fileData) b0)
        as (b' & Hrun & Hlen & Hch)
  end.
  - unfold cleared. rewrite samples_clearAudioBuffer, resize_nil, repeat_length.
    lia.
  - intros channel Hc. unfold cleared.
    rewrite samples_clearAudioBuffer, resize_nil. apply at_repeat.
  - intros i b Hi Hl.
    match goal with
    | |- context [for_range 0 _ ?inner b] =>
        apply (append_to_each_channel inner
                 (fun channel =>
                    decodedSample p (fmt_bitDepth p fileData) fileData
                      (data_samplesStart fileData
                       + fmt_numBytesPerBlock p fileData * i
                       + channel * (fmt_bitDepth p fileData ÷ 8)))
                 (fmt_numChannels p fileData) b Hl)
    end.
    intros channel b1 Hc. unfold decodedSample.
    destruct Hbd as [->|[->| ->]]; reflexivity.
  - rewrite Hrun. intros Heq. injection Heq as <-.
    destruct (clearAudioBuffer_metadata
                (mkAudioFile (samples this) (audioFileFormat this)
                   (fmt_sampleRate p fileData) (fmt_bitDepth p fileData)))
      as (Hsr & Hbdm & Hfmt).
    fold cleared in Hsr, Hbdm, Hfmt.
    repeat split; try assumption; lia.
Qed.




(** Conversely, a stream that passes the checks is decoded. *)
Lemma decodeWaveFile_accepts (p : Platform) (this : AudioFile)
    (fileData : string) :
  splitString fileData 0 4 = "RIFF"%string ->
  splitString fileData 8 12 = "WAVE"%string ->
  getIndexOfString fileData "data" <> -1 ->
  getIndexOfString fileData "fmt" <> -1 ->
  fmt_audioFormat p fileData = 1 ->
  fmt_numChannels p fileData = 1 \/ fmt_numChannels p fileData = 2 ->
  fmt_numBytesPerSecond p fileData
  = uint32_t (fmt_numChannels p fileData * fmt_sampleRate p fileData
              * fmt_bitDepth p fileData) / 8 ->
  fmt_numBytesPerBlock p fileData
  = fmt_numChannels p fileData * (fmt_bitDepth p fileData ÷ 8) ->
  fmt_bitDepth p fileData = 8 \/ fmt_bitDepth p fileData = 16
  \/ fmt_bitDepth p fileData = 24 ->
  exists this', decodeWaveFile p this fileData = (this', true).
Proof.
  intros Hriff Hwave Hd Hf Haf Hnc Hrate Hblock Hbd.
  unfold decodeWaveFile.
  fold (fmt_audioFormat p fileData) (fmt_numChannels p fileData)
    (fmt_sampleRate p fileData) (fmt_numBytesPerBlock p fileData)
    (fmt_bitDepth p fileData) (data_chunkSize p fileData)
    (data_samplesStart fileData).
  change (uint32_t (fourBytesToInt p fileData
                      (getIndexOfString fileData "fmt" + 16) LittleEndian))
    with (fmt_numBytesPerSecond p fileData).
  apply Z.eqb_neq in Hd, Hf. rewrite Hd, Hf, Hriff, Hwave.
  rewrite <- Hrate, <- Hblock, Haf, !Z.eqb_refl.
  replace (fmt_numChannels p fileData <? 1) with false
    by (destruct Hnc as [->| ->]; reflexivity).
  replace (fmt_numChannels p fileData >? 2) with false
    by (destruct Hnc as [->| ->]; reflexivity).
  replace (negb (fmt_bitDepth p fileData =? 8)
           && negb (fmt_bitDepth p fileData =? 16)
           && negb (fmt_bitDepth p fileData =? 24)) with false
    by (destruct Hbd as [->|[->| ->]]; reflexivity).
  cbn [negb orb String.eqb Ascii.eqb Bool.eqb andb].
  set (cleared := clearAudioBuffer _).
  match goal with
  | |- context [for_range 0 ?n ?outer ?b0] =>
      destruct (decode_all_samples outer
                  (fun i channel =>
                     decodedSample p (fmt_bitDepth p fileData) fileData
                       (data_samplesStart fileData
                        + fmt_numBytesPerBlock p fileData * i
                        + channel * (fmt_bitDepth p fileData ÷ 8)))
                  n (fmt_numChannels p fileData) b0)
        as (b' & Hrun & _)
  end.
  - unfold cleared. rewrite samples_clearAudioBuffer, resize_nil, repeat_length.
    destruct Hnc as [->| ->]; reflexivity.
  - intros channel Hc. unfold cleared.
    rewrite samples_clearAudioBuffer, resize_nil. apply at_repeat.
  - intros i b Hi Hl.
    match goal with
    | |- context [for_range 0 _ ?inner b] =>
        apply (append_to_each_channel inner
                 (fun channel =>
                    decodedSample p (fmt_bitDepth p fileData) fileData
                      (data_samplesStart fileData
                       + fmt_numBytesPerBlock p fileData * i
                       + channel * (fmt_bitDepth p fileData ÷ 8)))
                 (fmt_numChannels p fileData) b Hl)
    end.
    intros channel b1 Hc. unfold decodedSample. rewrite Hblock.
    destruct Hbd as [->|[->| ->]]; reflexivity.
  - rewrite Hrun. eexists. reflexivity.
Qed.

(** ** Reading back what was written *)

Lemma uint8_t_id (b : Z) : 0 <= b < 256 -> uint8_t b = b.
Proof. intros H. unfold uint8_t, wrap_unsigned. now apply Z.mod_small. Qed.

Lemma uint8_t_range (b : Z) : 0 <= uint8_t b < 256.
Proof. unfold uint8_t, wrap_unsigned. now apply Z.mod_pos_bound. Qed.

Lemma byteAt_bytesToString (l : list Z) :
  forall i, 0 <= i ->
    byteAt (bytesToString l) i = uint8_t (nth (Z.to_nat i) l 0).
Proof.
  induction l as [|b l IH]; intros i Hi; unfold byteAt.
  - destruct (Z.ltb_spec i 0); [lia|]. simpl.
    now destruct (Z.to_nat i).
  - destruct (Z.ltb_spec i 0) as [H|_]; [lia|].
    destruct (Z.to_nat i) as [|k] eqn:Hk; simpl.
    + pose proof (uint8_t_range b).
      rewrite N_ascii_embedding by lia. lia.
    + specialize (IH (Z.of_nat k)). unfold byteAt in IH.
      destruct (Z.ltb_spec (Z.of_nat k) 0) as [H|_]; [lia|].
      rewrite Nat2Z.id in IH. apply IH. lia.
Qed.

Lemma header_byte (l rest : list Z) (o x : Z) :
  0 <= o < Z.of_nat (length l) ->
  nth (Z.to_nat o) l 0 = x -> 0 <= x < 256 ->
  byteAt (bytesToString (l ++ rest)) o = x.
Proof.
  intros Ho Hnth Hx. rewrite byteAt_bytesToString by lia.
  rewrite app_nth1 by lia. rewrite Hnth. now apply uint8_t_id.
Qed.

Lemma digit_range (k : nat) (x : Z) : 0 <= digit k x < 256.
Proof. unfold digit. now apply Z.mod_pos_bound. Qed.

Lemma digits_2 (x : Z) : digit 0 x + 256 * digit 1 x = x mod 65536.
Proof.
  unfold digit. change (256 ^ Z.of_nat 0) with 1.
  change (256 ^ Z.of_nat 1) with 256. rewrite Z.div_1_r.
  change 65536 with (256 * 256). now rewrite Z.rem_mul_r by lia.
Qed.

Lemma digits_4 (x : Z) :
  digit 0 x + 256 * (digit 1 x + 256 * (digit 2 x + 256 * digit 3 x))
  = x mod 4294967296.
Proof.
  unfold digit. change (256 ^ Z.of_nat 0) with 1.
  change (256 ^ Z.of_nat 1) with 256.
  change (256 ^ Z.of_nat 2) with (256 * 256).
  change (256 ^ Z.of_nat 3) with (256 * 256 * 256).
  rewrite Z.div_1_r, <- !Z.div_div by lia.
  change 4294967296 with (256 * (256 * (256 * 256))).
  now rewrite !Z.rem_mul_r by lia.
Qed.

Lemma wrap_signed_of_mod (w x : Z) :
  wrap_signed w (x mod 2 ^ w) = wrap_signed w x.
Proof. unfold wrap_signed. now rewrite Zplus_mod_idemp_l. Qed.

(** Bytes that are the digits of an integer read as written are read as
    they are stored. *)
Lemma stored_of_written (p : Platform) (width : nat) (s : string)
    (o v : Z) :
  (forall k : nat, (k < width - 1)%nat ->
     byteAt s (o + Z.of_nat k) = digit k v) ->
  read_as_written p width v = true ->
  stored_as_read p width s o = true.
Proof.
  unfold read_as_written, stored_as_read. intros Hbytes H.
  apply orb_true_iff in H. apply orb_true_iff.
  destruct H as [H|H]; [now left|right].
  rewrite forallb_forall in *. intros k Hk.
  rewrite Hbytes by (apply in_seq in Hk; lia). now apply H.
Qed.

Lemma twoBytes_field (p : Platform) (l rest : list Z) (o x : Z) :
  0 <= o -> o + 1 < Z.of_nat (length l) ->
  nth (Z.to_nat o) l 0 = digit 0 x ->
  nth (Z.to_nat (o + 1)) l 0 = digit 1 x ->
  read_as_written p 2 x = true ->
  twoBytesToInt p (bytesToString (l ++ rest)) o LittleEndian = int16_t x.
Proof.
  intros Ho Hlen H0 H1 Hplain.
  assert (Hb0 : byteAt (bytesToString (l ++ rest)) o = digit 0 x)
    by (apply header_byte; [lia|assumption|apply digit_range]).
  assert (Hb1 : byteAt (bytesToString (l ++ rest)) (o + 1) = digit 1 x)
    by (apply header_byte; [lia|assumption|apply digit_range]).
  rewrite twoBytesToInt_le.
  - unfold le_signed, le_unsigned. cbn [fold_right seq].
    change (Z.of_nat 0) with 0. change (Z.of_nat 1) with 1.
    rewrite Z.add_0_r, Hb0, Hb1, Z.mul_0_r, Z.add_0_r, digits_2.
    apply (wrap_signed_of_mod 16).
  - apply (stored_of_written p 2 _ o x); [|exact Hplain].
    intros k Hk. replace k with 0%nat by (simpl in Hk; lia).
    change (Z.of_nat 0) with 0. now rewrite Z.add_0_r.
Qed.

Lemma fourBytes_field (p : Platform) (l rest : list Z) (o x : Z) :
  0 <= o -> o + 3 < Z.of_nat (length l) ->
  nth (Z.to_nat o) l 0 = digit 0 x ->
  nth (Z.to_nat (o + 1)) l 0 = digit 1 x ->
  nth (Z.to_nat (o + 2)) l 0 = digit 2 x ->
  nth (Z.to_nat (o + 3)) l 0 = digit 3 x ->
  read_as_written p 4 x = true ->
  fourBytesToInt p (bytesToString (l ++ rest)) o LittleEndian = int32_t x.
Proof.
  intros Ho Hlen H0 H1 H2 H3 Hplain.
  assert (Hb0 : byteAt (bytesToString (l ++ rest)) o = digit 0 x)
    by (apply header_byte; [lia|assumption|apply digit_range]).
  assert (Hb1 : byteAt (bytesToString (l ++ rest)) (o + 1) = digit 1 x)
    by (apply header_byte; [lia|assumption|apply digit_range]).
  assert (Hb2 : byteAt (bytesToString (l ++ rest)) (o + 2) = digit 2 x)
    by (apply header_byte; [lia|assumption|apply digit_range]).
  assert (Hb3 : byteAt (bytesToString (l ++ rest)) (o + 3) = digit 3 x)
    by (apply header_byte; [lia|assumption|apply digit_range]).
  rewrite fourBytesToInt_le.
  - unfold le_signed, le_unsigned. cbn [fold_right seq].
    change (Z.of_nat 0) with 0. change (Z.of_nat 1) with 1.
    change (Z.of_nat 2) with 2. change (Z.of_nat 3) with 3.
    rewrite Z.add_0_r, Hb0, Hb1, Hb2, Hb3, Z.mul_0_r, Z.add_0_r, digits_4.
    apply (wrap_signed_of_mod 32).
  - apply (stored_of_written p 4 _ o x); [|exact Hplain].
    intros k Hk.
    assert (k = 0 \/ k = 1 \/ k = 2)%nat as [->|[->| ->]] by (simpl in Hk; lia).
    + change (Z.of_nat 0) with 0. now rewrite Z.add_0_r.
    + exact Hb1.
    + exact Hb2.
Qed.

(** A value below 128 is read as written, and so is every number of bytes
    on a platform where plain [char] is unsigned. *)
Lemma read_as_written_small (p : Platform) (width : nat) (v : Z) :
  0 <= v < 128 -> read_as_written p width v = true.
Proof.
  intros Hv. unfold read_as_written. apply orb_true_iff. right.
  apply forallb_forall. intros k _. apply Z.ltb_lt. unfold digit.
  destruct k as [|k].
  - change (256 ^ Z.of_nat 0) with 1. rewrite Z.div_1_r, Z.mod_small; lia.
  - assert (Hpow : 256 <= 256 ^ Z.of_nat (Datatypes.S k)).
    { rewrite Nat2Z.inj_succ, Z.pow_succ_r by lia.
      assert (1 <= 256 ^ Z.of_nat k)
        by (apply (Z.pow_le_mono_r 256 0); lia).
      lia. }
    rewrite Z.div_small by lia. reflexivity.
Qed.

Lemma uint32_t_int32_t (x : Z) : uint32_t (int32_t x) = uint32_t x.
Proof. apply (wrap_signed_mod 32). lia. Qed.

Lemma uint32_t_id (x : Z) : 0 <= x < 2 ^ 32 -> uint32_t x = x.
Proof. intros H. unfold uint32_t, wrap_unsigned. now apply Z.mod_small. Qed.

(** ** Round trip *)

(** C1, as stated, fails: a buffer of three equal-length channels at bit
    depth 16 is encoded, and [decodeWaveFile] refuses the result (its channel
    count is neither 1 nor 2), whether plain [char] is signed or not. *)
Lemma roundtrip_three_channels_refused :
  let this := mkAudioFile [[0%Q]; [0%Q]; [0%Q]] NotLoaded 11025 16 in
  equal_length_channels (samples this)
  /\ bitDepth this = 16
  /\ ~ roundtrip_within signed_char_platform (1 # 32768) this
  /\ ~ roundtrip_within unsigned_char_platform (1 # 32768) this.
Proof.
  intros this. split; [|split; [reflexivity|split]].
  - intros c1 c2 [<-|[<-|[<-|[]]]] [<-|[<-|[<-|[]]]]; reflexivity.
  - intros (fileData & decoded & Hsave & Hdec & _).
    vm_compute in Hsave. injection Hsave as <-.
    vm_compute in Hdec. discriminate Hdec.
  - intros (fileData & decoded & Hsave & Hdec & _).
    vm_compute in Hsave. injection Hsave as <-.
    vm_compute in Hdec. discriminate Hdec.
Qed.

(** A mono buffer holding the one sample 0 is encoded and decoded:
    [sampleToSixteenBitInt] has written 32767 (FF 7F) for it, which is read
    as 32767/32768 where plain [char] is unsigned and as -1/32768 where it
    is signed. *)
Lemma roundtrip_silence_is_full_scale :
  let this := mkAudioFile [[0%Q]] NotLoaded 11025 16 in
  exists fileData decoded decoded',
    saveToWaveFile unsigned_char_platform this = WriteDataToFile fileData
    /\ saveToWaveFile signed_char_platform this = WriteDataToFile fileData
    /\ decodeWaveFile unsigned_char_platform AudioFile_new
         (bytesToString fileData) = (decoded, true)
    /\ samples decoded = [[(32767 # 32768)%Q]]
    /\ decodeWaveFile signed_char_platform AudioFile_new
         (bytesToString fileData) = (decoded', true)
    /\ samples decoded' = [[(-1 # 32768)%Q]].
Proof.
  intros this. eexists. eexists. eexists.
  split; [vm_compute; reflexivity|].
  split; [vm_compute; reflexivity|].
  split; [vm_compute; reflexivity|].
  split; [vm_compute; reflexivity|].
  split; vm_compute; reflexivity.
Qed.

(** C1, amended.  For a buffer of one or two equal-length channels at bit
    depth 16 (sample rate within 32 bits, file size within [int32_t]), whose
    encoding has its first "fmt" at offset 12 and its first "data" at offset
    36, and whose sample rate, byte rate and data size are read as written
    (plain [char] is unsigned, or their bytes below the top one are less
    than 0x80): [decodeWaveFile] accepts the bytes [saveToWaveFile] hands
    over, and the decoded channel count, sample count of every channel and
    sample rate are those of the buffer. *)
Theorem roundtrip_recovers_format (p : Platform) (this that : AudioFile)
    (fileData : list Z) :
  getNumChannels this = 1 \/ getNumChannels this = 2 ->
  equal_length_channels (samples this) ->
  bitDepth this = 16 ->
  0 <= sampleRate this < 2 ^ 32 ->
  44 + getNumSamplesPerChannel this * getNumChannels this * 2 <= INT32_MAX ->
  read_as_written p 4 (sampleRate this) = true ->
  read_as_written p 4 (uint32_t (getNumChannels this * sampleRate this * 16) / 8)
  = true ->
  read_as_written p 4 (getNumSamplesPerChannel this * getNumChannels this * 2)
  = true ->
  saveToWaveFile p this = WriteDataToFile fileData ->
  getIndexOfString (bytesToString fileData) "fmt" = 12 ->
  getIndexOfString (bytesToString fileData) "data" = 36 ->
  exists decoded : AudioFile,
    decodeWaveFile p that (bytesToString fileData) = (decoded, true)
    /\ getNumChannels decoded = getNumChannels this
    /\ (forall channel, 0 <= channel < getNumChannels this ->
          LinkedList.size (channelAt (samples decoded) channel)
          = getNumSamplesPerChannel this)
    /\ getNumSamplesPerChannel decoded = getNumSamplesPerChannel this
    /\ getSampleRate decoded = getSampleRate this
    /\ getBitDepth decoded = 16.
Proof.
  intros Hc _ Hbd Hsr Hfit Hrsr Hrbps Hrsize Hsave Hfmt Hdata.
  pose proof (getNumSamplesPerChannel_nonneg this) as Hn.
  destruct (saveToWaveFile_assembled p this) as (payload & Hasm & Hlen).
  { right. left. exact Hbd. }
  { rewrite Hbd. exact Hfit. }
  rewrite Hsave, Hbd in Hasm. change (16 / 8) with 2 in Hasm.
  assert (Hfd : fileData
                = wave_header (getNumChannels this) (sampleRate this) 16
                    (getNumSamplesPerChannel this * getNumChannels this * 2)
                  ++ payload) by congruence.
  clear Hasm. subst fileData.
  set (c := getNumChannels this) in *.
  set (n := getNumSamplesPerChannel this) in *.
  set (sr := sampleRate this) in *.
  set (header := wave_header c sr 16 (n * c * 2)) in *.
  set (s := bytesToString (header ++ payload)) in *.
  assert (Hhl : Z.of_nat (length header) = 44) by reflexivity.
  assert (Hsmall : forall v, 0 <= v < 128 -> read_as_written p 2 v = true)
    by (intros v Hv; now apply read_as_written_small).
  assert (Haf : fmt_audioFormat p s = 1).
  { unfold fmt_audioFormat. rewrite Hfmt.
    unfold s. rewrite (twoBytes_field p header payload (12 + 8) 1);
      try (reflexivity || lia). apply Hsmall. lia. }
  assert (Hnc : fmt_numChannels p s = c).
  { unfold fmt_numChannels. rewrite Hfmt.
    unfold s. rewrite (twoBytes_field p header payload (12 + 10) c);
      try (reflexivity || lia).
    - destruct Hc as [->| ->]; reflexivity.
    - apply Hsmall. lia. }
  assert (Hrate0 : fmt_sampleRate p s = sr).
  { unfold fmt_sampleRate. rewrite Hfmt.
    unfold s. rewrite (fourBytes_field p header payload (12 + 12) sr);
      try (reflexivity || lia || assumption).
    rewrite uint32_t_int32_t. now apply uint32_t_id. }
  assert (Hbps : fmt_numBytesPerSecond p s = uint32_t (c * sr * 16) / 8).
  { unfold fmt_numBytesPerSecond. rewrite Hfmt.
    unfold s.
    rewrite (fourBytes_field p header payload (12 + 16)
               (uint32_t (c * sr * 16) / 8));
      try (reflexivity || lia || assumption).
    rewrite uint32_t_int32_t. apply uint32_t_id.
    assert (0 <= uint32_t (c * sr * 16) < 2 ^ 32)
      by (apply Z.mod_pos_bound; lia).
    split; [apply Z.div_pos; lia|].
    apply Z.div_lt_upper_bound; lia. }
  assert (Hblk : fmt_numBytesPerBlock p s = c * 2).
  { unfold fmt_numBytesPerBlock. rewrite Hfmt.
    unfold s. rewrite (twoBytes_field p header payload (12 + 20) (c * (16 / 8)));
      try (reflexivity || lia).
    - destruct Hc as [->| ->]; reflexivity.
    - apply Hsmall. change (16 / 8) with 2. lia. }
  assert (Hdepth : fmt_bitDepth p s = 16).
  { unfold fmt_bitDepth. rewrite Hfmt.
    unfold s. rewrite (twoBytes_field p header payload (12 + 22) 16);
      try (reflexivity || lia). apply Hsmall. lia. }
  assert (Hsize : data_chunkSize p s = n * c * 2).
  { unfold data_chunkSize. rewrite Hdata.
    unfold s. rewrite (fourBytes_field p header payload (36 + 4) (n * c * 2));
      try (reflexivity || lia || assumption).
    apply int32_t_id. unfold INT32_MAX in *. nia. }
  destruct (decodeWaveFile_accepts p that s) as (decoded & Hdec).
  - reflexivity.
  - reflexivity.
  - rewrite Hdata. discriminate.
  - rewrite Hfmt. discriminate.
  - exact Haf.
  - rewrite Hnc. exact Hc.
  - now rewrite Hbps, Hnc, Hrate0, Hdepth.
  - now rewrite Hblk, Hnc, Hdepth.
  - right. left. exact Hdepth.
  - exists decoded. split; [exact Hdec|].
    destruct (decodeWaveFile_true p that decoded s Hdec)
      as (_ & _ & _ & _ & _ & _ & _ & _ & _ & Hdsr & Hdbd & _ & Hdlen & Hch).
    rewrite Hnc, Hdepth, Hsize in *.
    assert (Hcount : Z.to_nat (n * c * 2 ÷ (c * 16 ÷ 8)) = Z.to_nat n).
    { f_equal. replace (c * 16) with (c * 2 * 8) by ring.
      rewrite Z.quot_mul by lia. replace (n * c * 2) with (n * (c * 2)) by ring.
      apply Z.quot_mul. lia. }
    assert (Hsizes : forall channel, 0 <= channel < c ->
              LinkedList.size (channelAt (samples decoded) channel) = n).
    { intros channel Hchan. rewrite (Hch channel Hchan).
      unfold LinkedList.size. rewrite length_map, length_seq, Hcount. lia. }
    split; [exact Hdlen|]. split; [exact Hsizes|]. split.
    + unfold getNumSamplesPerChannel at 1. unfold LinkedList.size at 1.
      rewrite Hdlen.
      replace (c >? 0) with true by (destruct Hc as [->| ->]; reflexivity).
      apply Hsizes. lia.
    + split; [unfold getSampleRate; now rewrite Hdsr|].
      unfold getBitDepth. now rewrite Hdbd.
Qed.

Lemma roundtrip_recovers_format_witness :
  let this :=
    mkAudioFile [[0%Q; (1 # 2)%Q; (-1 # 2)%Q; 1%Q]] NotLoaded 11025 16 in
  let fileData :=
    [82; 73; 70; 70; 44; 0; 0; 0; 87; 65; 86; 69; 102; 109; 116; 32;
     16; 0; 0; 0; 1; 0; 1; 0; 17; 43; 0; 0; 34; 86; 0; 0; 2; 0; 16; 0;
     100; 97; 116; 97; 8; 0; 0; 0;
     255; 127; 255; 127; 255; 127; 255; 127] in
  exists decoded : AudioFile,
    decodeWaveFile signed_char_platform AudioFile_new (bytesToString fileData)
    = (decoded, true)
    /\ getNumChannels decoded = getNumChannels this
    /\ (forall channel, 0 <= channel < getNumChannels this ->
          LinkedList.size (channelAt (samples decoded) channel)
          = getNumSamplesPerChannel this)
    /\ getNumSamplesPerChannel decoded = getNumSamplesPerChannel this
    /\ getSampleRate decoded = getSampleRate this
    /\ getBitDepth decoded = 16.
Proof.
  intros this fileData.
  apply (roundtrip_recovers_format signed_char_platform this AudioFile_new
           fileData).
  - left. reflexivity.
  - apply equal_length_mono.
  - reflexivity.
  - split; [discriminate|reflexivity].
  - vm_compute. discriminate.
  - reflexivity.
  - reflexivity.
  - reflexivity.
  - vm_compute. reflexivity.
  - vm_compute. reflexivity.
  - vm_compute. reflexivity.
Defined.

(** ** Decoded samples and the sign of plain [char] *)

(** C5.  Where plain [char] is signed, [decodeWaveFile] accepts the stream
    below (mono, 22050 Hz, 24 bits, one sample stored as FF FF 7F) and
    decodes the sample as -1/8388608, where the 24-bit little-endian signed
    value of the three bytes is 8388607: line 518 combines the characters
    without converting them to unsigned bytes, so the sign of the byte FF
    covers the two bytes above it.  Where plain [char] is unsigned the
    sample is 8388607/8388608. *)
Theorem decodeWaveFile_sign_extends_bytes :
  let fileData :=
    bytesToString
      [82; 73; 70; 70; 39; 0; 0; 0; 87; 65; 86; 69; 102; 109; 116; 32;
       16; 0; 0; 0; 1; 0; 1; 0; 34; 86; 0; 0; 102; 2; 1; 0; 3; 0; 24; 0;
       100; 97; 116; 97; 3; 0; 0; 0;
       255; 255; 127] in
  exists decoded decoded' : AudioFile,
    decodeWaveFile signed_char_platform AudioFile_new fileData
    = (decoded, true)
    /\ samples decoded = [[(-1 # 8388608)%Q]]
    /\ pcm_sample 24 fileData 44 = (8388607 # 8388608)%Q
    /\ decodeWaveFile unsigned_char_platform AudioFile_new fileData
       = (decoded', true)
    /\ samples decoded' = [[(8388607 # 8388608)%Q]].
Proof.
  intros fileData. eexists. eexists.
  split; [vm_compute; reflexivity|].
  split; [vm_compute; reflexivity|].
  split; [vm_compute; reflexivity|].
  split; vm_compute; reflexivity.
Qed.

(** The same at 16 bits: the sample stored as FF 7F (32767) is decoded as
    -1/32768 where plain [char] is signed (line 775). *)
Example decodeWaveFile_sign_extends_sixteen_bits :
  let fileData :=
    bytesToString
      [82; 73; 70; 70; 38; 0; 0; 0; 87; 65; 86; 69; 102; 109; 116; 32;
       16; 0; 0; 0; 1; 0; 1; 0; 17; 43; 0; 0; 34; 86; 0; 0; 2; 0; 16; 0;
       100; 97; 116; 97; 2; 0; 0; 0;
       255; 127] in
  samples (fst (decodeWaveFile signed_char_platform AudioFile_new fileData))
  = [[(-1 # 32768)%Q]]
  /\ pcm_sample 16 fileData 44 = (32767 # 32768)%Q.
Proof. split; vm_compute; reflexivity. Qed.

(** The stream of the specification's scenario: mono, 8000 Hz, 16 bits, the
    samples 0, 0.5, -0.5 and 32767/32768.  Where plain [char] is unsigned it
    is decoded.  Where it is signed it is refused: the byte rate 16000 is
    stored as 80 3E 00 00 and read as -128 (line 761). *)
Example decodeWaveFile_scenario :
  let fileData :=
    bytesToString
      [82; 73; 70; 70; 44; 0; 0; 0; 87; 65; 86; 69; 102; 109; 116; 32;
       16; 0; 0; 0; 1; 0; 1; 0; 64; 31; 0; 0; 128; 62; 0; 0; 2; 0; 16; 0;
       100; 97; 116; 97; 8; 0; 0; 0;
       0; 0; 0; 64; 0; 192; 255; 127] in
  samples (fst (decodeWaveFile unsigned_char_platform AudioFile_new fileData))
  = [[(0 # 32768)%Q; (16384 # 32768)%Q; (-16384 # 32768)%Q;
      (32767 # 32768)%Q]]
  /\ snd (decodeWaveFile signed_char_platform AudioFile_new fileData) = false
  /\ fourBytesToInt signed_char_platform fileData 28 LittleEndian = -128.
Proof. split; [|split]; vm_compute; reflexivity. Qed.

(** A consistent header (mono, 11025 Hz, 16 bits) is accepted on both
    platforms; with one field changed at a time it is refused. *)
Example load_accepts_consistent_header :
  let fileData :=
    bytesToString
      [82; 73; 70; 70; 36; 0; 0; 0; 87; 65; 86; 69; 102; 109; 116; 32;
       16; 0; 0; 0; 1; 0; 1; 0; 17; 43; 0; 0; 34; 86; 0; 0; 2; 0; 16; 0;
       100; 97; 116; 97; 0; 0; 0; 0] in
  snd (load signed_char_platform AudioFile_new fileData) = true
  /\ snd (load unsigned_char_platform AudioFile_new fileData) = true.
Proof. split; vm_compute; reflexivity. Qed.

Example load_refuses_compressed :
  let fileData :=
    bytesToString
      [82; 73; 70; 70; 36; 0; 0; 0; 87; 65; 86; 69; 102; 109; 116; 32;
       16; 0; 0; 0; 2; 0; 1; 0; 17; 43; 0; 0; 34; 86; 0; 0; 2; 0; 16; 0;
       100; 97; 116; 97; 0; 0; 0; 0] in
  snd (load signed_char_platform AudioFile_new fileData) = false
  /\ snd (load unsigned_char_platform AudioFile_new fileData) = false.
Proof. split; vm_compute; reflexivity. Qed.

Example load_refuses_three_channels :
  let fileData :=
    bytesToString
      [82; 73; 70; 70; 36; 0; 0; 0; 87; 65; 86; 69; 102; 109; 116; 32;
       16; 0; 0; 0; 1; 0; 3; 0; 17; 43; 0; 0; 102; 2; 1; 0; 6; 0; 16; 0;
       100; 97; 116; 97; 0; 0; 0; 0] in
  snd (load signed_char_platform AudioFile_new fileData) = false
  /\ snd (load unsigned_char_platform AudioFile_new fileData) = false.
Proof. split; vm_compute; reflexivity. Qed.

Example load_refuses_byte_rate :
  let fileData :=
    bytesToString
      [82; 73; 70; 70; 36; 0; 0; 0; 87; 65; 86; 69; 102; 109; 116; 32;
       16; 0; 0; 0; 1; 0; 1; 0; 17; 43; 0; 0; 35; 86; 0; 0; 2; 0; 16; 0;
       100; 97; 116; 97; 0; 0; 0; 0] in
  snd (load signed_char_platform AudioFile_new fileData) = false
  /\ snd (load unsigned_char_platform AudioFile_new fileData) = false.
Proof. split; vm_compute; reflexivity. Qed.

(** ** [setAudioBuffer] on a well-formed replacement *)

Lemma channelAt_setSampleAt_same (b : AudioBuffer) (channel i : Z) (x : T) :
  0 <= channel < Z.of_nat (length b) ->
  channelAt (setSampleAt b channel i x) channel
  = LinkedList.set_at (channelAt b channel) i x.
Proof. intros H. unfold setSampleAt, channelAt. now apply at_set_at_same. Qed.

Lemma channelAt_setSampleAt_other (b : AudioBuffer) (channel other i : Z) (x : T) :
  channel <> other ->
  channelAt (setSampleAt b channel i x) other = channelAt b other.
Proof. intros H. unfold setSampleAt, channelAt. now apply at_set_at_other. Qed.

Lemma length_setSampleAt (b : AudioBuffer) (channel i : Z) (x : T) :
  length (setSampleAt b channel i x) = length b.
Proof. apply length_set_at. Qed.

Lemma channelAt_In (b : AudioBuffer) (channel : Z) :
  0 <= channel < Z.of_nat (length b) -> In (channelAt b channel) b.
Proof.
  intros H. unfold channelAt, LinkedList.at_.
  destruct (Z.ltb_spec channel 0); [lia|]. apply nth_In. lia.
Qed.

(** The copy of one channel: the inner loop of [setAudioBuffer]. *)
Lemma copy_channel {R : Type} (newBuffer b : AudioBuffer) (k numSamples : Z) :
  0 <= k < Z.of_nat (length b) ->
  Z.of_nat (length (channelAt newBuffer k)) = numSamples ->
  exists b',
    for_range 0 numSamples
      (fun i (b0 : AudioBuffer) =>
         Next (R := R) (setSampleAt b0 k i (sampleAt newBuffer k i)))
      (resizeChannel b k numSamples)
    = Next b'
    /\ length b' = length b
    /\ channelAt b' k = channelAt newBuffer k
    /\ forall j, j <> k -> channelAt b' j = channelAt b j.
Proof.
  intros Hk Hn.
  destruct (for_range_invariant
              (fun i (b0 : AudioBuffer) =>
                 Next (R := R) (setSampleAt b0 k i (sampleAt newBuffer k i)))
              (fun i b0 =>
                 length b0 = length b
                 /\ Z.of_nat (length (channelAt b0 k)) = numSamples
                 /\ (forall i', 0 <= i' < i ->
                       sampleAt b0 k i' = sampleAt newBuffer k i')
                 /\ forall j, j <> k -> channelAt b0 j = channelAt b j)
              0 numSamples (resizeChannel b k numSamples))
    as (b' & Hrun & Hl & Hcl & Hs & Ho).
  - lia.
  - split; [apply length_resizeChannel|]. split.
    + rewrite channelAt_resizeChannel_same by lia.
      unfold LinkedList.resize. rewrite length_resize. lia.
    + split; [intros i' Hi'; lia|].
      intros j Hj. now apply channelAt_resizeChannel_other.
  - intros i b0 Hi (Hl & Hcl & Hs & Ho). eexists. split; [reflexivity|].
    split; [now rewrite length_setSampleAt|]. split.
    + rewrite channelAt_setSampleAt_same by lia. now rewrite length_set_at.
    + split.
      * intros i' Hi'. unfold sampleAt at 1.
        rewrite channelAt_setSampleAt_same by lia.
        destruct (Z.eq_dec i' i) as [->|Hne].
        -- now rewrite at_set_at_same by lia.
        -- rewrite at_set_at_other by lia. apply Hs. lia.
      * intros j Hj. rewrite channelAt_setSampleAt_other by lia. now apply Ho.
  - exists b'. split; [assumption|]. split; [assumption|].
    split; [|assumption].
    apply (at_ext 0%Q); [lia|]. intros i Hi. apply Hs. lia.
Qed.

(** A replacement with at least one channel, all of one length, is copied
    whole and [setAudioBuffer] returns [true]. *)
Lemma setAudioBuffer_copies (this : AudioFile) (newBuffer : AudioBuffer) :
  newBuffer <> [] ->
  equal_length_channels newBuffer ->
  setAudioBuffer this newBuffer = (with_samples this newBuffer, true).
Proof.
  intros Hne Heq. unfold setAudioBuffer.
  assert (Hpos : 0 < LinkedList.size newBuffer).
  { unfold LinkedList.size. destruct newBuffer; [contradiction|simpl; lia]. }
  destruct (Z.leb_spec (LinkedList.size newBuffer) 0) as [H|_]; [lia|].
  set (numSamples := LinkedList.size (channelAt newBuffer 0)).
  set (resized := LinkedList.resize [] (samples this) (LinkedList.size newBuffer)).
  assert (Hrl : length resized = length newBuffer).
  { unfold resized, LinkedList.resize, LinkedList.size.
    now rewrite length_resize, Nat2Z.id. }
  match goal with
  | |- context [for_range 0 ?hi ?body resized] =>
      destruct (for_range_invariant body
                  (fun k (b : AudioBuffer) =>
                     length b = length newBuffer
                     /\ forall j, 0 <= j < k ->
                          channelAt b j = channelAt newBuffer j)
                  0 hi resized) as (b' & Hrun & Hl & Hch)
  end.
  - apply size_nonneg.
  - split; [assumption|]. intros j Hj. lia.
  - intros k b Hk (Hl & Hch). unfold LinkedList.size in Hk. rewrite Hrl in Hk.
    assert (Hsame : LinkedList.size (channelAt newBuffer k) = numSamples).
    { unfold numSamples, LinkedList.size. f_equal.
      apply Heq; apply channelAt_In; unfold LinkedList.size in Hpos; lia. }
    rewrite Hsame, Z.eqb_refl. cbn [negb].
    destruct (copy_channel (R := bool) newBuffer b k numSamples)
      as (b1 & Hcopy & Hl1 & Hk1 & Ho1); [lia|exact Hsame|].
    exists b1. split; [exact Hcopy|]. split; [lia|].
    intros j Hj. destruct (Z.eq_dec j k) as [->|Hjk]; [assumption|].
    rewrite Ho1 by assumption. apply Hch. lia.
  - rewrite Hrun. do 2 f_equal.
    apply (at_ext []); [assumption|].
    intros j Hj. apply Hch. unfold LinkedList.size. lia.
Qed.

(** ** The 24-bit conversion, which does not go through [clamp] *)

Lemma truncate_scaled (v : Z) :
  truncate (inject_Z v / inject_Z 8388608 * inject_Z 8388608)%Q = v.
Proof.
  unfold truncate. simpl.
  rewrite Z.mul_1_r. change (Z.pos (8388608 * 1)) with 8388608.
  apply Z.quot_mul. lia.
Qed.

Lemma float_to_int32_fits (p : Platform) (x : Q) :
  INT32_MIN <= truncate x <= INT32_MAX -> float_to_int32 p x = truncate x.
Proof.
  intros [Hlo Hhi]. unfold float_to_int32.
  apply Z.leb_le in Hlo, Hhi. now rewrite Hlo, Hhi.
Qed.

Lemma twentyfour_bit_exact (p : Platform) (v : Z) :
  - 8388608 <= v < 8388608 ->
  float_to_int32 p (inject_Z v / inject_Z 8388608 * inject_Z 8388608)%Q = v.
Proof.
  intros Hv. rewrite float_to_int32_fits; rewrite truncate_scaled;
    [reflexivity|unfold INT32_MIN, INT32_MAX; lia].
Qed.

(** ** Chunks are found by search *)

(** A sample rate whose four bytes spell "data" (1635017060 Hz): the search
    finds "data" at offset 24, inside the format chunk.  Where plain [char]
    is unsigned the byte rate is taken for the size of the data, and the
    empty buffer does not come back empty; where it is signed the stream is
    refused. *)
Lemma roundtrip_data_in_sample_rate :
  let this := mkAudioFile [[]] NotLoaded 1635017060 16 in
  (exists fileData,
     saveToWaveFile unsigned_char_platform this = WriteDataToFile fileData
     /\ getIndexOfString (bytesToString fileData) "data" = 24)
  /\ ~ roundtrip_within unsigned_char_platform (1 # 32768) this
  /\ ~ roundtrip_within signed_char_platform (1 # 32768) this.
Proof.
  intros this. split; [|split].
  - eexists. split; [vm_compute; reflexivity|]. vm_compute. reflexivity.
  - intros (fileData & decoded & Hsave & Hdec & _ & Hsize & _).
    vm_compute in Hsave. injection Hsave as <-.
    destruct (decodeWaveFile_true _ _ _ _ Hdec)
      as (_ & _ & _ & _ & _ & _ & _ & _ & _ & _ & _ & _ & _ & Hch).
    specialize (Hsize 0). specialize (Hch 0).
    match type of Hch with
    | 0 <= 0 < ?c -> _ =>
        assert (Hc : 0 <= 0 < c) by (split; [lia|vm_compute; reflexivity])
    end.
    specialize (Hch Hc). rewrite Hch in Hsize.
    unfold LinkedList.size in Hsize. rewrite length_map, length_seq in Hsize.
    match type of Hsize with
    | (0 <= 0 < _ -> Z.of_nat (Z.to_nat ?x) = _) =>
        assert (Hx : x = 24404324) by (vm_compute; reflexivity)
    end.
    rewrite Hx in Hsize.
    assert (Hn : Z.of_nat (Z.to_nat 24404324) = getNumSamplesPerChannel this).
    { apply Hsize. split; [lia|vm_compute; reflexivity]. }
    rewrite Z2Nat.id in Hn by lia. vm_compute in Hn. discriminate Hn.
  - intros (fileData & decoded & Hsave & Hdec & _).
    vm_compute in Hsave. injection Hsave as <-.
    vm_compute in Hdec. discriminate Hdec.
Qed.


(** * Further properties of the code *)

(** ** [clamp] *)

(** X1.  Whenever the lower bound is not above the upper bound, [clamp]
    returns the upper bound, whatever the value: below, inside or above the
    range. *)
Theorem clamp_returns_upper_bound (value minValue maxValue : T) :
  (minValue <= maxValue)%Q -> clamp value minValue maxValue = maxValue.
Proof. apply clamp_is_maxValue. Qed.

Lemma clamp_returns_upper_bound_witness :
  clamp (-(3 # 4))%Q (-1)%Q 1%Q = 1%Q.
Proof.
  apply (clamp_returns_upper_bound (-(3 # 4))%Q (-1)%Q 1%Q). discriminate.
Defined.

(** ** [getIndexOfString] *)

Lemma getIndexOfString_from_cases (source s : string) :
  forall (count : nat) (i : Z),
    0 <= i ->
    let len := Z.of_nat (String.length s) in
    let r := getIndexOfString_from count i source s in
    (r = -1
     /\ forall j, i <= j < i + Z.of_nat count ->
          splitString source j (j + len) <> s)
    \/ (i <= r < i + Z.of_nat count
        /\ splitString source r (r + len) = s
        /\ forall j, i <= j < r -> splitString source j (j + len) <> s).
Proof.
  induction count as [|k IH]; intros i Hi len r.
  - left. split; [reflexivity|]. intros j Hj. lia.
  - subst r. cbn [getIndexOfString_from]. fold len.
    destruct (String.eqb_spec (splitString source i (i + len)) s) as [Heq|Hne].
    + right. split; [lia|]. split; [exact Heq|]. intros j Hj. lia.
    + destruct (IH (i + 1)) as [(Hr & Hno)|(Hr & Hm & Hno)]; [lia| |].
      * left. split; [exact Hr|]. intros j Hj.
        destruct (Z.eq_dec j i) as [->|Hji]; [exact Hne|]. apply Hno. lia.
      * right. split; [lia|]. split; [exact Hm|]. intros j Hj.
        destruct (Z.eq_dec j i) as [->|Hji]; [exact Hne|]. apply Hno. lia.
Qed.

(** X2.  An index returned by [getIndexOfString] is the first position at
    which the string occurs, and the occurrence ends strictly before the end
    of the source: the loop stops one position short, so an occurrence that
    ends the source is not reported. *)
Theorem getIndexOfString_found (source s : string) :
  getIndexOfString source s <> -1 ->
  let len := Z.of_nat (String.length s) in
  let r := getIndexOfString source s in
  0 <= r
  /\ r + len < Z.of_nat (String.length source)
  /\ splitString source r (r + len) = s
  /\ forall j, 0 <= j < r -> splitString source j (j + len) <> s.
Proof.
  intros Hfound len r. unfold getIndexOfString in *. fold len in Hfound |- *.
  destruct (getIndexOfString_from_cases source s
              (Z.to_nat (Z.of_nat (String.length source) - len)) 0)
    as [(Hr & _)|(Hr & Hm & Hno)]; [lia|contradiction|].
  fold len in Hr, Hm, Hno. subst r. fold len.
  repeat split; try assumption; lia.
Qed.

Lemma getIndexOfString_found_witness :
  let source := "RIFF$___WAVEfmt ________________data____"%string in
  let len := Z.of_nat (String.length "data") in
  let r := getIndexOfString source "data" in
  0 <= r
  /\ r + len < Z.of_nat (String.length source)
  /\ splitString source r (r + len) = "data"%string
  /\ forall j, 0 <= j < r -> splitString source j (j + len) <> "data"%string.
Proof.
  intros source. apply (getIndexOfString_found source "data").
  vm_compute. discriminate.
Defined.

(** X3.  [getIndexOfString] returns -1 exactly when the string occurs at no
    position below [source.length() - stringLength]; in particular a source
    that is the string itself, or that only ends with it, gives -1. *)
Theorem getIndexOfString_not_found (source s : string) :
  getIndexOfString source s = -1
  <-> forall j,
        0 <= j < Z.of_nat (String.length source) - Z.of_nat (String.length s) ->
        splitString source j (j + Z.of_nat (String.length s)) <> s.
Proof.
  unfold getIndexOfString.
  set (len := Z.of_nat (String.length s)).
  destruct (getIndexOfString_from_cases source s
              (Z.to_nat (Z.of_nat (String.length source) - len)) 0)
    as [(Hr & Hno)|(Hr & Hm & Hno)]; [lia| |]; fold len in Hr, Hno.
  - split; [|intros _; exact Hr]. intros _ j Hj. apply Hno. lia.
  - fold len in Hm.
    set (r := getIndexOfString_from _ 0 source s) in *.
    split; [intros H; lia|].
    intros Hall. exfalso. apply (Hall r); [lia|exact Hm].
Qed.

Example getIndexOfString_at_the_end :
  getIndexOfString "RIFFdata" "data" = -1
  /\ getIndexOfString "RIFFdata_" "data" = 4.
Proof. split; reflexivity. Qed.

(** ** Integers written and read back *)

Lemma byteAt_appended (l bs : list Z) (k : Z) :
  0 <= k ->
  byteAt (bytesToString (l ++ bs)) (LinkedList.size l + k)
  = uint8_t (nth (Z.to_nat k) bs 0).
Proof.
  intros Hk. unfold LinkedList.size. rewrite byteAt_bytesToString by lia.
  rewrite app_nth2 by lia. do 2 f_equal. lia.
Qed.

Lemma combine_two_digits (x : Z) :
  Z.lor (Z.shiftl (digit 1 x) 8) (digit 0 x) = x mod 2 ^ 16.
Proof.
  pose proof (digit_range 0 x).
  rewrite lor_shiftl by (change (2 ^ 8) with 256; lia).
  change (2 ^ 8) with 256. change (2 ^ 16) with 65536.
  rewrite <- digits_2. lia.
Qed.

Lemma combine_four_digits (x : Z) :
  Z.lor (Z.lor (Z.lor (Z.shiftl (digit 3 x) 24) (Z.shiftl (digit 2 x) 16))
               (Z.shiftl (digit 1 x) 8))
        (digit 0 x)
  = x mod 2 ^ 32.
Proof.
  pose proof (digit_range 0 x). pose proof (digit_range 1 x).
  pose proof (digit_range 2 x).
  replace (digit 3 x ≪ 24) with (((digit 3 x ≪ 8) ≪ 8) ≪ 8)
    by (rewrite !Z.shiftl_shiftl by lia; reflexivity).
  replace (digit 2 x ≪ 16) with ((digit 2 x ≪ 8) ≪ 8)
    by (rewrite !Z.shiftl_shiftl by lia; reflexivity).
  rewrite <- !Z.shiftl_lor.
  rewrite (lor_shiftl _ (digit 0 x) 8) by (change (2 ^ 8) with 256; lia).
  rewrite (lor_shiftl _ (digit 1 x) 8) by (change (2 ^ 8) with 256; lia).
  rewrite (lor_shiftl _ (digit 2 x) 8) by (change (2 ^ 8) with 256; lia).
  change (2 ^ 8) with 256. change (2 ^ 32) with 4294967296.
  rewrite <- digits_4. lia.
Qed.

Lemma byteAt_appended_first (l bs : list Z) :
  byteAt (bytesToString (l ++ bs)) (LinkedList.size l) = uint8_t (nth 0 bs 0).
Proof.
  rewrite <- (Z.add_0_r (LinkedList.size l)). now rewrite byteAt_appended by lia.
Qed.

Lemma low_byte (w x : Z) :
  8 <= w -> Z.land (wrap_unsigned w x) 255 = digit 0 x.
Proof.
  intros Hw. rewrite <- (Z.shiftr_0_r (wrap_unsigned w x)).
  rewrite (shifted_byte w) by lia. reflexivity.
Qed.

Lemma addInt32ToFileData_digits (fileData : list Z) (i : Z)
    (endianness : Endianness) :
  addInt32ToFileData fileData i endianness
  = fileData
    ++ match endianness with
       | LittleEndian => [digit 0 i; digit 1 i; digit 2 i; digit 3 i]
       | BigEndian => [digit 3 i; digit 2 i; digit 1 i; digit 0 i]
       end.
Proof.
  unfold addInt32ToFileData, LinkedList.Append, uint32_t.
  rewrite (low_byte 32), !(shifted_byte 32) by lia.
  destruct endianness; rewrite <- !app_assoc; reflexivity.
Qed.

Lemma addInt16ToFileData_digits (fileData : list Z) (i : Z)
    (endianness : Endianness) :
  addInt16ToFileData fileData i endianness
  = fileData
    ++ match endianness with
       | LittleEndian => [digit 0 i; digit 1 i]
       | BigEndian => [digit 1 i; digit 0 i]
       end.
Proof.
  unfold addInt16ToFileData, LinkedList.Append, uint16_t.
  rewrite (low_byte 16), !(shifted_byte 16) by lia.
  destruct endianness; cbn [fst snd]; rewrite <- !app_assoc; reflexivity.
Qed.

Lemma charAt_digit (p : Platform) (s : string) (pos : Z) (k width : nat)
    (v : Z) :
  byteAt s pos = digit k v -> read_as_written p width v = true ->
  (k < width - 1)%nat -> charAt p s pos = digit k v.
Proof.
  intros Hb Hplain Hk. rewrite <- Hb. apply charAt_plain. rewrite Hb.
  now apply (read_as_written_digit p width).
Qed.

Lemma charAt_top (p : Platform) (s : string) (pos d : Z) :
  byteAt s pos = d -> charAt p s pos = d \/ charAt p s pos = d - 256.
Proof.
  intros <-. destruct (charAt_cases p s pos) as [H|(_ & _ & H)]; auto.
Qed.

(** X4.  A 32-bit integer appended by [addInt32ToFileData] is read back by
    [fourBytesToInt] at the offset where it was appended, in either byte
    order, whatever precedes it, provided it is read as written (plain
    [char] is unsigned, or the three low-order bytes of the integer are
    less than 0x80): the result is the integer as [int32_t]. *)
Theorem fourBytesToInt_addInt32ToFileData (p : Platform) (fileData : list Z)
    (i : Z) (endianness : Endianness) :
  read_as_written p 4 i = true ->
  fourBytesToInt p (bytesToString (addInt32ToFileData fileData i endianness))
    (LinkedList.size fileData) endianness
  = int32_t i.
Proof.
  intros Hplain.
  pose proof (digit_range 0 i). pose proof (digit_range 1 i).
  pose proof (digit_range 2 i). pose proof (digit_range 3 i).
  rewrite addInt32ToFileData_digits. unfold fourBytesToInt.
  set (s := bytesToString _).
  assert (Hb : forall k : nat, (k < 4)%nat ->
            byteAt s (LinkedList.size fileData + Z.of_nat k)
            = match endianness with
              | LittleEndian => digit k i
              | BigEndian => digit (3 - k) i
              end).
  { intros k Hk. unfold s. rewrite byteAt_appended by lia.
    rewrite Nat2Z.id.
    destruct endianness, k as [|[|[|[|k]]]]; try lia; cbn [nth Nat.sub];
      now apply uint8_t_id. }
  pose proof (Hb 0%nat ltac:(lia)) as Hb0.
  pose proof (Hb 1%nat ltac:(lia)) as Hb1.
  pose proof (Hb 2%nat ltac:(lia)) as Hb2.
  pose proof (Hb 3%nat ltac:(lia)) as Hb3.
  change (Z.of_nat 0) with 0 in Hb0. rewrite Z.add_0_r in Hb0.
  change (Z.of_nat 1) with 1 in Hb1. change (Z.of_nat 2) with 2 in Hb2.
  change (Z.of_nat 3) with 3 in Hb3. cbn [Nat.sub] in *.
  destruct endianness.
  - rewrite (charAt_digit p s _ 0 4 i Hb0 Hplain),
      (charAt_digit p s _ 1 4 i Hb1 Hplain),
      (charAt_digit p s _ 2 4 i Hb2 Hplain) by (simpl; lia).
    rewrite (combine_four_chars _ (digit 3 i))
      by (assumption || now apply charAt_top).
    rewrite digits_4. apply (wrap_signed_of_mod 32).
  - rewrite (charAt_digit p s _ 0 4 i Hb3 Hplain),
      (charAt_digit p s _ 1 4 i Hb2 Hplain),
      (charAt_digit p s _ 2 4 i Hb1 Hplain) by (simpl; lia).
    rewrite (combine_four_chars _ (digit 3 i))
      by (assumption || now apply charAt_top).
    rewrite digits_4. apply (wrap_signed_of_mod 32).
Qed.

Lemma fourBytesToInt_addInt32ToFileData_witness :
  fourBytesToInt signed_char_platform
    (bytesToString (addInt32ToFileData [82; 73; 70; 70] (-16776670) BigEndian))
    4 BigEndian
  = -16776670.
Proof.
  apply (fourBytesToInt_addInt32ToFileData signed_char_platform [82; 73; 70; 70]
           (-16776670) BigEndian).
  reflexivity.
Defined.

(** X5.  A 16-bit integer appended by [addInt16ToFileData] is read back by
    [twoBytesToInt] at the offset where it was appended, in either byte
    order, provided it is read as written (plain [char] is unsigned, or the
    low-order byte of the integer is less than 0x80): the result is the
    integer as [int16_t]. *)
Theorem twoBytesToInt_addInt16ToFileData (p : Platform) (fileData : list Z)
    (i : Z) (endianness : Endianness) :
  read_as_written p 2 i = true ->
  twoBytesToInt p (bytesToString (addInt16ToFileData fileData i endianness))
    (LinkedList.size fileData) endianness
  = int16_t i.
Proof.
  intros Hplain.
  pose proof (digit_range 0 i). pose proof (digit_range 1 i).
  rewrite addInt16ToFileData_digits. unfold twoBytesToInt.
  set (s := bytesToString _).
  assert (Hb : forall k : nat, (k < 2)%nat ->
            byteAt s (LinkedList.size fileData + Z.of_nat k)
            = match endianness with
              | LittleEndian => digit k i
              | BigEndian => digit (1 - k) i
              end).
  { intros k Hk. unfold s. rewrite byteAt_appended by lia.
    rewrite Nat2Z.id.
    destruct endianness, k as [|[|k]]; try lia; cbn [nth Nat.sub];
      now apply uint8_t_id. }
  pose proof (Hb 0%nat ltac:(lia)) as Hb0.
  pose proof (Hb 1%nat ltac:(lia)) as Hb1.
  change (Z.of_nat 0) with 0 in Hb0. rewrite Z.add_0_r in Hb0.
  change (Z.of_nat 1) with 1 in Hb1. cbn [Nat.sub] in *.
  destruct endianness.
  - rewrite (charAt_digit p s _ 0 2 i Hb0 Hplain) by (simpl; lia).
    rewrite (combine_two_chars _ (digit 1 i))
      by (assumption || now apply charAt_top).
    rewrite digits_2. apply (wrap_signed_of_mod 16).
  - rewrite (charAt_digit p s _ 0 2 i Hb1 Hplain) by (simpl; lia).
    rewrite (combine_two_chars _ (digit 1 i))
      by (assumption || now apply charAt_top).
    rewrite digits_2. apply (wrap_signed_of_mod 16).
Qed.

Lemma twoBytesToInt_addInt16ToFileData_witness :
  twoBytesToInt signed_char_platform
    (bytesToString (addInt16ToFileData [100; 97; 116; 97] (-32704) LittleEndian))
    4 LittleEndian
  = -32704.
Proof.
  apply (twoBytesToInt_addInt16ToFileData signed_char_platform
           [100; 97; 116; 97] (-32704) LittleEndian).
  reflexivity.
Defined.

(** Where plain [char] is signed and the low-order byte is 0x80 or more,
    the integer does not come back: 200 is written as C8 00 00 00 and read
    as -56, 32767 is written as FF 7F and read as -1. *)
Example integers_not_read_back :
  fourBytesToInt signed_char_platform
    (bytesToString (addInt32ToFileData [] 200 LittleEndian)) 0 LittleEndian
  = -56
  /\ twoBytesToInt signed_char_platform
       (bytesToString (addInt16ToFileData [] 32767 LittleEndian)) 0
       LittleEndian
     = -1.
Proof. split; reflexivity. Qed.

(** ** Bytes of 0x80 or more where plain [char] is signed *)

(** A negative character covers whatever is combined with it above its
    eight bits. *)
Lemma lor_negative_char (x c : Z) :
  (forall n, 0 <= n < 8 -> Z.testbit x n = false) ->
  -128 <= c < 0 -> Z.lor x c = c.
Proof.
  intros Hx Hc. apply Z.bits_inj'. intros n Hn. rewrite Z.lor_spec.
  destruct (Z.ltb_spec n 8) as [Hlow|Hhigh].
  - now rewrite Hx by lia.
  - replace c with (Z.lnot (- c - 1)) by (unfold Z.lnot; lia).
    rewrite Z.lnot_spec by lia.
    rewrite (testbit_small (- c - 1) 8 n) by (change (2 ^ 8) with 256; lia).
    apply orb_true_r.
Qed.

Lemma shiftl_low_bits (a m n : Z) :
  0 <= n < m -> Z.testbit (Z.shiftl a m) n = false.
Proof. intros H. apply Z.shiftl_spec_low. lia. Qed.

(** X27.  Where plain [char] is signed and the first byte of a
    little-endian integer is 0x80 or more, [twoBytesToInt] and
    [fourBytesToInt] return that byte less 256, whatever the bytes after
    it, and the 24-bit sample of [decodeWaveFile] is that number over
    8388608. *)
Theorem signed_char_first_byte_decides (p : Platform) (s : string) (o : Z) :
  plain_char_signed p = true ->
  128 <= byteAt s o ->
  twoBytesToInt p s o LittleEndian = byteAt s o - 256
  /\ fourBytesToInt p s o LittleEndian = byteAt s o - 256
  /\ threeBytesToSample p s o
     = (inject_Z (byteAt s o - 256) / inject_Z 8388608)%Q.
Proof.
  intros Hsigned Hhigh. pose proof (byteAt_range s o) as Hb.
  assert (Hc : charAt p s o = byteAt s o - 256).
  { destruct (charAt_cases p s o) as [H|(_ & _ & H)]; [|exact H].
    unfold charAt in H. rewrite Hsigned in H.
    pose proof (wrap_signed_range 8 (byteAt s o) ltac:(lia)) as Hr.
    change (2 ^ (8 - 1)) with 128 in Hr. lia. }
  unfold twoBytesToInt, fourBytesToInt, threeBytesToSample. rewrite Hc.
  set (c := byteAt s o - 256). assert (Hcr : -128 <= c < 0) by (unfold c; lia).
  repeat split.
  - rewrite lor_negative_char by (assumption || apply shiftl_low_bits).
    apply wrap_signed_id; [lia|]. change (2 ^ (16 - 1)) with 32768. lia.
  - rewrite lor_negative_char; [|intros n Hn|assumption].
    + apply wrap_signed_id; [lia|]. change (2 ^ (32 - 1)) with 2147483648. lia.
    + now rewrite !Z.lor_spec, !shiftl_low_bits by lia.
  - rewrite lor_negative_char; [|intros n Hn|assumption].
    + unfold int32_t. rewrite wrap_signed_id
        by (change (2 ^ (32 - 1)) with 2147483648; lia).
      destruct (Z.land c 8388608 =? 0); [reflexivity|].
      rewrite Z.lor_comm, lor_negative_char; [reflexivity| |assumption].
      intros n Hn. change (Z.lnot 16777215) with (Z.shiftl (-1) 24).
      apply shiftl_low_bits. lia.
    + now rewrite !Z.lor_spec, !shiftl_low_bits by lia.
Qed.

Lemma signed_char_first_byte_decides_witness :
  let s := bytesToString [128; 62; 0; 0] in
  twoBytesToInt signed_char_platform s 0 LittleEndian = -128
  /\ fourBytesToInt signed_char_platform s 0 LittleEndian = -128
  /\ threeBytesToSample signed_char_platform s 0
     = (inject_Z (-128) / inject_Z 8388608)%Q.
Proof.
  intros s. apply (signed_char_first_byte_decides signed_char_platform s 0).
  - reflexivity.
  - vm_compute. discriminate.
Defined.

(** ** What [decodeWaveFile] and [load] accept, keep and replace *)

Lemma decodeWaveFile_true_passes (p : Platform) (this this' : AudioFile)
    (fileData : string) :
  decodeWaveFile p this fileData = (this', true) -> passes_checks p fileData.
Proof.
  intros H. destruct (decodeWaveFile_true p this this' fileData H)
    as (H1 & H2 & H3 & H4 & H5 & H6 & H7 & H8 & H9 & _).
  unfold passes_checks. tauto.
Qed.

Lemma passes_checks_decoded (p : Platform) (this : AudioFile)
    (fileData : string) :
  passes_checks p fileData ->
  exists this', decodeWaveFile p this fileData = (this', true).
Proof.
  intros (H1 & H2 & H3 & H4 & H5 & H6 & H7 & H8 & H9).
  now apply decodeWaveFile_accepts.
Qed.


(** A refused stream leaves the samples alone: every [return false] comes
    before [clearAudioBuffer]. *)
Lemma decodeWaveFile_false (p : Platform) (this this' : AudioFile)
    (fileData : string) :
  decodeWaveFile p this fileData = (this', false) ->
  samples this' = samples this
  /\ audioFileFormat this' = audioFileFormat this.
Proof.
  intros H.
  assert (Hnot : ~ passes_checks p fileData).
  { intros Hp. destruct (passes_checks_decoded p this fileData Hp) as (t & Ht).
    rewrite Ht in H. discriminate H. }
  unfold passes_checks in Hnot. revert H. unfold decodeWaveFile.
  fold (fmt_audioFormat p fileData) (fmt_numChannels p fileData)
    (fmt_sampleRate p fileData) (fmt_numBytesPerBlock p fileData)
    (fmt_bitDepth p fileData) (data_chunkSize p fileData)
    (data_samplesStart fileData).
  change (uint32_t (fourBytesToInt p fileData
                      (getIndexOfString fileData "fmt" + 16) LittleEndian))
    with (fmt_numBytesPerSecond p fileData).
  destruct (Z.eqb_spec (getIndexOfString fileData "data") (-1)) as [|Hd];
    [intros [= <-]; now split|].
  destruct (Z.eqb_spec (getIndexOfString fileData "fmt") (-1)) as [|Hf];
    [intros [= <-]; now split|].
  destruct (String.eqb_spec (splitString fileData 0 4) "RIFF") as [Hriff|];
    [|intros [= <-]; now split].
  destruct (String.eqb_spec (splitString fileData 8 12) "WAVE") as [Hwave|];
    [|intros [= <-]; now split].
  cbn [negb orb].
  destruct (Z.eqb_spec (fmt_audioFormat p fileData) 1) as [Haf|];
    [|intros [= <-]; now split].
  cbn [negb].
  destruct (Z.ltb_spec (fmt_numChannels p fileData) 1) as [|Hc1];
    [intros [= <-]; now split|].
  destruct (Z.gtb_spec (fmt_numChannels p fileData) 2) as [|Hc2];
    [intros [= <-]; now split|].
  cbn [orb].
  destruct (Z.eqb_spec (fmt_numBytesPerSecond p fileData)
              (uint32_t (fmt_numChannels p fileData * fmt_sampleRate p fileData
                         * fmt_bitDepth p fileData) / 8)) as [Hrate|];
    [|intros [= <-]; now split].
  destruct (Z.eqb_spec (fmt_numBytesPerBlock p fileData)
              (fmt_numChannels p fileData * (fmt_bitDepth p fileData ÷ 8)))
    as [Hblock|]; [|intros [= <-]; now split].
  cbn [negb orb].
  destruct (Z.eqb_spec (fmt_bitDepth p fileData) 8) as [H8|H8];
    [exfalso; apply Hnot; repeat split; auto; lia|].
  destruct (Z.eqb_spec (fmt_bitDepth p fileData) 16) as [H16|H16];
    [exfalso; apply Hnot; repeat split; auto; lia|].
  destruct (Z.eqb_spec (fmt_bitDepth p fileData) 24) as [H24|H24];
    [exfalso; apply Hnot; repeat split; auto; lia|].
  cbn [negb andb]. intros [= <-]. now split.
Qed.

(** X7.  A [load] that fails leaves the samples of the object as they were,
    whichever check refused the stream. *)
Theorem load_failure_keeps_samples (p : Platform) (this : AudioFile)
    (fileData : string) :
  snd (load p this fileData) = false ->
  samples (fst (load p this fileData)) = samples this.
Proof.
  unfold load, determineAudioFileFormat. cbn [audioFileFormat].
  destruct (String.eqb (splitString fileData 0 4) "RIFF"); [|reflexivity].
  cbn [AudioFileFormat_eqb].
  destruct (decodeWaveFile p _ fileData) as [this' r] eqn:Hdec. simpl.
  intros ->. now destruct (decodeWaveFile_false p _ _ _ Hdec) as (-> & _).
Qed.

Lemma load_failure_keeps_samples_witness :
  samples (fst (load signed_char_platform
                  (mkAudioFile [[(1 # 2)%Q]] NotLoaded 8000 16)
                  "RIFF____WAVEfmt ____data____"))
  = [[(1 # 2)%Q]].
Proof.
  apply (load_failure_keeps_samples signed_char_platform
           (mkAudioFile [[(1 # 2)%Q]] NotLoaded 8000 16)
           "RIFF____WAVEfmt ____data____").
  vm_compute. reflexivity.
Defined.

(** X8.  After [load] the format tag is [Wave] when the stream starts with
    "RIFF" and [Error] otherwise, whether or not the stream was decoded. *)
Theorem load_sets_format_tag (p : Platform) (this : AudioFile)
    (fileData : string) :
  audioFileFormat (fst (load p this fileData))
  = if String.eqb (splitString fileData 0 4) "RIFF" then Wave else Error.
Proof.
  unfold load, determineAudioFileFormat. cbn [audioFileFormat].
  destruct (String.eqb (splitString fileData 0 4) "RIFF"); [|reflexivity].
  cbn [AudioFileFormat_eqb].
  destruct (decodeWaveFile p _ fileData) as [this' [|]] eqn:Hdec; simpl.
  - destruct (decodeWaveFile_true p _ _ _ Hdec)
      as (_ & _ & _ & _ & _ & _ & _ & _ & _ & _ & _ & Hfmt & _).
    exact Hfmt.
  - now destruct (decodeWaveFile_false p _ _ _ Hdec) as (_ & ->).
Qed.

Lemma decoded_buffer_ext (b1 b2 : AudioBuffer) (n : Z) :
  Z.of_nat (length b1) = n -> Z.of_nat (length b2) = n ->
  (forall channel, 0 <= channel < n -> channelAt b1 channel = channelAt b2 channel) ->
  b1 = b2.
Proof.
  intros H1 H2 H. apply (at_ext []); [lia|].
  intros i Hi. apply H. lia.
Qed.

(** X9.  A successful [decodeWaveFile] replaces the buffer: whatever two
    objects held and whatever their sample rate and bit depth were, after
    decoding the same stream they hold the same samples, sample rate and
    bit depth. *)
Theorem decodeWaveFile_replaces (p : Platform) (this1 this2 decoded1 : AudioFile)
    (fileData : string) :
  decodeWaveFile p this1 fileData = (decoded1, true) ->
  exists decoded2,
    decodeWaveFile p this2 fileData = (decoded2, true)
    /\ samples decoded2 = samples decoded1
    /\ sampleRate decoded2 = sampleRate decoded1
    /\ bitDepth decoded2 = bitDepth decoded1.
Proof.
  intros H1.
  destruct (passes_checks_decoded p this2 fileData
              (decodeWaveFile_true_passes p _ _ _ H1)) as (decoded2 & H2).
  exists decoded2. split; [exact H2|].
  destruct (decodeWaveFile_true p _ _ _ H1)
    as (_ & _ & _ & _ & _ & _ & _ & _ & _ & Hsr1 & Hbd1 & _ & Hl1 & Hc1).
  destruct (decodeWaveFile_true p _ _ _ H2)
    as (_ & _ & _ & _ & _ & _ & _ & _ & _ & Hsr2 & Hbd2 & _ & Hl2 & Hc2).
  split; [|split; congruence].
  apply (decoded_buffer_ext _ _ (fmt_numChannels p fileData)); try assumption.
  intros channel Hc. now rewrite (Hc1 channel Hc), (Hc2 channel Hc).
Qed.

Lemma decodeWaveFile_replaces_witness :
  let fileData :=
    bytesToString
      [82; 73; 70; 70; 40; 0; 0; 0; 87; 65; 86; 69; 102; 109; 116; 32;
       16; 0; 0; 0; 1; 0; 1; 0; 17; 43; 0; 0; 34; 86; 0; 0; 2; 0; 16; 0;
       100; 97; 116; 97; 4; 0; 0; 0; 0; 64; 0; 192] in
  let decoded1 :=
    fst (decodeWaveFile signed_char_platform AudioFile_new fileData) in
  exists decoded2,
    decodeWaveFile signed_char_platform
      (mkAudioFile [[1%Q; 1%Q]; [0%Q; 0%Q]] Wave 44100 24) fileData
    = (decoded2, true)
    /\ samples decoded2 = samples decoded1
    /\ sampleRate decoded2 = sampleRate decoded1
    /\ bitDepth decoded2 = bitDepth decoded1.
Proof.
  intros fileData decoded1.
  apply (decodeWaveFile_replaces signed_char_platform AudioFile_new _ decoded1
           fileData).
  vm_compute. reflexivity.
Defined.

(** ** Decoded samples *)

Lemma normalised_quotient (v : Z) (d : positive) :
  - Z.pos d <= v < Z.pos d ->
  (-1 <= inject_Z v / inject_Z (Z.pos d))%Q
  /\ (inject_Z v / inject_Z (Z.pos d) < 1)%Q.
Proof.
  intros Hv. unfold Qle, Qlt, Qdiv, Qmult, Qinv, inject_Z. simpl.
  rewrite !Z.mul_1_r. lia.
Qed.

(** Whatever the bytes and the sign of plain [char]: the 8-bit sample goes
    through [uint8_t], the 16-bit one through [int16_t], and the 24-bit one
    is within 24 bits. *)
Lemma decodedSample_normalised (p : Platform) (bitDepth : Z) (s : string)
    (o : Z) :
  bitDepth = 8 \/ bitDepth = 16 \/ bitDepth = 24 ->
  (-1 <= decodedSample p bitDepth s o)%Q
  /\ (decodedSample p bitDepth s o < 1)%Q.
Proof.
  intros [->|[->| ->]]; unfold decodedSample; cbn [Z.eqb Pos.eqb].
  - rewrite uint8_t_charAt. apply (normalised_quotient _ 128).
    pose proof (byteAt_range s o). lia.
  - apply (normalised_quotient _ 32768).
    unfold twoBytesToInt. apply (wrap_signed_range 16). lia.
  - destruct (threeBytesToSample_range p s o) as (v & Hv & ->).
    now apply (normalised_quotient _ 8388608).
Qed.

Lemma zero_normalised : (-1 <= 0)%Q /\ (0 < 1)%Q.
Proof. split; [unfold Qle; simpl; lia|reflexivity]. Qed.

Lemma at_map_seq (f : nat -> Q) (n : nat) (i : Z) :
  LinkedList.at_ 0%Q (map f (seq 0 n)) i = 0%Q
  \/ exists k, LinkedList.at_ 0%Q (map f (seq 0 n)) i = f k.
Proof.
  destruct (Z_lt_dec i 0) as [Hi|Hi]; [left; apply at_outside; lia|].
  destruct (Z_lt_dec i (Z.of_nat n)) as [Hn|Hn].
  - right. exists (Z.to_nat i). unfold LinkedList.at_.
    destruct (Z.ltb_spec i 0); [lia|].
    rewrite (nth_indep _ 0%Q (f 0%nat)) by (rewrite length_map, length_seq; lia).
    rewrite map_nth, seq_nth by lia. reflexivity.
  - left. apply at_outside. rewrite length_map, length_seq. lia.
Qed.



(** X10.  Every sample of a buffer that [decodeWaveFile] has built lies in
    [-1, 1): at each of the three bit depths the most negative integer gives
    -1 and the most positive one stays below 1. *)
Theorem decoded_samples_normalised (p : Platform) (this decoded : AudioFile)
    (fileData : string) (channel i : Z) :
  decodeWaveFile p this fileData = (decoded, true) ->
  (-1 <= sampleAt (samples decoded) channel i)%Q
  /\ (sampleAt (samples decoded) channel i < 1)%Q.
Proof.
  intros Hdec.
  destruct (decodeWaveFile_true p _ _ _ Hdec)
    as (_ & _ & _ & _ & _ & _ & _ & _ & Hbd & _ & _ & _ & Hlen & Hch).
  unfold sampleAt.
  destruct (Z_lt_dec channel 0) as [Hneg|Hnn];
    [|destruct (Z_lt_dec channel (fmt_numChannels p fileData)) as [Hin|Hout]].
  - unfold channelAt. rewrite (at_outside [] (samples decoded)) by lia.
    rewrite at_outside by (simpl; lia). exact zero_normalised.
  - rewrite (Hch channel) by lia.
    match goal with
    | |- context [LinkedList.at_ _ (map ?f (seq 0 ?n)) i] =>
        destruct (at_map_seq f n i) as [->|(k & ->)]
    end.
    + exact zero_normalised.
    + now apply decodedSample_normalised.
  - unfold channelAt. rewrite (at_outside [] (samples decoded)) by lia.
    rewrite at_outside by (simpl; lia). exact zero_normalised.
Qed.

Lemma decoded_samples_normalised_witness :
  let fileData :=
    bytesToString
      [82; 73; 70; 70; 40; 0; 0; 0; 87; 65; 86; 69; 102; 109; 116; 32;
       16; 0; 0; 0; 1; 0; 1; 0; 17; 43; 0; 0; 34; 86; 0; 0; 2; 0; 16; 0;
       100; 97; 116; 97; 4; 0; 0; 0; 0; 128; 255; 127] in
  let decoded :=
    fst (decodeWaveFile signed_char_platform AudioFile_new fileData) in
  (-1 <= sampleAt (samples decoded) 0 0)%Q
  /\ (sampleAt (samples decoded) 0 0 < 1)%Q.
Proof.
  intros fileData decoded.
  apply (decoded_samples_normalised signed_char_platform AudioFile_new decoded
           fileData 0 0).
  vm_compute. reflexivity.
Defined.

(** X11.  All the channels of a buffer that [decodeWaveFile] has built have
    the same length. *)
Theorem decoded_channels_equal_length (p : Platform) (this decoded : AudioFile)
    (fileData : string) :
  decodeWaveFile p this fileData = (decoded, true) ->
  equal_length_channels (samples decoded).
Proof.
  intros Hdec.
  destruct (decodeWaveFile_true p _ _ _ Hdec)
    as (_ & _ & _ & _ & _ & _ & _ & _ & _ & _ & _ & _ & Hlen & Hch).
  assert (Hall : forall c, In c (samples decoded) ->
            length c
            = Z.to_nat (data_chunkSize p fileData
                        ÷ (fmt_numChannels p fileData * fmt_bitDepth p fileData ÷ 8))).
  { intros c Hin. destruct (In_nth _ _ [] Hin) as (k & Hk & <-).
    rewrite <- at_nat. fold (channelAt (samples decoded) (Z.of_nat k)).
    rewrite Hch by lia. now rewrite length_map, length_seq. }
  intros c1 c2 H1 H2. now rewrite (Hall c1 H1), (Hall c2 H2).
Qed.

Lemma decoded_channels_equal_length_witness :
  equal_length_channels
    (samples
       (fst (decodeWaveFile signed_char_platform AudioFile_new
               (bytesToString
                  [82; 73; 70; 70; 44; 0; 0; 0; 87; 65; 86; 69; 102; 109; 116; 32;
                   16; 0; 0; 0; 1; 0; 2; 0; 64; 31; 0; 0; 0; 125; 0; 0; 4; 0; 16; 0;
                   100; 97; 116; 97; 8; 0; 0; 0; 0; 64; 0; 192; 1; 0; 255; 255])))).
Proof.
  apply (decoded_channels_equal_length signed_char_platform AudioFile_new _
           (bytesToString
              [82; 73; 70; 70; 44; 0; 0; 0; 87; 65; 86; 69; 102; 109; 116; 32;
               16; 0; 0; 0; 1; 0; 2; 0; 64; 31; 0; 0; 0; 125; 0; 0; 4; 0; 16; 0;
               100; 97; 116; 97; 8; 0; 0; 0; 0; 64; 0; 192; 1; 0; 255; 255])).
  vm_compute. reflexivity.
Defined.

(** ** Loops that leave early *)

Lemma for_loop_next_inv {S R : Type} (body : Z -> S -> step S R) :
  forall (count : nat) (i : Z) (s s' : S),
    for_loop count i body s = Next s' ->
    forall j, i <= j < i + Z.of_nat count ->
      exists s0 s1, body j s0 = Next s1.
Proof.
  induction count as [|k IH]; intros i s s' Hrun j Hj; [lia|].
  simpl in Hrun. destruct (body i s) as [s1|s1 r] eqn:Hb; [|discriminate].
  destruct (Z.eq_dec j i) as [->|Hne]; [now exists s, s1|].
  apply (IH (i + 1) s1 s' Hrun). lia.
Qed.

Lemma for_loop_exit_inv {S R : Type} (body : Z -> S -> step S R) :
  forall (count : nat) (i : Z) (s s' : S) (r : R),
    for_loop count i body s = Exit s' r ->
    exists j s0, i <= j < i + Z.of_nat count /\ body j s0 = Exit s' r.
Proof.
  induction count as [|k IH]; intros i s s' r Hrun; [discriminate|].
  simpl in Hrun. destruct (body i s) as [s1|s1 r1] eqn:Hb.
  - destruct (IH (i + 1) s1 s' r Hrun) as (j & s0 & Hj & Hbj).
    exists j, s0. split; [lia|exact Hbj].
  - injection Hrun as <- <-. exists i, s. split; [lia|exact Hb].
Qed.

(** ** [setAudioBuffer], [setNumSamplesPerChannel], [setNumChannels] *)

(** X12.  A replacement with at least one channel, all channels of one
    length, becomes the buffer of the object, whatever the object held, and
    [setAudioBuffer] returns [true]; format tag, sample rate and bit depth
    stay. *)
Theorem setAudioBuffer_replaces (this : AudioFile) (newBuffer : AudioBuffer) :
  newBuffer <> [] ->
  equal_length_channels newBuffer ->
  setAudioBuffer this newBuffer
  = (mkAudioFile newBuffer (audioFileFormat this) (sampleRate this)
       (bitDepth this), true).
Proof. intros Hne Heq. now rewrite setAudioBuffer_copies. Qed.

Lemma setAudioBuffer_replaces_witness :
  setAudioBuffer (mkAudioFile [[1%Q]; [0%Q]; [1%Q]] Wave 8000 24)
    [[(1 # 2)%Q; (1 # 3)%Q]; [(1 # 4)%Q; (1 # 5)%Q]]
  = (mkAudioFile [[(1 # 2)%Q; (1 # 3)%Q]; [(1 # 4)%Q; (1 # 5)%Q]] Wave 8000 24,
     true).
Proof.
  apply (setAudioBuffer_replaces (mkAudioFile [[1%Q]; [0%Q]; [1%Q]] Wave 8000 24)).
  - discriminate.
  - intros c1 c2 [<-|[<-|[]]] [<-|[<-|[]]]; reflexivity.
Defined.

(** X13.  [setAudioBuffer] returns [true] exactly when the replacement has at
    least one channel and all its channels have the same length. *)
Theorem setAudioBuffer_true_iff (this : AudioFile) (newBuffer : AudioBuffer) :
  snd (setAudioBuffer this newBuffer) = true
  <-> newBuffer <> [] /\ equal_length_channels newBuffer.
Proof.
  split; [|intros (Hne & Heq); now rewrite setAudioBuffer_copies].
  unfold setAudioBuffer.
  destruct (Z.leb_spec (LinkedList.size newBuffer) 0) as [H|Hpos];
    [discriminate|].
  set (numSamples := LinkedList.size (channelAt newBuffer 0)).
  set (resized := LinkedList.resize [] (samples this) (LinkedList.size newBuffer)).
  assert (Hrl : LinkedList.size resized = LinkedList.size newBuffer).
  { unfold resized, LinkedList.resize, LinkedList.size.
    rewrite length_resize. lia. }
  rewrite Hrl. unfold for_range.
  match goal with
  | |- context [for_loop ?n 0 ?body resized] =>
      destruct (for_loop n 0 body resized) as [b|b r] eqn:Hrun
  end.
  - intros _. split; [intros ->; unfold LinkedList.size in Hpos; simpl in Hpos; lia|].
    assert (Hall : forall c, In c newBuffer -> LinkedList.size c = numSamples).
    { intros c Hin. destruct (In_nth _ _ [] Hin) as (k & Hk & <-).
      rewrite <- at_nat. fold (channelAt newBuffer (Z.of_nat k)).
      destruct (for_loop_next_inv _ _ _ _ _ Hrun (Z.of_nat k))
        as (s0 & s1 & Hbody); [unfold LinkedList.size; lia|].
      cbv beta in Hbody.
      destruct (Z.eqb_spec (LinkedList.size (channelAt newBuffer (Z.of_nat k)))
                  numSamples) as [Heq|Hneq]; [exact Heq|discriminate Hbody]. }
    intros c1 c2 H1 H2. apply Nat2Z.inj.
    exact (eq_trans (Hall c1 H1) (eq_sym (Hall c2 H2))).
  - simpl. intros ->. exfalso.
    destruct (for_loop_exit_inv _ _ _ _ _ _ Hrun) as (k & s0 & Hk & Hbody).
    cbv beta in Hbody.
    destruct (negb (LinkedList.size (channelAt newBuffer k) =? numSamples));
      [discriminate Hbody|].
    destruct (for_loop_exit_inv _ _ _ _ _ _ Hbody) as (i & s1 & _ & Hinner).
    discriminate Hinner.
Qed.

(** The shape [setNumSamplesPerChannel] leaves, for a [fill] within
    [fill_frame]. *)
Lemma setNumSamplesPerChannel_shape
    (fill : AudioBuffer -> Z -> Z -> T -> AudioBuffer) (this : AudioFile)
    (numSamples : Z) :
  fill_frame fill -> 0 <= numSamples ->
  length (samples (setNumSamplesPerChannel fill this numSamples))
  = length (samples this)
  /\ forall channel, 0 <= channel < getNumChannels this ->
       LinkedList.size
         (channelAt (samples (setNumSamplesPerChannel fill this numSamples))
            channel)
       = numSamples.
Proof.
  intros Hfill Hn. unfold setNumSamplesPerChannel.
  match goal with
  | |- context [for_range 0 ?hi ?body ?b0] =>
      destruct (for_range_invariant body
                  (fun k (b : AudioBuffer) =>
                     length b = length (samples this)
                     /\ forall j, 0 <= j < k ->
                          LinkedList.size (channelAt b j) = numSamples)
                  0 hi b0) as (b' & Hrun & Hl & Hch)
  end.
  - apply getNumChannels_nonneg.
  - split; [reflexivity|]. intros j Hj. lia.
  - intros k b Hk (Hl & Hch).
    unfold getNumChannels, LinkedList.size in Hk.
    assert (Hres : forall j, 0 <= j < k + 1 ->
              LinkedList.size (channelAt (resizeChannel b k numSamples) j)
              = numSamples).
    { intros j Hj. destruct (Z.eq_dec j k) as [->|Hne].
      - rewrite channelAt_resizeChannel_same by lia.
        unfold LinkedList.size, LinkedList.resize. rewrite length_resize. lia.
      - rewrite channelAt_resizeChannel_other by lia. apply Hch. lia. }
    destruct (numSamples >? getNumSamplesPerChannel this).
    + eexists. split; [reflexivity|]. split.
      * now rewrite (fill_length fill Hfill), length_resizeChannel.
      * intros j Hj. unfold LinkedList.size.
        destruct (Hfill (resizeChannel b k numSamples)
                    (k + getNumSamplesPerChannel this)
                    (LinkedList.size (resizeChannel b k numSamples) - 1) 0%Q)
          as (_ & Hlen & _).
        rewrite Hlen. now apply Hres.
    + eexists. split; [reflexivity|]. split.
      * now rewrite length_resizeChannel.
      * exact Hres.
  - rewrite Hrun. cbn [with_samples samples]. split; assumption.
Qed.

(** X14.  For a [fill] that keeps the shape of the buffer and writes only
    the value it is given, [setNumSamplesPerChannel] keeps the number of
    channels and leaves every channel with exactly [numSamples] samples. *)
Theorem setNumSamplesPerChannel_lengths
    (fill : AudioBuffer -> Z -> Z -> T -> AudioBuffer) (this : AudioFile)
    (numSamples : Z) :
  fill_frame fill -> 0 <= numSamples ->
  getNumChannels (setNumSamplesPerChannel fill this numSamples)
  = getNumChannels this
  /\ forall channel, 0 <= channel < getNumChannels this ->
       LinkedList.size
         (channelAt (samples (setNumSamplesPerChannel fill this numSamples))
            channel)
       = numSamples.
Proof.
  intros Hfill Hn.
  destruct (setNumSamplesPerChannel_shape fill this numSamples Hfill Hn)
    as (Hl & Hch).
  split; [|exact Hch]. unfold getNumChannels, LinkedList.size. now rewrite Hl.
Qed.

Lemma setNumSamplesPerChannel_lengths_witness :
  let this := mkAudioFile [[1%Q; (1 # 2)%Q]; [(1 # 3)%Q; 0%Q]] Wave 8000 16 in
  getNumChannels (setNumSamplesPerChannel fillChannels this 5)
  = getNumChannels this
  /\ forall channel, 0 <= channel < getNumChannels this ->
       LinkedList.size
         (channelAt (samples (setNumSamplesPerChannel fillChannels this 5))
            channel)
       = 5.
Proof.
  intros this.
  apply (setNumSamplesPerChannel_lengths fillChannels this 5).
  - exact fillChannels_frame.
  - lia.
Defined.

(** X15.  For such a [fill], [setAudioBufferSize] leaves a buffer of
    [numChannels] channels with [numSamples] samples each. *)
Theorem setAudioBufferSize_shape
    (fill : AudioBuffer -> Z -> Z -> T -> AudioBuffer) (this : AudioFile)
    (numChannels numSamples : Z) :
  fill_frame fill -> 0 <= numChannels -> 0 <= numSamples ->
  getNumChannels (setAudioBufferSize fill this numChannels numSamples)
  = numChannels
  /\ forall channel, 0 <= channel < numChannels ->
       LinkedList.size
         (channelAt
            (samples (setAudioBufferSize fill this numChannels numSamples))
            channel)
       = numSamples.
Proof.
  intros Hfill Hc Hn. unfold setAudioBufferSize.
  set (resized := with_samples this
                    (LinkedList.resize [] (samples this) numChannels)).
  assert (Hrc : getNumChannels resized = numChannels).
  { unfold resized, getNumChannels, LinkedList.size, LinkedList.resize.
    cbn [with_samples samples]. rewrite length_resize. lia. }
  destruct (setNumSamplesPerChannel_shape fill resized numSamples Hfill Hn)
    as (Hl & Hch).
  split.
  - unfold getNumChannels, LinkedList.size in *. now rewrite Hl.
  - intros channel Hchan. apply Hch. now rewrite Hrc.
Qed.

Lemma setAudioBufferSize_shape_witness :
  let this := mkAudioFile [[1%Q; (1 # 2)%Q; (1 # 3)%Q]] Wave 8000 16 in
  getNumChannels (setAudioBufferSize fillChannels this 2 4) = 2
  /\ forall channel, 0 <= channel < 2 ->
       LinkedList.size
         (channelAt (samples (setAudioBufferSize fillChannels this 2 4)) channel)
       = 4.
Proof.
  intros this. apply (setAudioBufferSize_shape fillChannels this 2 4).
  - exact fillChannels_frame.
  - lia.
  - lia.
Defined.

Lemma channelAt_map (f : list Q -> list Q) (b : AudioBuffer) (channel : Z) :
  0 <= channel < Z.of_nat (length b) ->
  channelAt (map f b) channel = f (channelAt b channel).
Proof.
  intros H. unfold channelAt, LinkedList.at_.
  destruct (Z.ltb_spec channel 0); [lia|].
  rewrite (nth_indep _ [] (f [])) by (rewrite length_map; lia).
  apply map_nth.
Qed.

(** X16.  When the new sample count is not above the current one,
    [setNumSamplesPerChannel] does not call [fill]: whatever [fill] is,
    every channel is resized to [numSamples], that is cut to its first
    [numSamples] samples (a channel shorter than that is extended by
    zeros). *)
Theorem setNumSamplesPerChannel_shrinks
    (fill : AudioBuffer -> Z -> Z -> T -> AudioBuffer) (this : AudioFile)
    (numSamples : Z) :
  0 <= numSamples <= getNumSamplesPerChannel this ->
  samples (setNumSamplesPerChannel fill this numSamples)
  = map (fun channel => LinkedList.resize 0%Q channel numSamples)
      (samples this).
Proof.
  intros Hn. unfold setNumSamplesPerChannel.
  replace (numSamples >? getNumSamplesPerChannel this) with false
    by (symmetry; rewrite Z.gtb_ltb; apply Z.ltb_ge; lia).
  match goal with
  | |- context [for_range 0 ?hi ?body ?b0] =>
      destruct (for_range_invariant body
                  (fun k (b : AudioBuffer) =>
                     length b = length (samples this)
                     /\ forall j, 0 <= j < Z.of_nat (length (samples this)) ->
                          channelAt b j
                          = if j <? k
                            then LinkedList.resize 0%Q
                                   (channelAt (samples this) j) numSamples
                            else channelAt (samples this) j)
                  0 hi b0) as (b' & Hrun & Hl & Hch)
  end.
  - apply getNumChannels_nonneg.
  - split; [reflexivity|]. intros j Hj.
    destruct (Z.ltb_spec j 0); [lia|reflexivity].
  - intros k b Hk (Hl & Hch).
    unfold getNumChannels, LinkedList.size in Hk.
    eexists. split; [reflexivity|]. split.
    + now rewrite length_resizeChannel.
    + intros j Hj. destruct (Z.eq_dec j k) as [->|Hne].
      * rewrite channelAt_resizeChannel_same by lia. rewrite (Hch k) by lia.
        destruct (Z.ltb_spec k k); [lia|].
        destruct (Z.ltb_spec k (k + 1)); [reflexivity|lia].
      * rewrite channelAt_resizeChannel_other by lia. rewrite (Hch j Hj).
        destruct (Z.ltb_spec j k), (Z.ltb_spec j (k + 1));
          (reflexivity || lia).
  - rewrite Hrun. cbn [with_samples samples].
    apply (at_ext []); [now rewrite length_map|].
    intros j Hj. fold (channelAt b' j).
    fold (channelAt (map (fun channel => LinkedList.resize 0%Q channel numSamples)
                       (samples this)) j).
    rewrite channelAt_map by lia. rewrite (Hch j) by lia.
    unfold getNumChannels, LinkedList.size.
    destruct (Z.ltb_spec j (Z.of_nat (length (samples this)))); [reflexivity|lia].
Qed.

Lemma setNumSamplesPerChannel_shrinks_witness :
  samples (setNumSamplesPerChannel fillChannels
             (mkAudioFile [[1%Q; (1 # 2)%Q; (1 # 3)%Q]; [0%Q; (1 # 4)%Q; 1%Q]]
                Wave 8000 16) 2)
  = [[1%Q; (1 # 2)%Q]; [0%Q; (1 # 4)%Q]].
Proof.
  apply (setNumSamplesPerChannel_shrinks fillChannels
           (mkAudioFile [[1%Q; (1 # 2)%Q; (1 # 3)%Q]; [0%Q; (1 # 4)%Q; 1%Q]]
              Wave 8000 16) 2).
  split; [lia|]. vm_compute. discriminate.
Defined.

(** X17.  When the new channel count is not above the current one,
    [setNumChannels] keeps the first [numChannels] channels as they are and
    drops the others, whatever [fill] is. *)
Theorem setNumChannels_shrinks
    (fill : AudioBuffer -> Z -> Z -> T -> AudioBuffer) (this : AudioFile)
    (numChannels : Z) :
  0 <= numChannels <= getNumChannels this ->
  samples (setNumChannels fill this numChannels)
  = firstn (Z.to_nat numChannels) (samples this).
Proof.
  intros Hc. unfold setNumChannels.
  replace (numChannels >? getNumChannels this) with false
    by (symmetry; rewrite Z.gtb_ltb; apply Z.ltb_ge; lia).
  cbn [with_samples samples]. unfold LinkedList.resize.
  apply resize_le. unfold getNumChannels, LinkedList.size in Hc. lia.
Qed.

Lemma setNumChannels_shrinks_witness :
  samples (setNumChannels fillChannels
             (mkAudioFile [[1%Q]; [(1 # 2)%Q]; [(1 # 3)%Q]; [0%Q]] Wave 8000 16) 2)
  = [[1%Q]; [(1 # 2)%Q]].
Proof.
  apply (setNumChannels_shrinks fillChannels
           (mkAudioFile [[1%Q]; [(1 # 2)%Q]; [(1 # 3)%Q]; [0%Q]] Wave 8000 16) 2).
  split; [lia|]. vm_compute. discriminate.
Defined.

(** X18.  For a [fill] that keeps the shape of the buffer and writes only
    the value it is given, [setNumChannels] with a larger count keeps every
    channel that was there and gives each new channel as many samples as
    channel 0 had, all zero. *)
Theorem setNumChannels_grows
    (fill : AudioBuffer -> Z -> Z -> T -> AudioBuffer) (this : AudioFile)
    (numChannels : Z) :
  fill_frame fill ->
  getNumChannels this < numChannels ->
  getNumChannels (setNumChannels fill this numChannels) = numChannels
  /\ (forall channel, 0 <= channel < getNumChannels this ->
        channelAt (samples (setNumChannels fill this numChannels)) channel
        = channelAt (samples this) channel)
  /\ (forall channel, getNumChannels this <= channel < numChannels ->
        channelAt (samples (setNumChannels fill this numChannels)) channel
        = repeat 0%Q (Z.to_nat (getNumSamplesPerChannel this))).
Proof.
  intros Hfill Hgrow.
  pose proof (getNumChannels_nonneg this) as Hc0.
  unfold setNumChannels.
  replace (numChannels >? getNumChannels this) with true
    by (symmetry; rewrite Z.gtb_ltb; apply Z.ltb_lt; lia).
  set (c := getNumChannels this) in *.
  set (n := getNumSamplesPerChannel this).
  set (resized := LinkedList.resize [] (samples this) numChannels).
  assert (Hrl : Z.of_nat (length resized) = numChannels).
  { unfold resized, LinkedList.resize. rewrite length_resize. lia. }
  assert (Hcdef : c = Z.of_nat (length (samples this))) by reflexivity.
  assert (Hold : forall j, 0 <= j < c ->
            channelAt resized j = channelAt (samples this) j).
  { intros j Hj. unfold resized, channelAt, LinkedList.at_, LinkedList.resize.
    destruct (Z.ltb_spec j 0); [lia|].
    rewrite !nth_lookup, lookup_resize by lia. reflexivity. }
  assert (Hnew : forall j, c <= j < numChannels -> channelAt resized j = []).
  { intros j Hj. unfold resized, channelAt, LinkedList.at_, LinkedList.resize.
    destruct (Z.ltb_spec j 0); [lia|].
    rewrite nth_lookup, lookup_resize_new by lia. reflexivity. }
  match goal with
  | |- context [for_range c numChannels ?body resized] =>
      destruct (for_range_invariant body
                  (fun i (b : AudioBuffer) =>
                     Z.of_nat (length b) = numChannels
                     /\ (forall j, 0 <= j < c ->
                           channelAt b j = channelAt (samples this) j)
                     /\ (forall j, c <= j < i ->
                           channelAt b j = repeat 0%Q (Z.to_nat n))
                     /\ (forall j, i <= j < numChannels -> channelAt b j = []))
                  c numChannels resized)
        as (b' & Hrun & Hl & Hkeep & Hzero & _)
  end.
  - lia.
  - split; [exact Hrl|]. split; [exact Hold|]. split; [intros j Hj; lia|].
    exact Hnew.
  - intros i b Hi (Hl & Hkeep & Hzero & Hempty).
    eexists. split; [reflexivity|].
    set (b1 := resizeChannel b i n).
    assert (Hb1i : channelAt b1 i = repeat 0%Q (Z.to_nat n)).
    { unfold b1. rewrite channelAt_resizeChannel_same by lia.
      rewrite (Hempty i) by lia. apply resize_nil. }
    split; [now rewrite (fill_length fill Hfill); unfold b1;
            rewrite length_resizeChannel|].
    split; [|split].
    + intros j Hj. rewrite (fill_below fill Hfill) by lia.
      unfold b1. rewrite channelAt_resizeChannel_other by lia. now apply Hkeep.
    + intros j Hj. apply (fill_zero_channel fill Hfill).
      destruct (Z.eq_dec j i) as [->|Hne]; [exact Hb1i|].
      unfold b1. rewrite channelAt_resizeChannel_other by lia.
      apply Hzero. lia.
    + intros j Hj.
      destruct (Hfill b1 i (LinkedList.size b1 - 1) 0%Q) as (_ & Hlen & _).
      apply nil_length_inv. rewrite Hlen. unfold b1.
      rewrite channelAt_resizeChannel_other by lia.
      now rewrite (Hempty j) by lia.
  - rewrite Hrun. cbn [with_samples samples].
    split; [exact Hl|]. split; assumption.
Qed.

Lemma setNumChannels_grows_witness :
  let this := mkAudioFile [[1%Q; (1 # 2)%Q]; [(1 # 3)%Q; 0%Q]] Wave 8000 16 in
  getNumChannels (setNumChannels fillChannels this 4) = 4
  /\ (forall channel, 0 <= channel < getNumChannels this ->
        channelAt (samples (setNumChannels fillChannels this 4)) channel
        = channelAt (samples this) channel)
  /\ (forall channel, getNumChannels this <= channel < 4 ->
        channelAt (samples (setNumChannels fillChannels this 4)) channel
        = repeat 0%Q (Z.to_nat (getNumSamplesPerChannel this))).
Proof.
  intros this. apply (setNumChannels_grows fillChannels this 4).
  - exact fillChannels_frame.
  - vm_compute. reflexivity.
Defined.

(** ** [saveToWaveFile]: the bit depth and the empty buffer *)

(** X19.  With at least one sample per channel and a bit depth other than 8,
    16 and 24, [saveToWaveFile] gives up at the first sample ("unsupported
    bit depth") and writes nothing. *)
Theorem saveToWaveFile_unsupported_bit_depth (p : Platform) (this : AudioFile) :
  0 < getNumSamplesPerChannel this ->
  bitDepth this <> 8 -> bitDepth this <> 16 -> bitDepth this <> 24 ->
  saveToWaveFile p this = UnsupportedBitDepth.
Proof.
  intros Hn H8 H16 H24.
  assert (Hc : 0 < getNumChannels this).
  { unfold getNumSamplesPerChannel in Hn. unfold getNumChannels.
    destruct (Z.gtb_spec (LinkedList.size (samples this)) 0); lia. }
  unfold saveToWaveFile, for_range.
  destruct (Z.to_nat (getNumSamplesPerChannel this - 0)) as [|kn] eqn:Hkn; [lia|].
  destruct (Z.to_nat (getNumChannels this - 0)) as [|kc] eqn:Hkc; [lia|].
  cbn [for_loop].
  apply Z.eqb_neq in H8, H16, H24. rewrite H8, H16, H24. reflexivity.
Qed.

Lemma saveToWaveFile_unsupported_bit_depth_witness :
  saveToWaveFile signed_char_platform
    (mkAudioFile [[0%Q; (1 # 2)%Q]] NotLoaded 8000 12)
  = UnsupportedBitDepth.
Proof.
  apply saveToWaveFile_unsupported_bit_depth;
    (reflexivity || discriminate).
Defined.

(** X20.  A buffer without samples is written as the 44 bytes of the header
    with a data size of 0, whatever the bit depth is: the bit depth is only
    looked at when a sample is converted. *)
Theorem saveToWaveFile_without_samples (p : Platform) (this : AudioFile) :
  getNumSamplesPerChannel this = 0 ->
  0 <= bitDepth this ->
  saveToWaveFile p this
  = WriteDataToFile
      (wave_header (getNumChannels this) (sampleRate this) (bitDepth this) 0).
Proof.
  intros Hn Hbd. unfold saveToWaveFile. rewrite Hn.
  rewrite for_range_empty by lia.
  rewrite !Z.mul_0_l.
  rewrite !addStringToFileData_ascii, !addInt32ToFileData_le,
    !addInt16ToFileData_le.
  rewrite le_bytes_uint16_t, le_bytes_uint32_t, !le_bytes_int32_t,
    le_bytes_int16_t, le_bytes_uint16_t.
  rewrite (Z.quot_div_nonneg (bitDepth this) 8) by lia.
  change (int32_t 0) with 0. change (int32_t (4 + 24 + 8 + 0)) with 36.
  cbn [app].
  match goal with
  | |- context [LinkedList.size ?l] =>
      replace (LinkedList.size l) with 44
  end.
  - cbn [Z.eqb Pos.eqb negb orb Z.sub Z.add Z.opp Z.pos_sub Pos.pred_double
         Pos.add Pos.succ].
    unfold wave_header. rewrite <- !app_assoc. reflexivity.
  - unfold LinkedList.size. rewrite !length_app, !length_le_bytes.
    reflexivity.
Qed.

Lemma saveToWaveFile_without_samples_witness :
  saveToWaveFile signed_char_platform (mkAudioFile [[]; []] NotLoaded 8000 12)
  = WriteDataToFile (wave_header 2 8000 12 0).
Proof.
  apply (saveToWaveFile_without_samples signed_char_platform
           (mkAudioFile [[]; []] NotLoaded 8000 12)).
  - reflexivity.
  - discriminate.
Defined.

(** ** The 24-bit conversion in both directions *)

Lemma digits_3 (x : Z) :
  digit 0 x + 256 * (digit 1 x + 256 * digit 2 x) = x mod 16777216.
Proof.
  unfold digit. change (256 ^ Z.of_nat 0) with 1.
  change (256 ^ Z.of_nat 1) with 256.
  change (256 ^ Z.of_nat 2) with (256 * 256).
  rewrite Z.div_1_r, <- !Z.div_div by lia.
  change 16777216 with (256 * (256 * 256)).
  now rewrite !Z.rem_mul_r by lia.
Qed.

(** A sample in [-256, 256) is converted to an integer that fits
    [int32_t]: the conversion of line 617 is defined for it. *)
Lemma scaled_sample_fits (sample : T) :
  (-256 <= sample)%Q -> (sample < 256)%Q ->
  INT32_MIN <= truncate (sample * inject_Z 8388608)%Q <= INT32_MAX.
Proof.
  destruct sample as [a b]. unfold Qle, Qlt, truncate, INT32_MIN, INT32_MAX.
  cbn [Qnum Qden Qmult inject_Z]. intros Hlo Hhi.
  rewrite Pos.mul_1_r. change (Z.pos 1) with 1 in *.
  rewrite Z.mul_1_r in Hlo, Hhi. split.
  - replace (-2147483648) with (-2147483648 * Z.pos b ÷ Z.pos b)
      by (apply Z.quot_mul; lia).
    apply Z.quot_le_mono; lia.
  - destruct (Z_lt_dec (a * 8388608) 0) as [Hneg|Hnn].
    + assert (a * 8388608 ÷ Z.pos b <= 0); [|lia].
      apply Z.quot_le_upper_bound; lia.
    + assert (a * 8388608 ÷ Z.pos b < 2147483648); [|lia].
      apply Z.quot_lt_upper_bound; lia.
Qed.

Lemma sampleToThreeBytes_le (p : Platform) (sample : T) :
  sampleToThreeBytes p sample
  = le_bytes 3 (float_to_int32 p (sample * inject_Z 8388608)%Q).
Proof.
  unfold sampleToThreeBytes.
  set (x := float_to_int32 p (sample * inject_Z 8388608)%Q).
  assert (Hb : forall m, 0 <= m ->
            Z.land (uint8_t (Z.shiftr x m)) 255 = (x / 2 ^ m) mod 256).
  { intros m Hm. unfold uint8_t, wrap_unsigned.
    change 255 with (Z.ones 8). rewrite Z.land_ones by lia.
    rewrite Z.mod_mod by (change (2 ^ 8) with 256; lia).
    now rewrite Z.shiftr_div_pow2 by lia. }
  assert (Hb0 : Z.land (uint8_t x) 255 = (x / 2 ^ 0) mod 256).
  { rewrite <- (Hb 0) by lia. now rewrite Z.shiftr_0_r. }
  rewrite Hb0, !Hb by lia. reflexivity.
Qed.

Lemma sampleToThreeBytes_digits (p : Platform) (sample : T) :
  INT32_MIN <= truncate (sample * inject_Z 8388608)%Q <= INT32_MAX ->
  sampleToThreeBytes p sample
  = le_bytes 3 (truncate (sample * inject_Z 8388608)%Q).
Proof.
  intros Hfit. now rewrite sampleToThreeBytes_le, float_to_int32_fits.
Qed.

(** The three bytes of a value that is read as written, read as a 24-bit
    sample wherever they are in a stream. *)
Lemma threeBytesToSample_digits (p : Platform) (s : string) (o x : Z) :
  byteAt s o = digit 0 x -> byteAt s (o + 1) = digit 1 x ->
  byteAt s (o + 2) = digit 2 x ->
  read_as_written p 3 x = true ->
  threeBytesToSample p s o
  = (inject_Z (wrap_signed 24 x) / inject_Z 8388608)%Q.
Proof.
  intros H0 H1 H2 Hplain. rewrite threeBytesToSample_le.
  - unfold le_signed, le_unsigned. cbn [fold_right seq].
    change (Z.of_nat 0) with 0. change (Z.of_nat 1) with 1.
    change (Z.of_nat 2) with 2. change (8 * Z.of_nat 3) with 24.
    rewrite Z.add_0_r, H0, H1, H2, Z.mul_0_r, Z.add_0_r, digits_3.
    change 16777216 with (2 ^ 24). now rewrite wrap_signed_of_mod.
  - apply (stored_of_written p 3 s o x); [|exact Hplain].
    intros k Hk.
    assert (k = 0 \/ k = 1)%nat as [->| ->] by (simpl in Hk; lia).
    + change (Z.of_nat 0) with 0. now rewrite Z.add_0_r.
    + exact H1.
Qed.

(** X21.  At 24 bits a sample in [-256, 256) whose 24-bit value is read as
    written (plain [char] is unsigned, or the two low-order bytes of the
    value are less than 0x80) comes out, once written and read back, as
    its 24-bit value over 8388608: the fraction of [sample * 8388608] is
    dropped and nothing is clamped, so the value wraps modulo 2^24.  A
    multiple of 1/8388608 in [-1, 1) comes back unchanged. *)
Theorem threeBytesToSample_sampleToThreeBytes (p : Platform) (sample : T) :
  (-256 <= sample)%Q -> (sample < 256)%Q ->
  read_as_written p 3 (truncate (sample * inject_Z 8388608)%Q) = true ->
  threeBytesToSample p (bytesToString (sampleToThreeBytes p sample)) 0
  = (inject_Z (twentyFourBitValue sample) / inject_Z 8388608)%Q
  /\ forall v, - 8388608 <= v < 8388608 ->
       sample = (inject_Z v / inject_Z 8388608)%Q ->
       threeBytesToSample p (bytesToString (sampleToThreeBytes p sample)) 0
       = sample.
Proof.
  intros Hlo Hhi Hplain.
  assert (Hgen : threeBytesToSample p
                   (bytesToString (sampleToThreeBytes p sample)) 0
                 = (inject_Z (twentyFourBitValue sample) / inject_Z 8388608)%Q).
  { rewrite sampleToThreeBytes_digits by now apply scaled_sample_fits.
    set (x := truncate (sample * inject_Z 8388608)%Q) in *.
    apply threeBytesToSample_digits; try exact Hplain;
      rewrite byteAt_bytesToString by lia;
      (apply uint8_t_id; apply digit_range). }
  split; [exact Hgen|].
  intros v Hv ->. rewrite Hgen. do 2 f_equal.
  unfold twentyFourBitValue. rewrite truncate_scaled.
  apply wrap_signed_id; [lia|]. change (2 ^ (24 - 1)) with 8388608. lia.
Qed.

Lemma threeBytesToSample_sampleToThreeBytes_witness :
  threeBytesToSample signed_char_platform
    (bytesToString
       (sampleToThreeBytes signed_char_platform
          (inject_Z (-2097152) / inject_Z 8388608)%Q))
    0
  = (inject_Z (-2097152) / inject_Z 8388608)%Q.
Proof.
  apply (proj2 (threeBytesToSample_sampleToThreeBytes signed_char_platform
                  (inject_Z (-2097152) / inject_Z 8388608)%Q
                  ltac:(discriminate) ltac:(reflexivity) ltac:(reflexivity))
           (-2097152)).
  - lia.
  - reflexivity.
Defined.

(** Full scale is not clamped at 24 bits: 1.0 is written as 00 00 80 and
    comes back as -1.0, on either platform.  A sample outside [-256, 256)
    is written as the machine converts it: 300.5 as 00 00 00 where the
    conversion gives [INT32_MIN]. *)
Example full_scale_at_24_bits :
  threeBytesToSample signed_char_platform
    (bytesToString (sampleToThreeBytes signed_char_platform 1%Q)) 0
  = (inject_Z (-8388608) / inject_Z 8388608)%Q
  /\ threeBytesToSample unsigned_char_platform
       (bytesToString (sampleToThreeBytes unsigned_char_platform 1%Q)) 0
     = (inject_Z (-8388608) / inject_Z 8388608)%Q
  /\ sampleToThreeBytes signed_char_platform (601 # 2)%Q = [0; 0; 0].
Proof. repeat split. Qed.

(** ** The samples in the file *)

Lemma for_range_appends_content {R : Type}
    (body : Z -> list Z -> step (list Z) R) (g : Z -> list Z)
    (hi : Z) (fileData : list Z) :
  0 <= hi ->
  (forall j fd, 0 <= j < hi -> body j fd = Next (fd ++ g j)) ->
  for_range 0 hi body fileData
  = Next (fileData
          ++ flat_map (fun k => g (Z.of_nat k)) (seq 0 (Z.to_nat hi))).
Proof.
  intros Hhi Hbody.
  destruct (for_range_invariant body
              (fun j fd =>
                 fd = fileData
                      ++ flat_map (fun k => g (Z.of_nat k)) (seq 0 (Z.to_nat j)))
              0 hi fileData Hhi) as (fd' & Hrun & ->).
  - simpl. now rewrite app_nil_r.
  - intros j fd Hj ->. rewrite (Hbody j _ Hj). eexists. split; [reflexivity|].
    replace (Z.to_nat (j + 1)) with (Datatypes.S (Z.to_nat j)) by lia.
    rewrite seq_S, flat_map_app. simpl.
    rewrite app_nil_r, Z2Nat.id, app_assoc by lia. reflexivity.
  - exact Hrun.
Qed.

(** The bytes [saveToWaveFile] hands over: the header, then the samples in
    the order of [samples_payload]. *)
Lemma saveToWaveFile_bytes (p : Platform) (this : AudioFile) :
  bitDepth this = 8 \/ bitDepth this = 16 \/ bitDepth this = 24 ->
  44 + getNumSamplesPerChannel this * getNumChannels this * (bitDepth this / 8)
  <= INT32_MAX ->
  saveToWaveFile p this
  = WriteDataToFile
      (wave_header (getNumChannels this) (sampleRate this) (bitDepth this)
         (getNumSamplesPerChannel this * getNumChannels this
          * (bitDepth this / 8))
       ++ samples_payload p this).
Proof.
  intros Hbd Hfit.
  destruct (saveToWaveFile_assembled p this Hbd Hfit) as (payload & Hp & _).
  rewrite Hp. do 2 f_equal.
  revert Hp. unfold saveToWaveFile.
  rewrite !addStringToFileData_ascii, !addInt32ToFileData_le,
    !addInt16ToFileData_le.
  match goal with
  | |- context [for_range 0 ?n ?outer ?init] =>
      rewrite (for_range_appends_content outer
                 (fun i =>
                    flat_map
                      (fun channel =>
                         encodedSample p (bitDepth this)
                           (sampleAt (samples this) (Z.of_nat channel) i))
                      (seq 0 (Z.to_nat (getNumChannels this))))
                 n init)
  end.
  - fold (samples_payload p this).
    match goal with
    | |- (if ?check then _ else _) = _ -> _ => destruct check; [discriminate|]
    end.
    intros Heq.
    apply (f_equal (fun o => match o with
                             | WriteDataToFile d => d
                             | _ => []
                             end)) in Heq.
    cbv beta iota in Heq.
    apply app_inj_1 in Heq; [symmetry; apply Heq|].
    rewrite !length_app, !length_le_bytes, length_wave_header. reflexivity.
  - apply getNumSamplesPerChannel_nonneg.
  - intros i fd Hi.
    match goal with
    | |- for_range 0 ?c ?inner fd = _ =>
        rewrite (for_range_appends_content inner
                   (fun channel =>
                      encodedSample p (bitDepth this)
                        (sampleAt (samples this) channel i))
                   c fd)
    end.
    + reflexivity.
    + apply getNumChannels_nonneg.
    + intros channel fd' Hc. unfold encodedSample.
      destruct Hbd as [->|[->| ->]]; cbn [Z.eqb Pos.eqb].
      * reflexivity.
      * now rewrite !addInt16ToFileData_le.
      * unfold LinkedList.Append. rewrite <- !app_assoc. reflexivity.
Qed.

(** X22.  For a bit depth of 8, 16 or 24 (and a file size that fits
    [int32_t]) the bytes after the 44-byte header are the samples block by
    block: for each sample index in turn, one encoded sample of each channel
    in turn. *)
Theorem saveToWaveFile_interleaves (p : Platform) (this : AudioFile) :
  equal_length_channels (samples this) ->
  bitDepth this = 8 \/ bitDepth this = 16 \/ bitDepth this = 24 ->
  44 + getNumSamplesPerChannel this * getNumChannels this * (bitDepth this / 8)
  <= INT32_MAX ->
  saveToWaveFile p this
  = WriteDataToFile
      (wave_header (getNumChannels this) (sampleRate this) (bitDepth this)
         (getNumSamplesPerChannel this * getNumChannels this
          * (bitDepth this / 8))
       ++ flat_map
            (fun i : nat =>
               flat_map
                 (fun channel : nat =>
                    encodedSample p (bitDepth this)
                      (sampleAt (samples this) (Z.of_nat channel) (Z.of_nat i)))
                 (seq 0 (Z.to_nat (getNumChannels this))))
            (seq 0 (Z.to_nat (getNumSamplesPerChannel this)))).
Proof. intros _ Hbd Hfit. now rewrite saveToWaveFile_bytes. Qed.

Lemma saveToWaveFile_interleaves_witness :
  let this :=
    mkAudioFile [[(1 # 2)%Q; (1 # 4)%Q]; [(- 1 # 2)%Q; (- 1 # 4)%Q]]
      NotLoaded 8000 24 in
  saveToWaveFile signed_char_platform this
  = WriteDataToFile
      (wave_header 2 8000 24 12
       ++ flat_map
            (fun i : nat =>
               flat_map
                 (fun channel : nat =>
                    encodedSample signed_char_platform 24
                      (sampleAt (samples this) (Z.of_nat channel) (Z.of_nat i)))
                 (seq 0 2))
            (seq 0 2)).
Proof.
  intros this. apply (saveToWaveFile_interleaves signed_char_platform this).
  - intros c1 c2 [<-|[<-|[]]] [<-|[<-|[]]]; reflexivity.
  - right. right. reflexivity.
  - vm_compute. discriminate.
Defined.

Lemma encodedSample_constant (p : Platform) (bitDepth : Z)
    (sample sample' : T) :
  bitDepth = 8 \/ bitDepth = 16 ->
  encodedSample p bitDepth sample = encodedSample p bitDepth sample'.
Proof.
  intros [->| ->]; unfold encodedSample; cbn [Z.eqb Pos.eqb].
  - now rewrite !sampleToSingleByte_constant.
  - now rewrite !sampleToSixteenBitInt_constant.
Qed.

(** X23.  At bit depths 8 and 16 the file does not depend on the sample
    values: two buffers with the same channel count, sample count, sample
    rate and bit depth are written as the same bytes (every sample is
    written as the largest code, since [clamp] returns its upper bound). *)
Theorem saveToWaveFile_ignores_samples (p : Platform) (this other : AudioFile) :
  equal_length_channels (samples this) ->
  equal_length_channels (samples other) ->
  bitDepth this = 8 \/ bitDepth this = 16 ->
  bitDepth other = bitDepth this ->
  sampleRate other = sampleRate this ->
  getNumChannels other = getNumChannels this ->
  getNumSamplesPerChannel other = getNumSamplesPerChannel this ->
  44 + getNumSamplesPerChannel this * getNumChannels this * (bitDepth this / 8)
  <= INT32_MAX ->
  saveToWaveFile p other = saveToWaveFile p this.
Proof.
  intros _ _ Hbd Hb Hs Hc Hn Hfit.
  rewrite (saveToWaveFile_bytes p this) by (assumption || tauto).
  rewrite (saveToWaveFile_bytes p other)
    by (rewrite ?Hb, ?Hc, ?Hn; (assumption || tauto)).
  rewrite Hb, Hs, Hc, Hn. do 2 f_equal.
  unfold samples_payload. rewrite Hb, Hc, Hn.
  apply flat_map_ext. intros i. apply flat_map_ext. intros channel.
  now apply encodedSample_constant.
Qed.

Lemma saveToWaveFile_ignores_samples_witness :
  saveToWaveFile signed_char_platform
    (mkAudioFile [[0%Q; (1 # 2)%Q]] NotLoaded 8000 16)
  = saveToWaveFile signed_char_platform
      (mkAudioFile [[(- 1)%Q; (1 # 3)%Q]] Wave 8000 16).
Proof.
  apply (saveToWaveFile_ignores_samples signed_char_platform
           (mkAudioFile [[(- 1)%Q; (1 # 3)%Q]] Wave 8000 16)
           (mkAudioFile [[0%Q; (1 # 2)%Q]] NotLoaded 8000 16));
    try reflexivity.
  - apply equal_length_mono.
  - apply equal_length_mono.
  - right. reflexivity.
  - vm_compute. discriminate.
Defined.

(** ** Round trip at every supported bit depth *)

(** What [decodeWaveFile] reads in a stream that starts with a header of
    [wave_header], when the search finds the two chunks where the header has
    them and the sample rate, the byte rate and the data size are read as
    written (the other fields are below 0x80). *)
Lemma encoded_stream_fields (p : Platform) (c sr bd dcs : Z)
    (payload : list Z) :
  let s := bytesToString (wave_header c sr bd dcs ++ payload) in
  getIndexOfString s "fmt" = 12 ->
  getIndexOfString s "data" = 36 ->
  c = 1 \/ c = 2 ->
  bd = 8 \/ bd = 16 \/ bd = 24 ->
  0 <= sr < 2 ^ 32 ->
  0 <= dcs <= INT32_MAX ->
  read_as_written p 4 sr = true ->
  read_as_written p 4 (uint32_t (c * sr * bd) / 8) = true ->
  read_as_written p 4 dcs = true ->
  fmt_audioFormat p s = 1
  /\ fmt_numChannels p s = c
  /\ fmt_sampleRate p s = sr
  /\ fmt_numBytesPerSecond p s = uint32_t (c * sr * bd) / 8
  /\ fmt_numBytesPerBlock p s = c * (bd / 8)
  /\ fmt_bitDepth p s = bd
  /\ data_chunkSize p s = dcs
  /\ data_samplesStart s = 44.
Proof.
  intros s Hfmt Hdata Hc Hbd Hsr Hdcs Hrsr Hrbps Hrdcs.
  set (header := wave_header c sr bd dcs) in *.
  assert (Hhl : Z.of_nat (length header) = 44) by reflexivity.
  assert (Hsmall : forall v, 0 <= v < 128 -> read_as_written p 2 v = true)
    by (intros v Hv; now apply read_as_written_small).
  unfold fmt_audioFormat, fmt_numChannels, fmt_sampleRate,
    fmt_numBytesPerSecond, fmt_numBytesPerBlock, fmt_bitDepth, data_chunkSize,
    data_samplesStart.
  rewrite Hfmt, Hdata. unfold s.
  rewrite (twoBytes_field p header payload (12 + 8) 1)
    by (reflexivity || lia || (apply Hsmall; lia)).
  rewrite (twoBytes_field p header payload (12 + 10) c)
    by (reflexivity || lia || (apply Hsmall; lia)).
  rewrite (fourBytes_field p header payload (12 + 12) sr)
    by (reflexivity || lia || assumption).
  rewrite (fourBytes_field p header payload (12 + 16) (uint32_t (c * sr * bd) / 8))
    by (reflexivity || lia || assumption).
  rewrite (twoBytes_field p header payload (12 + 20) (c * (bd / 8)))
    by (reflexivity || lia
        || (apply Hsmall; destruct Hc as [->| ->], Hbd as [->|[->| ->]];
            split; (reflexivity || discriminate))).
  rewrite (twoBytes_field p header payload (12 + 22) bd)
    by (reflexivity || lia || (apply Hsmall; lia)).
  rewrite (fourBytes_field p header payload (36 + 4) dcs)
    by (reflexivity || lia || assumption).
  rewrite !uint32_t_int32_t.
  split; [reflexivity|].
  split; [destruct Hc as [->| ->]; reflexivity|].
  split; [now apply uint32_t_id|].
  split.
  { apply uint32_t_id.
    assert (0 <= uint32_t (c * sr * bd) < 2 ^ 32)
      by (apply Z.mod_pos_bound; lia).
    split; [apply Z.div_pos; lia|]. apply Z.div_lt_upper_bound; lia. }
  split; [destruct Hc as [->| ->], Hbd as [->|[->| ->]]; reflexivity|].
  split; [destruct Hbd as [->|[->| ->]]; reflexivity|].
  split; [now apply int32_t_id|reflexivity].
Qed.

Lemma encoded_stream_decodes (p : Platform) (this that : AudioFile)
    (payload : list Z) :
  let c := getNumChannels this in
  let n := getNumSamplesPerChannel this in
  let k := bitDepth this / 8 in
  let s :=
    bytesToString
      (wave_header c (sampleRate this) (bitDepth this) (n * c * k) ++ payload) in
  c = 1 \/ c = 2 ->
  bitDepth this = 8 \/ bitDepth this = 16 \/ bitDepth this = 24 ->
  0 <= sampleRate this < 2 ^ 32 ->
  44 + n * c * k <= INT32_MAX ->
  read_as_written p 4 (sampleRate this) = true ->
  read_as_written p 4 (uint32_t (c * sampleRate this * bitDepth this) / 8)
  = true ->
  read_as_written p 4 (n * c * k) = true ->
  getIndexOfString s "fmt" = 12 ->
  getIndexOfString s "data" = 36 ->
  exists decoded : AudioFile,
    decodeWaveFile p that s = (decoded, true)
    /\ getNumChannels decoded = c
    /\ sampleRate decoded = sampleRate this
    /\ bitDepth decoded = bitDepth this
    /\ forall channel, 0 <= channel < c ->
         channelAt (samples decoded) channel
         = map (fun i =>
                  decodedSample p (bitDepth this) s
                    (44 + c * k * Z.of_nat i + channel * k))
             (seq 0 (Z.to_nat n)).
Proof.
  intros c n k s Hc Hbd Hsr Hfit Hrsr Hrbps Hrsize Hfmt Hdata.
  pose proof (getNumSamplesPerChannel_nonneg this) as Hn. fold n in Hn.
  assert (Hk : 1 <= k <= 3 /\ bitDepth this = 8 * k).
  { unfold k. destruct Hbd as [->|[->| ->]]; split; (reflexivity || easy). }
  destruct Hk as (Hk & Hbdk).
  assert (Hquot : bitDepth this ÷ 8 = k).
  { rewrite Hbdk, Z.mul_comm. apply Z.quot_mul. lia. }
  assert (Hdcs : 0 <= n * c * k <= INT32_MAX) by (unfold INT32_MAX in *; nia).
  destruct (encoded_stream_fields p c (sampleRate this) (bitDepth this)
              (n * c * k) payload Hfmt Hdata Hc Hbd Hsr Hdcs Hrsr Hrbps Hrsize)
    as (Haf & Hnc & Hrate & Hbps & Hblk & Hdepth & Hsize & Hstart).
  fold k in Hblk. fold s in Haf, Hnc, Hrate, Hbps, Hblk, Hdepth, Hsize, Hstart.
  destruct (decodeWaveFile_accepts p that s) as (decoded & Hdec).
  - reflexivity.
  - reflexivity.
  - rewrite Hdata. discriminate.
  - rewrite Hfmt. discriminate.
  - exact Haf.
  - rewrite Hnc. exact Hc.
  - now rewrite Hbps, Hnc, Hrate, Hdepth.
  - now rewrite Hblk, Hnc, Hdepth, Hquot.
  - rewrite Hdepth. exact Hbd.
  - exists decoded. split; [exact Hdec|].
    destruct (decodeWaveFile_true p that decoded s Hdec)
      as (_ & _ & _ & _ & _ & _ & _ & _ & _ & Hdsr & Hdbd & _ & Hdlen & Hch).
    rewrite Hnc, Hdepth, Hsize, Hstart, Hblk, Hquot in *.
    assert (Hcount : n * c * k ÷ (c * bitDepth this ÷ 8) = n).
    { rewrite Hbdk. replace (c * (8 * k)) with (c * k * 8) by ring.
      rewrite Z.quot_mul by lia. replace (n * c * k) with (n * (c * k)) by ring.
      apply Z.quot_mul. nia. }
    rewrite Hcount in Hch.
    split; [exact Hdlen|]. split; [congruence|]. split; [congruence|].
    exact Hch.
Qed.

(** X24.  At each of the bit depths 8, 16 and 24, for a buffer of one or
    two channels (sample rate within 32 bits, file size within [int32_t])
    whose encoding has its first "fmt" at offset 12 and its first "data" at
    offset 36, and whose sample rate, byte rate and data size are read as
    written (plain [char] is unsigned, or their bytes below the top one are
    less than 0x80): [decodeWaveFile] accepts what [saveToWaveFile] hands
    over and gives back the channel count, the sample count of every
    channel, the sample rate and the bit depth. *)
Theorem roundtrip_shape_at_every_bit_depth (p : Platform)
    (this that : AudioFile) (fileData : list Z) :
  getNumChannels this = 1 \/ getNumChannels this = 2 ->
  equal_length_channels (samples this) ->
  bitDepth this = 8 \/ bitDepth this = 16 \/ bitDepth this = 24 ->
  0 <= sampleRate this < 2 ^ 32 ->
  44 + getNumSamplesPerChannel this * getNumChannels this * (bitDepth this / 8)
  <= INT32_MAX ->
  read_as_written p 4 (sampleRate this) = true ->
  read_as_written p 4
    (uint32_t (getNumChannels this * sampleRate this * bitDepth this) / 8)
  = true ->
  read_as_written p 4
    (getNumSamplesPerChannel this * getNumChannels this * (bitDepth this / 8))
  = true ->
  saveToWaveFile p this = WriteDataToFile fileData ->
  getIndexOfString (bytesToString fileData) "fmt" = 12 ->
  getIndexOfString (bytesToString fileData) "data" = 36 ->
  exists decoded : AudioFile,
    decodeWaveFile p that (bytesToString fileData) = (decoded, true)
    /\ getNumChannels decoded = getNumChannels this
    /\ (forall channel, 0 <= channel < getNumChannels this ->
          LinkedList.size (channelAt (samples decoded) channel)
          = getNumSamplesPerChannel this)
    /\ getSampleRate decoded = getSampleRate this
    /\ getBitDepth decoded = getBitDepth this.
Proof.
  intros Hc _ Hbd Hsr Hfit Hrsr Hrbps Hrsize Hsave Hfmt Hdata.
  pose proof (getNumSamplesPerChannel_nonneg this) as Hn.
  rewrite (saveToWaveFile_bytes p this Hbd Hfit) in Hsave.
  assert (Hfd : fileData
                = wave_header (getNumChannels this) (sampleRate this)
                    (bitDepth this)
                    (getNumSamplesPerChannel this * getNumChannels this
                     * (bitDepth this / 8))
                  ++ samples_payload p this) by congruence.
  clear Hsave. subst fileData.
  destruct (encoded_stream_decodes p this that (samples_payload p this)
              Hc Hbd Hsr Hfit Hrsr Hrbps Hrsize Hfmt Hdata)
    as (decoded & Hdec & Hdc & Hdsr & Hdbd & Hch).
  exists decoded. split; [exact Hdec|]. split; [exact Hdc|].
  split; [|split; assumption].
  intros channel Hchan. rewrite (Hch channel Hchan).
  unfold LinkedList.size. rewrite length_map, length_seq. lia.
Qed.

Lemma roundtrip_shape_at_every_bit_depth_witness :
  let this := mkAudioFile [[(1 # 2)%Q; (- 1 # 4)%Q]] NotLoaded 8000 8 in
  let fileData :=
    [82; 73; 70; 70; 38; 0; 0; 0; 87; 65; 86; 69; 102; 109; 116; 32;
     16; 0; 0; 0; 1; 0; 1; 0; 64; 31; 0; 0; 64; 31; 0; 0; 1; 0; 8; 0;
     100; 97; 116; 97; 2; 0; 0; 0; 255; 255] in
  exists decoded : AudioFile,
    decodeWaveFile signed_char_platform AudioFile_new (bytesToString fileData)
    = (decoded, true)
    /\ getNumChannels decoded = getNumChannels this
    /\ (forall channel, 0 <= channel < getNumChannels this ->
          LinkedList.size (channelAt (samples decoded) channel)
          = getNumSamplesPerChannel this)
    /\ getSampleRate decoded = getSampleRate this
    /\ getBitDepth decoded = getBitDepth this.
Proof.
  intros this fileData.
  apply (roundtrip_shape_at_every_bit_depth signed_char_platform this
           AudioFile_new fileData).
  - left. reflexivity.
  - apply equal_length_mono.
  - left. reflexivity.
  - split; [discriminate|reflexivity].
  - vm_compute. discriminate.
  - reflexivity.
  - reflexivity.
  - reflexivity.
  - vm_compute. reflexivity.
  - vm_compute. reflexivity.
  - vm_compute. reflexivity.
Defined.

(** ** Round trip of the samples at 24 bits *)

Lemma length_flat_map_uniform {A : Type} (g : nat -> list A) (k : nat) :
  (forall j, length (g j) = k) ->
  forall n a, length (flat_map g (seq a n)) = (n * k)%nat.
Proof.
  intros Hg. induction n as [|n IH]; intros a; [reflexivity|].
  simpl. now rewrite length_app, Hg, IH.
Qed.

(** Block [j] of a sequence of blocks of one length. *)
Lemma nth_flat_map_uniform (g : nat -> list Z) (k : nat) :
  (forall j, length (g j) = k) ->
  forall n a j r, (j < n)%nat -> (r < k)%nat ->
    nth (j * k + r) (flat_map g (seq a n)) 0 = nth r (g (a + j)%nat) 0.
Proof.
  intros Hg. induction n as [|n IH]; intros a j r Hj Hr; [lia|].
  simpl. destruct j as [|j].
  - rewrite app_nth1 by (rewrite Hg; lia). now rewrite Nat.add_0_r.
  - rewrite app_nth2 by (rewrite Hg; lia). rewrite Hg.
    replace (Datatypes.S j * k + r - k)%nat with (j * k + r)%nat by lia.
    rewrite IH by lia. f_equal. f_equal. lia.
Qed.

Lemma length_encodedSample_24 (p : Platform) (sample : T) :
  length (encodedSample p 24 sample) = 3%nat.
Proof. reflexivity. Qed.

(** Where the bytes of one sample are in the payload of a 24-bit file. *)
Lemma samples_payload_24 (p : Platform) (this : AudioFile)
    (channel i r : nat) :
  bitDepth this = 24 ->
  (channel < Z.to_nat (getNumChannels this))%nat ->
  (i < Z.to_nat (getNumSamplesPerChannel this))%nat ->
  (r < 3)%nat ->
  nth (i * (Z.to_nat (getNumChannels this) * 3) + (channel * 3 + r))
    (samples_payload p this) 0
  = digit r
      (float_to_int32 p
         (sampleAt (samples this) (Z.of_nat channel) (Z.of_nat i)
          * inject_Z 8388608)%Q).
Proof.
  intros Hbd Hc Hi Hr. unfold samples_payload. rewrite Hbd.
  set (inner := fun i0 : nat =>
                  flat_map
                    (fun channel0 : nat =>
                       encodedSample p 24
                         (sampleAt (samples this) (Z.of_nat channel0)
                            (Z.of_nat i0)))
                    (seq 0 (Z.to_nat (getNumChannels this)))).
  assert (Hinner : forall j,
            length (inner j) = (Z.to_nat (getNumChannels this) * 3)%nat).
  { intros j. unfold inner. apply length_flat_map_uniform.
    intros c. apply length_encodedSample_24. }
  rewrite (nth_flat_map_uniform inner _ Hinner) by lia.
  unfold inner.
  rewrite (nth_flat_map_uniform _ 3) by (lia || (intros; reflexivity)).
  cbn [Nat.add]. unfold encodedSample. cbn [Z.eqb Pos.eqb].
  rewrite sampleToThreeBytes_le. unfold le_bytes.
  rewrite (nth_indep _ 0 (digit 0 (float_to_int32 p
             (sampleAt (samples this) (Z.of_nat channel) (Z.of_nat i)
              * inject_Z 8388608)%Q)))
    by (rewrite length_map, length_seq; lia).
  rewrite (map_nth (fun k => digit k _)), seq_nth by lia. reflexivity.
Qed.

(** X25.  At 24 bits, under the conditions of X24, every sample that lies in
    [-256, 256) and whose 24-bit value is read as written comes back as
    that value over 8388608: a sample that is a multiple of 1/8388608 in
    [-1, 1) comes back exactly, any other loses the fraction of
    [sample * 8388608] and wraps modulo 2^24 (nothing is clamped). *)
Theorem roundtrip_samples_at_24_bits (p : Platform) (this that : AudioFile)
    (fileData : list Z) :
  getNumChannels this = 1 \/ getNumChannels this = 2 ->
  equal_length_channels (samples this) ->
  bitDepth this = 24 ->
  0 <= sampleRate this < 2 ^ 32 ->
  44 + getNumSamplesPerChannel this * getNumChannels this * 3 <= INT32_MAX ->
  read_as_written p 4 (sampleRate this) = true ->
  read_as_written p 4 (uint32_t (getNumChannels this * sampleRate this * 24) / 8)
  = true ->
  read_as_written p 4 (getNumSamplesPerChannel this * getNumChannels this * 3)
  = true ->
  saveToWaveFile p this = WriteDataToFile fileData ->
  getIndexOfString (bytesToString fileData) "fmt" = 12 ->
  getIndexOfString (bytesToString fileData) "data" = 36 ->
  exists decoded : AudioFile,
    decodeWaveFile p that (bytesToString fileData) = (decoded, true)
    /\ forall channel i,
         0 <= channel < getNumChannels this ->
         0 <= i < getNumSamplesPerChannel this ->
         (-256 <= sampleAt (samples this) channel i)%Q ->
         (sampleAt (samples this) channel i < 256)%Q ->
         read_as_written p 3
           (truncate (sampleAt (samples this) channel i * inject_Z 8388608)%Q)
         = true ->
         sampleAt (samples decoded) channel i
         = (inject_Z (twentyFourBitValue (sampleAt (samples this) channel i))
            / inject_Z 8388608)%Q.
Proof.
  intros Hc _ Hbd Hsr Hfit Hrsr Hrbps Hrsize Hsave Hfmt Hdata.
  assert (Hbd3 : bitDepth this = 8 \/ bitDepth this = 16 \/ bitDepth this = 24)
    by tauto.
  assert (Hfit' : 44 + getNumSamplesPerChannel this * getNumChannels this
                       * (bitDepth this / 8) <= INT32_MAX)
    by (rewrite Hbd; exact Hfit).
  rewrite (saveToWaveFile_bytes p this Hbd3 Hfit') in Hsave.
  assert (Hfd : fileData
                = wave_header (getNumChannels this) (sampleRate this)
                    (bitDepth this)
                    (getNumSamplesPerChannel this * getNumChannels this
                     * (bitDepth this / 8))
                  ++ samples_payload p this) by congruence.
  clear Hsave. subst fileData.
  destruct (encoded_stream_decodes p this that (samples_payload p this)
              Hc Hbd3 Hsr Hfit') as (decoded & Hdec & _ & _ & _ & Hch);
    try (assumption || (rewrite Hbd; assumption)).
  exists decoded. split; [exact Hdec|].
  intros channel i Hchan Hi Hlo Hhi Hplain. unfold sampleAt at 1.
  rewrite (Hch channel Hchan).
  replace i with (Z.of_nat (Z.to_nat i)) at 1 by lia.
  rewrite at_nat.
  match goal with
  | |- nth _ (map ?f _) _ = _ =>
      rewrite (nth_indep _ 0%Q (f 0%nat))
        by (rewrite length_map, length_seq; lia);
      rewrite (map_nth f), seq_nth by lia
  end.
  cbn [Nat.add]. rewrite Z2Nat.id by lia.
  rewrite Hbd. change (24 / 8) with 3.
  unfold decodedSample. cbn [Z.eqb Pos.eqb]. unfold twentyFourBitValue.
  set (header := wave_header (getNumChannels this) (sampleRate this) 24
                   (getNumSamplesPerChannel this * getNumChannels this * 3)).
  assert (Hbyte : forall r : nat, (r < 3)%nat ->
            byteAt (bytesToString (header ++ samples_payload p this))
              (44 + getNumChannels this * 3 * i + channel * 3 + Z.of_nat r)
            = digit r (truncate (sampleAt (samples this) channel i
                                 * inject_Z 8388608)%Q)).
  { intros r Hr.
    replace (44 + getNumChannels this * 3 * i + channel * 3 + Z.of_nat r)
      with (LinkedList.size header
            + (getNumChannels this * 3 * i + channel * 3 + Z.of_nat r))
      by (unfold header, LinkedList.size; rewrite length_wave_header; lia).
    rewrite byteAt_appended by nia.
    replace (Z.to_nat (getNumChannels this * 3 * i + channel * 3 + Z.of_nat r))
      with (Z.to_nat i * (Z.to_nat (getNumChannels this) * 3)
            + (Z.to_nat channel * 3 + r))%nat by nia.
    rewrite (samples_payload_24 p this (Z.to_nat channel) (Z.to_nat i) r)
      by (assumption || lia).
    rewrite !Z2Nat.id by lia.
    rewrite float_to_int32_fits by now apply scaled_sample_fits.
    apply uint8_t_id. apply digit_range. }
  apply threeBytesToSample_digits; [| | |exact Hplain].
  - rewrite <- (Z.add_0_r (44 + _ + _)). apply (Hbyte 0%nat). lia.
  - apply (Hbyte 1%nat). lia.
  - apply (Hbyte 2%nat). lia.
Qed.

Lemma roundtrip_samples_at_24_bits_witness :
  let this :=
    mkAudioFile [[(1 # 2)%Q; (1 # 4)%Q]; [(- 1 # 2)%Q; (- 1 # 4)%Q]]
      NotLoaded 11025 24 in
  let fileData :=
    [82; 73; 70; 70; 48; 0; 0; 0; 87; 65; 86; 69; 102; 109; 116; 32;
     16; 0; 0; 0; 1; 0; 2; 0; 17; 43; 0; 0; 102; 2; 1; 0; 6; 0; 24; 0;
     100; 97; 116; 97; 12; 0; 0; 0;
     0; 0; 64; 0; 0; 192; 0; 0; 32; 0; 0; 224] in
  exists decoded : AudioFile,
    decodeWaveFile signed_char_platform AudioFile_new (bytesToString fileData)
    = (decoded, true)
    /\ forall channel i,
         0 <= channel < 2 -> 0 <= i < 2 ->
         sampleAt (samples decoded) channel i
         = (inject_Z (twentyFourBitValue (sampleAt (samples this) channel i))
            / inject_Z 8388608)%Q.
Proof.
  intros this fileData.
  destruct (roundtrip_samples_at_24_bits signed_char_platform this
              AudioFile_new fileData) as (decoded & Hdec & Hall).
  - right. reflexivity.
  - intros c1 c2 [<-|[<-|[]]] [<-|[<-|[]]]; reflexivity.
  - reflexivity.
  - split; [discriminate|reflexivity].
  - vm_compute. discriminate.
  - reflexivity.
  - reflexivity.
  - reflexivity.
  - vm_compute. reflexivity.
  - vm_compute. reflexivity.
  - vm_compute. reflexivity.
  - exists decoded. split; [exact Hdec|].
    intros channel i Hc Hi.
    assert (Hcases : (channel = 0 \/ channel = 1) /\ (i = 0 \/ i = 1)) by lia.
    destruct Hcases as ([->| ->] & [->| ->]);
      (apply Hall; [assumption|assumption|discriminate|reflexivity|reflexivity]).
Defined.
